(** * table-stats-local: the storage layer (storage.py), embedded in Rocq

    The development follows storage.py function by function.  Python values
    are modelled as follows.

    - A [str] is a Rocq [string] holding the UTF-8 encoding of the text.
      [str.strip] removes the characters for which [str.isspace] is true,
      recognised on their UTF-8 encodings.
    - A JSON document is a [value]: [None], [bool], [int], [float], [str],
      [list] and [dict] with string keys.  A [float] is kept as its [repr],
      the shortest text that reads back as the same float, which is also
      what [str] returns for it.  A [dict] is an association list in
      insertion order: every key occurs once, [get] reads and item
      assignment replaces the binding of the key in place or appends it.
    - [datetime.date] is a calendar triple; [d + timedelta(days=i)] is [i]
      steps to the next day and raises [OverflowError] after 9999-12-31.
      [date.fromisoformat] reads the format YYYY-MM-DD that [isoformat]
      writes (newer Python versions also read the basic and the week
      formats; no statement below depends on what happens on those).
    - [decimal.Decimal] follows the General Decimal Arithmetic of the
      default context: 28 digits, ROUND_HALF_EVEN, Emax 999999, Emin
      -999999, traps on InvalidOperation, DivisionByZero and Overflow.
      The numeric parsers read ASCII digits.
    - The clock, the uuid generator and the file system are the state of a
      small state-and-exception monad.  The JSON codec, [json.dumps] and
      [json.loads], is a pair of parameters. *)

From Stdlib Require Import ZArith NArith List String Ascii Bool Lia.
From stdpp Require Import gmap strings.

Local Open Scope string_scope.
Set Warnings "-register-all".

(** ** Strings *)

Module PyStr.

Definition code (c : ascii) : N := N_of_ascii c.

(** ASCII characters with [isspace]: TAB..CR, FS..US and the space. *)
Definition ascii_space (c : ascii) : bool :=
  let n := code c in
  ((9 <=? n) && (n <=? 13) || (28 <=? n) && (n <=? 32))%N.

(** The remaining [isspace] characters, by their UTF-8 bytes:
    U+0085, U+00A0 (two bytes), U+1680, U+2000..U+200A, U+2028, U+2029,
    U+202F, U+205F and U+3000 (three bytes). *)
Definition space2 (a b : ascii) : bool :=
  ((code a =? 194) && ((code b =? 133) || (code b =? 160)))%N.

Definition space3 (a b c : ascii) : bool :=
  let x := code a in let y := code b in let z := code c in
  ((x =? 225) && (y =? 154) && (z =? 128)
   || (x =? 226) && (y =? 128)
      && ((128 <=? z) && (z <=? 138) || (z =? 168) || (z =? 169) || (z =? 175))
   || (x =? 226) && (y =? 129) && (z =? 159)
   || (x =? 227) && (y =? 128) && (z =? 128))%N.

(** [s.lstrip()] *)
Fixpoint lstrip (s : string) : string :=
  match s with
  | EmptyString => s
  | String a r1 =>
      if ascii_space a then lstrip r1
      else match r1 with
           | EmptyString => s
           | String b r2 =>
               if space2 a b then lstrip r2
               else match r2 with
                    | EmptyString => s
                    | String c r3 => if space3 a b c then lstrip r3 else s
                    end
           end
  end.

(** A string all of whose characters are spaces. *)
Definition all_space (s : string) : bool :=
  match lstrip s with EmptyString => true | _ => false end.

(** [s.rstrip()] *)
Fixpoint rstrip (s : string) : string :=
  match s with
  | EmptyString => EmptyString
  | String a r => if all_space s then EmptyString else String a (rstrip r)
  end.

(** [s.strip()] *)
Definition strip (s : string) : string := rstrip (lstrip s).

Definition is_empty (s : string) : bool :=
  match s with EmptyString => true | _ => false end.

(** [s.rstrip(c)] for a one-character argument. *)
Fixpoint rstrip_char (c : ascii) (s : string) : string :=
  match s with
  | EmptyString => EmptyString
  | String a r =>
      let r' := rstrip_char c r in
      if is_empty r' && Ascii.eqb a c then EmptyString else String a r'
  end.

(** [c in s] for a one-character [c]. *)
Fixpoint contains_char (c : ascii) (s : string) : bool :=
  match s with
  | EmptyString => false
  | String a r => Ascii.eqb a c || contains_char c r
  end.

(** [s.replace(c, "")] for a one-character [c]. *)
Fixpoint remove_char (c : ascii) (s : string) : string :=
  match s with
  | EmptyString => EmptyString
  | String a r => if Ascii.eqb a c then remove_char c r else String a (remove_char c r)
  end.

Definition is_digit (c : ascii) : bool := ((48 <=? code c) && (code c <=? 57))%N.

Definition digit_val (c : ascii) : N := (code c - 48)%N.

Definition digit_char (d : N) : ascii := ascii_of_N (48 + d).

(** ASCII lower case of one character, as the case-insensitive parsers use. *)
Definition lower (c : ascii) : ascii :=
  if ((65 <=? code c) && (code c <=? 90))%N then ascii_of_N (code c + 32) else c.

Fixpoint lower_str (s : string) : string :=
  match s with
  | EmptyString => EmptyString
  | String a r => String (lower a) (lower_str r)
  end.

(** The decimal digits of [n], most significant first; [fuel] bounds their
    number. *)
Fixpoint digits_fuel (fuel : nat) (n : N) (acc : string) : string :=
  match fuel with
  | O => acc
  | S f =>
      let acc' := String (digit_char (n mod 10)) acc in
      if (n <? 10)%N then acc' else digits_fuel f (n / 10) acc'
  end.

(** [str(n)] for a natural number. *)
Definition digits (n : N) : string :=
  digits_fuel (S (N.to_nat (N.log2 n))) n EmptyString.

(** The number of decimal digits of [n]; [len(str(n))]. *)
Definition ndigits (n : N) : N := N.of_nat (String.length (digits n)).

(** The value of a string of ASCII digits read in base ten. *)
Fixpoint digits_value (acc : N) (s : string) : N :=
  match s with
  | EmptyString => acc
  | String a r => digits_value (10 * acc + digit_val a) r
  end.

Fixpoint all_digits (s : string) : bool :=
  match s with
  | EmptyString => true
  | String a r => is_digit a && all_digits r
  end.

(** ["0" * n] *)
Fixpoint zeros (n : nat) : string :=
  match n with O => EmptyString | S k => String "0" (zeros k) end.

(** The prefix of [n] characters and the rest. *)
Fixpoint take (n : nat) (s : string) : string :=
  match n, s with
  | S k, String a r => String a (take k r)
  | _, _ => EmptyString
  end.

Fixpoint drop (n : nat) (s : string) : string :=
  match n, s with
  | S k, String _ r => drop k r
  | _, _ => s
  end.

(** The characters of a string, one string per code point: a byte that is
    not a UTF-8 continuation byte starts a character. *)
Definition is_cont (c : ascii) : bool := ((128 <=? code c) && (code c <=? 191))%N.

Fixpoint chars_aux (cur : string) (s : string) : list string :=
  match s with
  | EmptyString => match cur with EmptyString => [] | _ => [cur] end
  | String a r =>
      if is_cont a then chars_aux (cur ++ String a EmptyString) r
      else match cur with
           | EmptyString => chars_aux (String a EmptyString) r
           | _ => cur :: chars_aux (String a EmptyString) r
           end
  end.

Definition chars (s : string) : list string := chars_aux EmptyString s.

End PyStr.

(** ** Calendar dates: [datetime.date] *)

Module PyDate.
Import PyStr.
Local Open Scope N_scope.

Record date := mkdate { year : N; month : N; day : N }.

Definition is_leap (y : N) : bool :=
  ((y mod 4 =? 0) && negb (y mod 100 =? 0)) || (y mod 400 =? 0).

Definition days_in_month (y m : N) : N :=
  match m with
  | 2 => if is_leap y then 29 else 28
  | 4 | 6 | 9 | 11 => 30
  | _ => 31
  end.

(** The dates [date(y, m, d)] accepts: MINYEAR = 1, MAXYEAR = 9999. *)
Definition valid (d : date) : bool :=
  (1 <=? year d) && (year d <=? 9999)
  && (1 <=? month d) && (month d <=? 12)
  && (1 <=? day d) && (day d <=? days_in_month (year d) (month d)).

(** [d + timedelta(days=1)]; [None] stands for OverflowError. *)
Definition next_day (d : date) : option date :=
  if day d <? days_in_month (year d) (month d)
  then Some (mkdate (year d) (month d) (day d + 1))
  else if month d <? 12 then Some (mkdate (year d) (month d + 1) 1)
  else if year d <? 9999 then Some (mkdate (year d + 1) 1 1)
  else None.

(** [d + timedelta(days=i)] for [i >= 0]. *)
Fixpoint add_days (d : date) (i : nat) : option date :=
  match i with
  | O => Some d
  | S k => match next_day d with
           | Some d' => add_days d' k
           | None => None
           end
  end.

Definition dig (n : N) : ascii := digit_char (n mod 10).

(** [d.isoformat()], that is ["%04d-%02d-%02d" % (year, month, day)]. *)
Definition isoformat (d : date) : string :=
  String (dig (year d / 1000)) (String (dig (year d / 100)) (String (dig (year d / 10))
  (String (dig (year d)) (String "-"
  (String (dig (month d / 10)) (String (dig (month d)) (String "-"
  (String (dig (day d / 10)) (String (dig (day d)) EmptyString))))))))).

Definition num2 (a b : ascii) : option N :=
  if is_digit a && is_digit b
  then Some (10 * digit_val a + digit_val b)
  else None.

Definition num4 (a b c d : ascii) : option N :=
  if is_digit a && is_digit b && is_digit c && is_digit d
  then Some (1000 * digit_val a + 100 * digit_val b + 10 * digit_val c + digit_val d)
  else None.

(** [date.fromisoformat(s)]; [None] stands for ValueError. *)
Definition fromisoformat (s : string) : option date :=
  match s with
  | String y1 (String y2 (String y3 (String y4 (String sep1
    (String m1 (String m2 (String sep2 (String d1 (String d2 EmptyString))))))))) =>
      if Ascii.eqb sep1 "-" && Ascii.eqb sep2 "-" then
        match num4 y1 y2 y3 y4, num2 m1 m2, num2 d1 d2 with
        | Some y, Some m, Some d =>
            let r := mkdate y m d in if valid r then Some r else None
        | _, _, _ => None
        end
      else None
  | _ => None
  end.

End PyDate.

(** ** Exceptions *)

Inductive exn : Type :=
| ValueError
| TypeError
| OverflowError
| InvalidOperation   (* decimal.InvalidOperation *)
| DecimalOverflow    (* decimal.Overflow *)
| FileNotFoundError
| OSError.

Inductive result (A : Type) : Type :=
| Ok (a : A)
| Raise (e : exn).

Arguments Ok {A} a.
Arguments Raise {A} e.

Definition rbind {A B} (r : result A) (f : A -> result B) : result B :=
  match r with
  | Ok a => f a
  | Raise e => Raise e
  end.

(** ** [decimal.Decimal] in the default context *)

Module PyDecimal.
Import PyStr.
Local Open Scope Z_scope.

(** A finite number is [(-1)^neg * coeff * 10^exp]; the coefficient is the
    integer that [Decimal._int] spells. *)
Inductive decimal : Type :=
| Fin (neg : bool) (coeff : N) (exp : Z)
| Inf (neg : bool)
| NaN (neg : bool) (signaling : bool) (payload : N).

Definition prec : Z := 28.
Definition Emax : Z := 999999.
Definition Emin : Z := -999999.
Definition Etiny : Z := Emin - prec + 1.
Definition Etop : Z := Emax - prec + 1.

(** The limits of an exact conversion from a string: MAX_EMAX and
    MIN_ETINY of the 64-bit build. *)
Definition MAX_EMAX : Z := 999999999999999999.
Definition MIN_ETINY : Z := -1999999999999999997.

(** The longest prefix of ASCII digits and the rest. *)
Fixpoint span_digits (s : string) : string * string :=
  match s with
  | EmptyString => (EmptyString, EmptyString)
  | String a r =>
      if is_digit a
      then let '(ds, rest) := span_digits r in (String a ds, rest)
      else (EmptyString, s)
  end.

Definition split_sign (s : string) : bool * string :=
  match s with
  | String "-" r => (true, r)
  | String "+" r => (false, r)
  | _ => (false, s)
  end.

(** The exponent part: empty, or [e], an optional sign and digits. *)
Definition parse_exponent (s : string) : option Z :=
  match s with
  | EmptyString => Some 0
  | String "e" r =>
      let '(neg, ds) := split_sign r in
      if negb (is_empty ds) && all_digits ds
      then Some (if neg then - Z.of_N (digits_value 0 ds) else Z.of_N (digits_value 0 ds))
      else None
  | _ => None
  end.

Definition parse_finite (neg : bool) (body : string) : option decimal :=
  let '(ip, r1) := span_digits body in
  let '(fp, r2) :=
    match r1 with
    | String "." r => span_digits r
    | _ => (EmptyString, r1)
    end in
  if is_empty ip && is_empty fp then None
  else
    match parse_exponent r2 with
    | None => None
    | Some e =>
        let c := digits_value 0 (ip ++ fp) in
        let ex := e - Z.of_nat (String.length fp) in
        if (MIN_ETINY <=? ex)
           && (if (c =? 0)%N then ex <=? MAX_EMAX
               else ex + Z.of_N (ndigits c) - 1 <=? MAX_EMAX)
        then Some (Fin neg c ex)
        else None
    end.

Definition parse_nan (neg signaling : bool) (payload : string) : option decimal :=
  if all_digits payload then Some (NaN neg signaling (digits_value 0 payload)) else None.

(** The text after the sign: an infinity, a NaN with its payload, or a
    number. *)
Definition parse_body (neg : bool) (body : string) : option decimal :=
  match body with
  | "inf" | "infinity" => Some (Inf neg)
  | String "n" (String "a" (String "n" p)) => parse_nan neg false p
  | String "s" (String "n" (String "a" (String "n" p))) => parse_nan neg true p
  | _ => parse_finite neg body
  end.

(** [Decimal(s)] for a string; [None] stands for InvalidOperation
    (ConversionSyntax).  Surrounding spaces and all underscores are
    dropped and letters are read without regard to case. *)
Definition of_string (s : string) : option decimal :=
  let '(neg, body) := split_sign (lower_str (remove_char "_" (strip s))) in
  parse_body neg body.

(** Dropping the last [k] digits of [c], rounding half to even. *)
Definition round_half_even (c : N) (k : Z) : N :=
  let p := (10 ^ Z.to_N k)%N in
  let q := (c / p)%N in
  let r := (c mod p)%N in
  if (2 * r <? p)%N then q
  else if (p <? 2 * r)%N then (q + 1)%N
  else if N.even q then q else (q + 1)%N.

(** [Decimal._fix]: the result of an operation, brought into the context. *)
Definition fix_finite (neg : bool) (c : N) (e : Z) : result decimal :=
  if (c =? 0)%N then Ok (Fin neg 0 (Z.min (Z.max e Etiny) Emax))
  else
    let exp_min := Z.of_N (ndigits c) + e - prec in
    if Etop <? exp_min then Raise DecimalOverflow
    else
      let exp_min := Z.max exp_min Etiny in
      if e <? exp_min then
        let q := round_half_even c (exp_min - e) in
        let '(q, exp_min) :=
          if prec <? Z.of_N (ndigits q) then ((q / 10)%N, exp_min + 1) else (q, exp_min) in
        if Etop <? exp_min then Raise DecimalOverflow
        else Ok (Fin neg q exp_min)
      else Ok (Fin neg c e).

(** [Decimal._fix_nan]: the payload keeps its last [prec] digits. *)
Definition fix_nan (neg signaling : bool) (p : N) : decimal :=
  NaN neg signaling (p mod 10 ^ Z.to_N prec)%N.

Definition dfix (d : decimal) : result decimal :=
  match d with
  | Fin neg c e => fix_finite neg c e
  | Inf neg => Ok (Inf neg)
  | NaN neg sg p => Ok (fix_nan neg sg p)
  end.

Definition is_snan (d : decimal) : bool :=
  match d with NaN _ true _ => true | _ => false end.

Definition is_zero (d : decimal) : bool :=
  match d with Fin _ c _ => (c =? 0)%N | _ => false end.

(** [Decimal._check_nans]: a signaling NaN raises, a quiet one is the
    result (the first of the two operands that is one). *)
Definition check_nans (a b : decimal) : option (result decimal) :=
  if is_snan a || is_snan b then Some (Raise InvalidOperation)
  else match a, b with
       | NaN neg sg p, _ => Some (Ok (fix_nan neg sg p))
       | _, NaN neg sg p => Some (Ok (fix_nan neg sg p))
       | _, _ => None
       end.

(** [a * b] *)
Definition mul (a b : decimal) : result decimal :=
  match check_nans a b with
  | Some r => r
  | None =>
      match a, b with
      | Fin sa ca ea, Fin sb cb eb => fix_finite (xorb sa sb) (ca * cb) (ea + eb)
      | Inf sa, Fin sb cb _ =>
          if (cb =? 0)%N then Raise InvalidOperation else Ok (Inf (xorb sa sb))
      | Fin sa ca _, Inf sb =>
          if (ca =? 0)%N then Raise InvalidOperation else Ok (Inf (xorb sa sb))
      | Inf sa, Inf sb => Ok (Inf (xorb sa sb))
      | _, _ => Raise InvalidOperation
      end
  end.

Definition signed (neg : bool) (c : N) : Z := if neg then - Z.of_N c else Z.of_N c.

(** [a + b]: the exact sum at the smaller exponent, brought into the
    context.  A zero sum is negative only when both operands are negative
    zeros. *)
Definition add (a b : decimal) : result decimal :=
  match check_nans a b with
  | Some r => r
  | None =>
      match a, b with
      | Fin sa ca ea, Fin sb cb eb =>
          let e := Z.min ea eb in
          let z := signed sa (ca * 10 ^ Z.to_N (ea - e)) + signed sb (cb * 10 ^ Z.to_N (eb - e)) in
          if z =? 0
          then fix_finite ((ca =? 0)%N && (cb =? 0)%N && sa && sb) 0 e
          else fix_finite (z <? 0) (Z.abs_N z) e
      | Inf sa, Inf sb => if Bool.eqb sa sb then Ok (Inf sa) else Raise InvalidOperation
      | Inf sa, _ => Ok (Inf sa)
      | _, Inf sb => Ok (Inf sb)
      | _, _ => Raise InvalidOperation
      end
  end.

(** Removing trailing zeros of the coefficient while the exponent is below
    Emax. *)
Fixpoint strip_zeros (fuel : nat) (c : N) (e : Z) : N * Z :=
  match fuel with
  | O => (c, e)
  | S f =>
      if ((c mod 10 =? 0)%N && (e <? Emax))
      then strip_zeros f (c / 10)%N (e + 1)
      else (c, e)
  end.

(** [d.normalize()] *)
Definition normalize (d : decimal) : result decimal :=
  if is_snan d then Raise InvalidOperation
  else
    rbind (dfix d) (fun dup =>
      match dup with
      | Fin neg c e =>
          if (c =? 0)%N then Ok (Fin neg 0 0)
          else let '(c', e') := strip_zeros (String.length (digits c)) c e in
               Ok (Fin neg c' e')
      | _ => Ok dup
      end).

Definition sign_str (neg : bool) : string := if neg then "-" else "".

(** [format(d, "f")] *)
Definition format_f (d : decimal) : string :=
  match d with
  | Inf neg => sign_str neg ++ "Infinity"
  | NaN neg sg p =>
      sign_str neg ++ (if sg then "sNaN" else "NaN")
      ++ (if (p =? 0)%N then "" else digits p)
  | Fin neg c e =>
      let e := if (c =? 0)%N && (0 <? e) then 0 else e in
      let ds := digits c in
      let len := Z.of_nat (String.length ds) in
      let dotplace := e + len in
      let '(intpart, fracpart) :=
        if dotplace <? 0 then ("0", zeros (Z.to_nat (- dotplace)) ++ ds)
        else if len <? dotplace then (ds ++ zeros (Z.to_nat (dotplace - len)), "")
        else ((if dotplace =? 0 then "0" else take (Z.to_nat dotplace) ds),
              drop (Z.to_nat dotplace) ds) in
      sign_str neg ++ intpart ++ (if is_empty fracpart then "" else "." ++ fracpart)
  end.

(** [str(d)] is not used by the program; [repr] below is for reading
    results only: the sign, the coefficient and the exponent. *)

End PyDecimal.

(** ** Dicts as association lists in insertion order *)

Module Assoc.
Section Ops.
Context {V : Type}.

(** The binding of [k], if any. *)
Fixpoint lookup (d : list (string * V)) (k : string) : option V :=
  match d with
  | [] => None
  | (k', v) :: r => if String.eqb k' k then Some v else lookup r k
  end.

(** [d[k] = v]: the binding of [k] is replaced where it stands, a new key
    goes to the end. *)
Fixpoint set (d : list (string * V)) (k : string) (v : V) : list (string * V) :=
  match d with
  | [] => [(k, v)]
  | (k', v') :: r => if String.eqb k' k then (k, v) :: r else (k', v') :: set r k v
  end.

(** [d.setdefault(k, v)] for its effect on [d]. *)
Definition setdefault (d : list (string * V)) (k : string) (v : V) : list (string * V) :=
  match lookup d k with Some _ => d | None => set d k v end.

End Ops.
End Assoc.

(** ** Python values *)

Module Py.
Import PyStr.

Inductive value : Type :=
| VNone
| VBool (b : bool)
| VInt (z : Z)
| VFloat (r : string)   (* the float whose [repr] is [r] *)
| VStr (s : string)
| VList (l : list value)
| VDict (d : list (string * value)).

Definition dict : Type := list (string * value).

(** [d.get(k)], with the default [None], and [d.get(k, default)]. *)
Definition get (d : dict) (k : string) : value :=
  match Assoc.lookup d k with Some v => v | None => VNone end.

Definition get_default (d : dict) (k : string) (default : value) : value :=
  match Assoc.lookup d k with Some v => v | None => default end.

Definition is_dict (v : value) : bool := match v with VDict _ => true | _ => false end.
Definition is_list (v : value) : bool := match v with VList _ => true | _ => false end.
Definition is_str (v : value) : bool := match v with VStr _ => true | _ => false end.

(** [bool(v)] *)
Definition truthy (v : value) : bool :=
  match v with
  | VNone => false
  | VBool b => b
  | VInt z => negb (z =? 0)%Z
  | VFloat r => negb (String.eqb r "0.0" || String.eqb r "-0.0")
  | VStr s => negb (is_empty s)
  | VList l => match l with [] => false | _ => true end
  | VDict d => match d with [] => false | _ => true end
  end.

(** [v or ""] *)
Definition or_empty (v : value) : value := if truthy v then v else VStr "".

(** [str(z)] for an int. *)
Definition str_int (z : Z) : string :=
  match z with
  | Zneg p => "-" ++ digits (Npos p)
  | _ => digits (Z.to_N z)
  end.

Definition hex_digit (n : N) : ascii :=
  if (n <? 10)%N then ascii_of_N (48 + n) else ascii_of_N (87 + n).

(** The body of [repr(s)] between the quotes.  Characters outside ASCII
    are copied (Python escapes the few that are not printable). *)
Fixpoint repr_body (quote : ascii) (s : string) : string :=
  match s with
  | EmptyString => EmptyString
  | String a r =>
      let n := code a in
      (if Ascii.eqb a quote || (n =? 92)%N then String "\" (String a EmptyString)
       else if (n =? 10)%N then "\n"
       else if (n =? 13)%N then "\r"
       else if (n =? 9)%N then "\t"
       else if (n <? 32)%N || (n =? 127)%N
            then String "\" (String "x" (String (hex_digit (n / 16)) (String (hex_digit (n mod 16)) EmptyString)))
       else String a EmptyString) ++ repr_body quote r
  end.

Definition dquote : ascii := ascii_of_N 34.

(** [repr(s)] for a str: single quotes unless the text has a single quote
    and no double quote. *)
Definition repr_str (s : string) : string :=
  let q : ascii := if contains_char "'" s && negb (contains_char dquote s) then dquote else "'"%char in
  String q (repr_body q s ++ String q EmptyString).

Fixpoint join (sep : string) (l : list string) : string :=
  match l with
  | [] => EmptyString
  | [x] => x
  | x :: r => x ++ sep ++ join sep r
  end.

(** [repr(v)] *)
Fixpoint repr (v : value) : string :=
  match v with
  | VNone => "None"
  | VBool b => if b then "True" else "False"
  | VInt z => str_int z
  | VFloat r => r
  | VStr s => repr_str s
  | VList l => "[" ++ join ", " (map repr l) ++ "]"
  | VDict d => "{" ++ join ", " (map (fun kv => repr_str (fst kv) ++ ": " ++ repr (snd kv)) d) ++ "}"
  end.

(** [str(v)] *)
Definition str (v : value) : string :=
  match v with
  | VStr s => s
  | _ => repr v
  end.

(** [int(s)] for a str: surrounding spaces, a sign, and digits that single
    underscores may separate. *)
Fixpoint int_digits (acc : N) (prev_digit : bool) (s : string) : option N :=
  match s with
  | EmptyString => if prev_digit then Some acc else None
  | String a r =>
      if is_digit a then int_digits (10 * acc + digit_val a) true r
      else if Ascii.eqb a "_" && prev_digit then int_digits acc false r
      else None
  end.

Definition int_of_string (s : string) : option Z :=
  let '(neg, body) :=
    match strip s with
    | String "-" r => (true, r)
    | String "+" r => (false, r)
    | t => (false, t)
    end in
  match int_digits 0 false body with
  | Some n => Some (if neg then - Z.of_N n else Z.of_N n)%Z
  | None => None
  end.

(** [int(x)] for the float with repr [r]: the float nearest to the number
    that [r] spells, truncated towards zero. *)
Definition int_of_float (r : string) : result Z :=
  match PyDecimal.of_string r with
  | Some (PyDecimal.Fin neg c e) =>
      let num := (if 0 <=? e then Z.of_N c * 10 ^ e else Z.of_N c)%Z in
      let den := (if 0 <=? e then 1 else 10 ^ (- e))%Z in
      let t := (num / den)%Z in
      let m :=
        if (t <? 2 ^ 53)%Z then t
        else
          let shift := (Z.log2 t - 52)%Z in
          let d := (den * 2 ^ shift)%Z in
          let q := (num / d)%Z in
          let rem := (num mod d)%Z in
          let q := if (2 * rem <? d)%Z then q
                   else if (d <? 2 * rem)%Z then (q + 1)%Z
                   else if Z.even q then q else (q + 1)%Z in
          (q * 2 ^ shift)%Z in
      Ok (if neg then - m else m)%Z
  | Some (PyDecimal.Inf _) => Raise OverflowError
  | _ => Raise ValueError
  end.

(** [int(v)] *)
Definition int (v : value) : result Z :=
  match v with
  | VBool b => Ok (if b then 1 else 0)%Z
  | VInt z => Ok z
  | VFloat r => int_of_float r
  | VStr s => match int_of_string s with Some z => Ok z | None => Raise ValueError end
  | _ => Raise TypeError
  end.

(** Iterating over a value: the items of a list, the keys of a dict, the
    characters of a str; anything else is not iterable. *)
Definition iter (v : value) : result (list value) :=
  match v with
  | VList l => Ok l
  | VDict d => Ok (map (fun kv => VStr (fst kv)) d)
  | VStr s => Ok (map VStr (chars s))
  | _ => Raise TypeError
  end.

(** [l[:n]] for [n >= 0]. *)
Definition slice_to {A} (n : Z) (l : list A) : list A := firstn (Z.to_nat n) l.

End Py.

(** ** Python objects by reference

    For the functions whose effect on their arguments matters, lists and
    dicts are objects in a heap and a value is a scalar or a reference to
    an object.  An address is an index into the list of the objects
    allocated so far. *)

Module Ref.
Import PyStr.

Inductive hvalue : Type :=
| HNone
| HBool (b : bool)
| HInt (z : Z)
| HFloat (r : string)
| HStr (s : string)
| HRef (l : nat).

Inductive object : Type :=
| OList (items : list hvalue)
| ODict (items : list (string * hvalue)).

Abbreviation heap := (list object).

(** [bool(v)]: an object is true when it is not empty. *)
Definition truthy (h : heap) (v : hvalue) : bool :=
  match v with
  | HNone => false
  | HBool b => b
  | HInt z => negb (z =? 0)%Z
  | HFloat r => negb (String.eqb r "0.0" || String.eqb r "-0.0")
  | HStr s => negb (is_empty s)
  | HRef l =>
      match h !! l with
      | Some (OList []) | Some (ODict []) => false
      | _ => true
      end
  end.

Definition or_empty (h : heap) (v : hvalue) : hvalue :=
  if truthy h v then v else HStr "".

(** [repr(v)]: an object that is being printed shows as [[...]] or
    [{...}] inside itself.  [fuel] bounds the depth; the number of objects
    is enough. *)
Fixpoint repr (fuel : nat) (h : heap) (visiting : list nat) (v : hvalue) : string :=
  match v with
  | HNone => "None"
  | HBool b => if b then "True" else "False"
  | HInt z => Py.str_int z
  | HFloat r => r
  | HStr s => Py.repr_str s
  | HRef l =>
      match fuel with
      | O => "..."
      | S f =>
          match h !! l with
          | Some (OList items) =>
              if existsb (Nat.eqb l) visiting then "[...]"
              else "[" ++ Py.join ", " (map (repr f h (l :: visiting)) items) ++ "]"
          | Some (ODict items) =>
              if existsb (Nat.eqb l) visiting then "{...}"
              else "{" ++ Py.join ", "
                     (map (fun kv => Py.repr_str (fst kv) ++ ": " ++ repr f h (l :: visiting) (snd kv))
                          items) ++ "}"
          | None => "..."
          end
      end
  end.

(** [str(v)] *)
Definition str (h : heap) (v : hvalue) : string :=
  match v with
  | HStr s => s
  | _ => repr (S (length h)) h [] v
  end.

Definition is_dict (h : heap) (v : hvalue) : bool :=
  match v with
  | HRef l => match h !! l with Some (ODict _) => true | _ => false end
  | _ => false
  end.

Definition is_list (h : heap) (v : hvalue) : bool :=
  match v with
  | HRef l => match h !! l with Some (OList _) => true | _ => false end
  | _ => false
  end.

End Ref.

(** ** The environment: clock, uuid generator and file system *)

(** What a path holds: text, or something [read_text] cannot return (a
    directory, an unreadable file, bytes that are not UTF-8). *)
Inductive file : Type :=
| Text (s : string)
| Unreadable.

Record world : Type := mkWorld {
  clock : nat -> PyDate.date * string;  (* the n-th reading: date and HH:MM:SS *)
  ticks : nat;                          (* readings of the clock so far *)
  uuids : nat -> string;                (* uuid4().hex of the n-th call *)
  drawn : nat;                          (* uuids drawn so far *)
  fs : gmap string file;
  mem : list Ref.object                 (* the objects allocated so far *)
}.

(** The JSON codec: [json.dumps(v, ensure_ascii=False, indent=2)] and
    [json.loads]; [None] stands for JSONDecodeError. *)
Class Json : Type := {
  dumps : Py.value -> string;
  loads : string -> option Py.value
}.

(** A computation reads and updates the world and returns or raises. *)
Definition M (A : Type) : Type := world -> result A * world.

Definition ret {A} (a : A) : M A := fun w => (Ok a, w).

Definition bind {A B} (m : M A) (f : A -> M B) : M B :=
  fun w => match m w with
           | (Ok a, w') => f a w'
           | (Raise e, w') => (Raise e, w')
           end.

Definition raise {A} (e : exn) : M A := fun w => (Raise e, w).

Definition lift {A} (r : result A) : M A := fun w => (r, w).

(** [try: m except Exception: h] *)
Definition try_except {A} (m : M A) (h : exn -> M A) : M A :=
  fun w => match m w with
           | (Ok a, w') => (Ok a, w')
           | (Raise e, w') => h e w'
           end.

Notation "x <- m ;; k" := (bind m (fun x => k))
  (at level 100, m at next level, right associativity).
Notation "m ;;; k" := (bind m (fun _ => k))
  (at level 100, right associativity).

(** ** [csv.writer] with the default dialect and [lineterminator="\n"]

    A field is written as it is unless it holds a comma, a double quote
    or a line feed; then it is put between double quotes, with every
    double quote in it written twice.  (Since Python 3.13 a carriage
    return makes a field quoted as well.)  None is written as the empty
    text, a str as it is and any other value as [str] prints it.  A
    record of one empty field is written as two double quotes. *)

Module PyCsv.
Import PyStr Py.

Definition lf : ascii := ascii_of_N 10.

Definition special (c : ascii) : bool :=
  Ascii.eqb c "," || Ascii.eqb c dquote || Ascii.eqb c lf.

Fixpoint needs_quote (s : string) : bool :=
  match s with
  | EmptyString => false
  | String a r => special a || needs_quote r
  end.

Fixpoint double_quotes (s : string) : string :=
  match s with
  | EmptyString => EmptyString
  | String a r =>
      if Ascii.eqb a dquote then String dquote (String dquote (double_quotes r))
      else String a (double_quotes r)
  end.

Definition quoted (s : string) : string :=
  String dquote (double_quotes s ++ String dquote EmptyString).

Definition write_field (s : string) : string :=
  if needs_quote s then quoted s else s.

Definition field_text (v : value) : string :=
  match v with
  | VNone => EmptyString
  | _ => str v
  end.

Definition write_record (texts : list string) : string :=
  match texts with
  | [EmptyString] => quoted EmptyString ++ String lf EmptyString
  | _ => join "," (map write_field texts) ++ String lf EmptyString
  end.

(** [writer.writerow(fields)], for what it writes. *)
Definition writerow (fields : list value) : string :=
  write_record (map field_text fields).

End PyCsv.

(** ** storage.py *)

Module Storage.
Import PyStr Py.

Definition FIXED_HEADERS : list (string * string) :=
  [ ("loadDate", "装车日期");
    ("loadPlace", "装车地");
    ("vehicle", "车辆");
    ("model", "产品型号");
    ("loadNetWeight", "装车净重");
    ("unloadDate", "卸车日期");
    ("unloadPlace", "卸货地");
    ("unloadTons", "卸车数（吨）");
    ("freight", "运费");
    ("settleTons", "结算吨数");
    ("amount", "金额") ].

Definition read_clock : M (PyDate.date * string) :=
  fun w => (Ok (clock w (ticks w)),
            mkWorld (clock w) (S (ticks w)) (uuids w) (drawn w) (fs w) (mem w)).

(** [date.today()] *)
Definition date_today : M PyDate.date :=
  c <- read_clock ;; ret (fst c).

Definition now_iso : M string :=
  c <- read_clock ;; ret (PyDate.isoformat (fst c) ++ "T" ++ snd c).

Definition today_iso : M string :=
  d <- date_today ;; ret (PyDate.isoformat d).

Definition parse_iso_date (s : value) : option PyDate.date :=
  match s with
  | VStr s =>
      let s := strip s in
      if is_empty s then None else PyDate.fromisoformat s
  | _ => None
  end.

Definition uuid4_hex : M string :=
  fun w => (Ok (uuids w (drawn w)),
            mkWorld (clock w) (ticks w) (uuids w) (S (drawn w)) (fs w) (mem w)).

Definition _new_id (prefix : string) : M string :=
  h <- uuid4_hex ;; ret (prefix ++ "_" ++ take 12 h).

(** [base / name] *)
Definition path_join (base name : string) : string := base ++ "/" ++ name.

(** [path.read_text(encoding="utf-8")] *)
Definition read_text (path : string) : M string :=
  fun w => match fs w !! path with
           | None => (Raise FileNotFoundError, w)
           | Some Unreadable => (Raise OSError, w)
           | Some (Text s) => (Ok s, w)
           end.

Definition write_fs (f : gmap string file -> gmap string file) : M unit :=
  fun w => (Ok tt, mkWorld (clock w) (ticks w) (uuids w) (drawn w) (f (fs w)) (mem w)).

Section Persistence.
Context {J : Json}.

Definition json_loads (s : string) : M value :=
  match loads s with
  | Some v => ret v
  | None => raise ValueError
  end.

Definition _read_json (path : string) (default : value) : M value :=
  try_except (s <- read_text path ;; json_loads s)
    (fun e => match e with
              | FileNotFoundError => ret default
              | _ => ret default
              end).

(** The text goes to the sibling [path + ".tmp"], which then replaces
    [path]. *)
Definition _write_json_atomic (path : string) (data : value) : M unit :=
  let tmp := path ++ ".tmp" in
  write_fs (fun m => <[tmp := Text (dumps data)]> m) ;;;
  write_fs (fun m => match m !! tmp with
                     | Some f => delete tmp (<[path := f]> m)
                     | None => m
                     end).

Definition default_config : M dict :=
  now <- now_iso ;;
  ret [ ("recentTableIds", VList []);
        ("recentLimit", VInt 12);
        ("autosaveMs", VInt 600);
        ("initialRows", VInt 31);
        ("defaultVehicle", VStr "蒙J87721");
        ("defaultModel", VStr "PAC");
        ("loadPlaces", VList [VStr "装车地A"; VStr "装车地B"; VStr "装车地C"]);
        ("unloadPlaces", VList [VStr "卸货地A"; VStr "卸货地B"; VStr "卸货地C"]);
        ("updatedAt", VStr now) ].

Definition load_config (base_dir : string) : M dict :=
  let cfg_path := path_join base_dir "config.json" in
  d0 <- default_config ;;
  cfg <- _read_json cfg_path (VDict d0) ;;
  cfg <- match cfg with
         | VDict c => ret c
         | _ => default_config
         end ;;
  base <- default_config ;;
  let cfg := fold_left (fun c kv => Assoc.setdefault c (fst kv) (snd kv)) base cfg in
  let cfg := if is_list (get cfg "recentTableIds") then cfg
             else Assoc.set cfg "recentTableIds" (VList []) in
  let cfg := if is_list (get cfg "loadPlaces") then cfg
             else Assoc.set cfg "loadPlaces" (get base "loadPlaces") in
  let cfg := if is_list (get cfg "unloadPlaces") then cfg
             else Assoc.set cfg "unloadPlaces" (get base "unloadPlaces") in
  ret cfg.


Definition load_table_by_id (tables_dir : string) (table_id : string) : M (option dict) :=
  let path := path_join tables_dir (table_id ++ ".json") in
  data <- _read_json path VNone ;;
  ret (match data with VDict d => Some d | _ => None end).

Definition save_table (tables_dir : string) (table : dict) : M unit :=
  let table_id := strip (str (or_empty (get table "id"))) in
  if is_empty table_id then raise ValueError
  else
    now <- now_iso ;;
    let table := Assoc.set table "updatedAt" (VStr now) in
    _write_json_atomic (path_join tables_dir (table_id ++ ".json")) (VDict table).

Definition delete_table (tables_dir : string) (table_id : string) : M unit :=
  let p := path_join tables_dir (table_id ++ ".json") in
  write_fs (fun m => match m !! p with Some _ => delete p m | None => m end).

End Persistence.

(** [x != table_id] for a str [table_id]: only an equal str is equal. *)
Definition differs (table_id : string) (x : value) : bool :=
  match x with
  | VStr s => negb (String.eqb s table_id)
  | _ => true
  end.

Definition touch_recent (cfg : dict) (table_id : string) : result dict :=
  rbind (iter (get_default cfg "recentTableIds" (VList []))) (fun ids =>
  let recents := VStr table_id :: List.filter (differs table_id) ids in
  rbind (int (let l := get cfg "recentLimit" in if truthy l then l else VInt 12)) (fun limit =>
  Ok (Assoc.set cfg "recentTableIds" (VList (slice_to (Z.max 1 limit) recents))))).

Definition to_decimal (v : value) : option PyDecimal.decimal :=
  match v with
  | VNone => None
  | VBool _ | VInt _ | VFloat _ => PyDecimal.of_string (str v)
  | VStr s =>
      let s := strip s in
      if is_empty s then None else PyDecimal.of_string s
  | _ => None
  end.

Definition fmt_decimal (d : PyDecimal.decimal) : result string :=
  rbind (PyDecimal.normalize d) (fun n =>
  let s := PyDecimal.format_f n in
  Ok (if contains_char "." s then rstrip_char "." (rstrip_char "0" s) else s)).

Definition compute_amount (row : dict) : result string :=
  match to_decimal (get row "freight"), to_decimal (get row "settleTons") with
  | Some freight, Some settle => rbind (PyDecimal.mul freight settle) fmt_decimal
  | _, _ => Ok ""
  end.

Definition ensure_row_defaults (cfg row : dict) : dict :=
  let r := row in
  let r := if is_empty (strip (str (or_empty (get r "vehicle"))))
           then Assoc.set r "vehicle" (VStr (str (or_empty (get cfg "defaultVehicle")))) else r in
  let r := if is_empty (strip (str (or_empty (get r "model"))))
           then Assoc.set r "model" (VStr (str (or_empty (get cfg "defaultModel")))) else r in
  r.

(** [start_d + timedelta(days=i)] *)
Definition date_plus (start_d : PyDate.date) (i : nat) : M PyDate.date :=
  match PyDate.add_days start_d i with
  | Some d => ret d
  | None => raise OverflowError
  end.

(** The loop of [ensure_rows_from_start_date]: rows [i], [i+1], ... *)
Fixpoint fresh_rows (cfg : dict) (start_d : PyDate.date) (i n : nat) : M (list value) :=
  match n with
  | O => ret []
  | S n' =>
      d <- date_plus start_d i ;;
      id <- _new_id "row" ;;
      let row := ensure_row_defaults cfg
        [ ("id", VStr id);
          ("loadDate", VStr (PyDate.isoformat d));
          ("loadPlace", VStr "");
          ("vehicle", VStr (str (or_empty (get cfg "defaultVehicle"))));
          ("model", VStr (str (or_empty (get cfg "defaultModel"))));
          ("loadNetWeight", VStr "");
          ("unloadDate", VStr "");
          ("unloadPlace", VStr "");
          ("unloadTons", VStr "");
          ("freight", VStr "");
          ("settleTons", VStr "");
          ("amount", VStr "") ] in
      rest <- fresh_rows cfg start_d (S i) n' ;;
      ret (VDict row :: rest)
  end.

Definition ensure_rows_from_start_date (cfg : dict) (start_date_iso : string) (row_count : Z)
  : M (list value) :=
  start_d <- match parse_iso_date (VStr start_date_iso) with
             | Some d => ret d
             | None => date_today
             end ;;
  fresh_rows cfg start_d 0 (Z.to_nat (Z.max 1 row_count)).

(** The loop of [normalize_table] over [enumerate(rows_in)], from index
    [i] on. *)
Fixpoint normalize_rows (cfg : dict) (start_d : PyDate.date) (i : nat) (rows_in : list value)
  : M (list value) :=
  match rows_in with
  | [] => ret []
  | rr :: rest =>
      match rr with
      | VDict r =>
          id <- _new_id "row" ;;
          let r := Assoc.setdefault r "id" (VStr id) in
          let r := ensure_row_defaults cfg r in
          d <- date_plus start_d i ;;
          let r := Assoc.set r "loadDate" (VStr (PyDate.isoformat d)) in
          a <- lift (compute_amount r) ;;
          let r := Assoc.set r "amount" (VStr a) in
          out <- normalize_rows cfg start_d (S i) rest ;;
          ret (VDict r :: out)
      | _ => normalize_rows cfg start_d (S i) rest
      end
  end.

Definition normalize_table (cfg table : dict) : M dict :=
  let t := table in
  let meta := match get t "meta" with VDict m => m | _ => [] end in
  let s1 := strip (str (or_empty (get meta "startDate"))) in
  let s2 := strip (str (or_empty (get t "startDate"))) in
  start_date_iso <- (if negb (is_empty s1) then ret s1
                     else if negb (is_empty s2) then ret s2
                     else today_iso) ;;
  start_d <- match parse_iso_date (VStr start_date_iso) with
             | Some d => ret d
             | None => date_today
             end ;;
  let rows_in := match get_default t "rows" (VList []) with VList l => l | _ => [] end in
  out_rows <- normalize_rows cfg start_d 0 rows_in ;;
  let t := Assoc.set t "rows" (VList out_rows) in
  let t := Assoc.set t "startDate" (VStr (PyDate.isoformat start_d)) in
  let t := Assoc.set t "meta" (VDict (Assoc.set meta "startDate" (VStr (PyDate.isoformat start_d)))) in
  ret t.

Definition create_table (cfg : dict) (start_date_iso : string) (initial_rows : Z) : M dict :=
  start_date_iso <- (let s := strip start_date_iso in
                     if negb (is_empty s) then ret s else today_iso) ;;
  rows <- ensure_rows_from_start_date cfg start_date_iso initial_rows ;;
  table_id <- _new_id "tbl" ;;
  created <- now_iso ;;
  updated <- now_iso ;;
  let t :=
    [ ("id", VStr table_id);
      ("name", VStr (start_date_iso ++ "-"));
      ("startDate", VStr start_date_iso);
      ("columns", VList (map (fun kh => VDict [("key", VStr (fst kh)); ("label", VStr (snd kh))])
                             FIXED_HEADERS));
      ("rows", VList rows);
      ("createdAt", VStr created);
      ("updatedAt", VStr updated);
      ("meta", VDict [("startDate", VStr start_date_iso); ("initialRows", VInt initial_rows)]) ] in
  normalize_table cfg t.

(** The loop of [summarize_table] that adds the amounts to [total]. *)
Fixpoint sum_amounts (total : PyDecimal.decimal) (rows : list value) : result PyDecimal.decimal :=
  match rows with
  | [] => Ok total
  | r :: rest =>
      match r with
      | VDict d =>
          match to_decimal (get d "amount") with
          | Some a => rbind (PyDecimal.add total a) (fun t => sum_amounts t rest)
          | None => sum_amounts total rest
          end
      | _ => sum_amounts total rest
      end
  end.

Definition summarize_table (cfg table : dict) : M (dict * PyDecimal.decimal) :=
  t <- normalize_table cfg table ;;
  let rows := get_default t "rows" (VList []) in
  total <- lift (match rows with
                 | VList l => sum_amounts (PyDecimal.Fin false 0 0) l
                 | _ => Ok (PyDecimal.Fin false 0 0)
                 end) ;;
  start_iso <- (let s := strip (str (or_empty (get t "startDate"))) in
                if negb (is_empty s) then ret s else today_iso) ;;
  let end_iso :=
    match rows with
    | VList l =>
        match last l with
        | Some (VDict lastrow) => strip (str (or_empty (get lastrow "loadDate")))
        | _ => ""
        end
    | _ => ""
    end in
  let t := if negb (is_empty end_iso) then Assoc.set t "name" (VStr (start_iso ++ "-" ++ end_iso))
           else Assoc.set t "name" (VStr (start_iso ++ "-")) in
  ret (t, total).

(** The UTF-8 encoding of U+FEFF. *)
Definition bom : string :=
  String (ascii_of_N 239) (String (ascii_of_N 187) (String (ascii_of_N 191) EmptyString)).

(** The loop of [export_csv_bytes] over the rows. *)
Fixpoint csv_rows (keys : list string) (rows : list value) : string :=
  match rows with
  | [] => EmptyString
  | r :: rest =>
      match r with
      | VDict d =>
          PyCsv.writerow (map (fun k => get_default d k (VStr "")) keys) ++ csv_rows keys rest
      | _ => csv_rows keys rest
      end
  end.

(** The bytes are those of the text, a str being its UTF-8 encoding. *)
Definition export_csv_bytes (table : dict) : string :=
  let headers := map (fun kh => VStr (snd kh)) FIXED_HEADERS in
  let keys := map fst FIXED_HEADERS in
  let head := PyCsv.writerow headers in
  let body := match get_default table "rows" (VList []) with
              | VList rows => csv_rows keys rows
              | _ => EmptyString
              end in
  bom ++ head ++ body.

End Storage.

(** ** storage.py by reference

    The same functions on the heap: [dict(x)] allocates a copy, item
    assignment writes to the object a variable refers to, and what a
    function returns is an address.  This is the embedding in which one
    can say that a function leaves its arguments alone. *)

Module RefStorage.
Import PyStr Ref.

Definition get_heap : M heap := fun w => (Ok (mem w), w).

Definition set_mem (f : heap -> heap) : M unit :=
  fun w => (Ok tt, mkWorld (clock w) (ticks w) (uuids w) (drawn w) (fs w) (f (mem w))).

(** A new object; its address is the next free one. *)
Definition alloc (o : object) : M nat :=
  h <- get_heap ;; set_mem (fun m => (m ++ [o])%list) ;;; ret (length h).

Definition read_dict (l : nat) : M (list (string * hvalue)) :=
  h <- get_heap ;;
  match h !! l with
  | Some (ODict items) => ret items
  | _ => raise TypeError
  end.

Definition read_list (l : nat) : M (list hvalue) :=
  h <- get_heap ;;
  match h !! l with
  | Some (OList items) => ret items
  | _ => raise TypeError
  end.

(** [d.get(k)] *)
Definition dict_get (l : nat) (k : string) : M hvalue :=
  items <- read_dict l ;;
  ret (match Assoc.lookup items k with Some v => v | None => HNone end).

(** [d[k] = v] *)
Definition dict_set (l : nat) (k : string) (v : hvalue) : M unit :=
  items <- read_dict l ;;
  set_mem (fun m => <[l := ODict (Assoc.set items k v)]> m).

(** [d.setdefault(k, v)] *)
Definition dict_setdefault (l : nat) (k : string) (v : hvalue) : M unit :=
  items <- read_dict l ;;
  set_mem (fun m => <[l := ODict (Assoc.setdefault items k v)]> m).

(** [dict(d)] *)
Definition dict_copy (l : nat) : M nat :=
  items <- read_dict l ;; alloc (ODict items).

(** [xs.append(v)] *)
Definition list_append (l : nat) (v : hvalue) : M unit :=
  items <- read_list l ;;
  set_mem (fun m => <[l := OList (items ++ [v])%list]> m).

(** [str(v or "").strip()] *)
Definition stripped_str (v : hvalue) : M string :=
  h <- get_heap ;; ret (strip (str h (or_empty h v))).

(** [str(v or "")] *)
Definition str_or_empty (v : hvalue) : M string :=
  h <- get_heap ;; ret (str h (or_empty h v)).

Definition to_decimal (v : hvalue) : option PyDecimal.decimal :=
  match v with
  | HNone => None
  | HBool b => PyDecimal.of_string (if b then "True" else "False")
  | HInt z => PyDecimal.of_string (Py.str_int z)
  | HFloat r => PyDecimal.of_string r
  | HStr s =>
      let s := strip s in
      if is_empty s then None else PyDecimal.of_string s
  | HRef _ => None
  end.

Definition compute_amount (row : nat) : M string :=
  f <- dict_get row "freight" ;;
  s <- dict_get row "settleTons" ;;
  match to_decimal f, to_decimal s with
  | Some freight, Some settle => lift (rbind (PyDecimal.mul freight settle) Storage.fmt_decimal)
  | _, _ => ret ""
  end.

Definition ensure_row_defaults (cfg row : nat) : M nat :=
  r <- dict_copy row ;;
  v <- dict_get r "vehicle" ;;
  s <- stripped_str v ;;
  (if is_empty s
   then dv <- dict_get cfg "defaultVehicle" ;;
        ds <- str_or_empty dv ;;
        dict_set r "vehicle" (HStr ds)
   else ret tt) ;;;
  v <- dict_get r "model" ;;
  s <- stripped_str v ;;
  (if is_empty s
   then dv <- dict_get cfg "defaultModel" ;;
        ds <- str_or_empty dv ;;
        dict_set r "model" (HStr ds)
   else ret tt) ;;;
  ret r.

(** The body of the loop of [normalize_table] for the entry [rr] at index
    [i]. *)
Definition normalize_row (cfg : nat) (start_d : PyDate.date) (out_rows : nat) (i : nat)
    (rr : hvalue) : M unit :=
  h <- get_heap ;;
  match rr with
  | HRef l =>
      if is_dict h rr then
        r <- dict_copy l ;;
        id <- Storage._new_id "row" ;;
        dict_setdefault r "id" (HStr id) ;;;
        r <- ensure_row_defaults cfg r ;;
        d <- Storage.date_plus start_d i ;;
        dict_set r "loadDate" (HStr (PyDate.isoformat d)) ;;;
        a <- compute_amount r ;;
        dict_set r "amount" (HStr a) ;;;
        list_append out_rows (HRef r)
      else ret tt
  | _ => ret tt
  end.

(** [for i, rr in enumerate(rows_in)], from index [i] on: the list is read
    again at every step, as the list iterator does; [fuel] is the length
    of the list when the loop starts. *)
Fixpoint normalize_rows (fuel : nat) (cfg : nat) (start_d : PyDate.date)
    (rows_in out_rows : nat) (i : nat) : M unit :=
  match fuel with
  | O => ret tt
  | S f =>
      items <- read_list rows_in ;;
      match items !! i with
      | None => ret tt
      | Some rr =>
          normalize_row cfg start_d out_rows i rr ;;;
          normalize_rows f cfg start_d rows_in out_rows (S i)
      end
  end.

Definition normalize_table (cfg table : nat) : M nat :=
  t <- dict_copy table ;;
  meta <- dict_get t "meta" ;;
  h <- get_heap ;;
  meta <- match meta with
          | HRef l => if is_dict h meta then ret l else alloc (ODict [])
          | _ => alloc (ODict [])
          end ;;
  ms <- dict_get meta "startDate" ;;
  s1 <- stripped_str ms ;;
  ts <- dict_get t "startDate" ;;
  s2 <- stripped_str ts ;;
  start_date_iso <- (if negb (is_empty s1) then ret s1
                     else if negb (is_empty s2) then ret s2
                     else Storage.today_iso) ;;
  start_d <- match Storage.parse_iso_date (Py.VStr start_date_iso) with
             | Some d => ret d
             | None => Storage.date_today
             end ;;
  default <- alloc (OList []) ;;
  titems <- read_dict t ;;
  let rows_in := match Assoc.lookup titems "rows" with Some v => v | None => HRef default end in
  h <- get_heap ;;
  rows_in <- match rows_in with
             | HRef l => if is_list h rows_in then ret l else alloc (OList [])
             | _ => alloc (OList [])
             end ;;
  out_rows <- alloc (OList []) ;;
  items <- read_list rows_in ;;
  normalize_rows (length items) cfg start_d rows_in out_rows 0 ;;;
  dict_set t "rows" (HRef out_rows) ;;;
  dict_set t "startDate" (HStr (PyDate.isoformat start_d)) ;;;
  mitems <- read_dict meta ;;
  meta' <- alloc (ODict (Assoc.set mitems "startDate" (HStr (PyDate.isoformat start_d)))) ;;
  dict_set t "meta" (HRef meta') ;;;
  ret t.

End RefStorage.

(** ** A JSON codec to run the examples with

    [print] writes a document the way [json.dumps(v, ensure_ascii=False,
    indent=2)] does and [parse] reads JSON text.  The reader covers null,
    the booleans, integers, strings, arrays and objects; a number with a
    fraction or an exponent is outside it. *)

Module JsonLite.
Import PyStr Py.

Definition nl : string := String (ascii_of_N 10) EmptyString.

Definition hex4 (n : N) : string :=
  String (hex_digit (n / 4096)) (String (hex_digit (n / 256 mod 16))
  (String (hex_digit (n / 16 mod 16)) (String (hex_digit (n mod 16)) EmptyString))).

Fixpoint escape (s : string) : string :=
  match s with
  | EmptyString => EmptyString
  | String a r =>
      let n := code a in
      (if (n =? 34)%N || (n =? 92)%N then String "\" (String a EmptyString)
       else if (n =? 10)%N then "\n"
       else if (n =? 13)%N then "\r"
       else if (n =? 9)%N then "\t"
       else if (n =? 8)%N then "\b"
       else if (n =? 12)%N then "\f"
       else if (n <? 32)%N then "\u" ++ hex4 n
       else String a EmptyString) ++ escape r
  end.

Definition quote (s : string) : string := String dquote (escape s ++ String dquote EmptyString).

Fixpoint indent (n : nat) : string :=
  match n with O => EmptyString | S k => "  " ++ indent k end.

Definition print_float (r : string) : string :=
  if String.eqb r "nan" then "NaN"
  else if String.eqb r "inf" then "Infinity"
  else if String.eqb r "-inf" then "-Infinity"
  else r.

Fixpoint print (lvl : nat) (v : value) : string :=
  match v with
  | VNone => "null"
  | VBool b => if b then "true" else "false"
  | VInt z => str_int z
  | VFloat r => print_float r
  | VStr s => quote s
  | VList l =>
      match l with
      | [] => "[]"
      | _ => "[" ++ nl ++ indent (S lvl)
             ++ join ("," ++ nl ++ indent (S lvl)) (map (print (S lvl)) l)
             ++ nl ++ indent lvl ++ "]"
      end
  | VDict d =>
      match d with
      | [] => "{}"
      | _ => "{" ++ nl ++ indent (S lvl)
             ++ join ("," ++ nl ++ indent (S lvl))
                  (map (fun kv => quote (fst kv) ++ ": " ++ print (S lvl) (snd kv)) d)
             ++ nl ++ indent lvl ++ "}"
      end
  end.

Fixpoint skip_ws (s : string) : string :=
  match s with
  | String a r =>
      let n := code a in
      if (n =? 32)%N || (n =? 9)%N || (n =? 10)%N || (n =? 13)%N then skip_ws r else s
  | EmptyString => s
  end.

Definition hex_val (c : ascii) : option N :=
  let n := code c in
  if (48 <=? n)%N && (n <=? 57)%N then Some (n - 48)%N
  else if (97 <=? n)%N && (n <=? 102)%N then Some (n - 87)%N
  else if (65 <=? n)%N && (n <=? 70)%N then Some (n - 55)%N
  else None.

(** The UTF-8 bytes of a code point of the basic plane. *)
Definition utf8 (n : N) : string :=
  if (n <? 128)%N then String (ascii_of_N n) EmptyString
  else if (n <? 2048)%N
       then String (ascii_of_N (192 + n / 64)) (String (ascii_of_N (128 + n mod 64)) EmptyString)
  else String (ascii_of_N (224 + n / 4096))
         (String (ascii_of_N (128 + n / 64 mod 64))
            (String (ascii_of_N (128 + n mod 64)) EmptyString)).

(** The text of a string literal after its opening quote, and the rest. *)
Fixpoint parse_chars (s : string) : option (string * string) :=
  match s with
  | EmptyString => None
  | String a r =>
      let n := code a in
      if (n =? 34)%N then Some (EmptyString, r)
      else if (n =? 92)%N then
        match r with
        | String b r' =>
            let simple (c : N) :=
              match parse_chars r' with
              | Some (t, rest) => Some (String (ascii_of_N c) t, rest)
              | None => None
              end in
            let m := code b in
            if (m =? 34)%N then simple 34%N
            else if (m =? 92)%N then simple 92%N
            else if (m =? 47)%N then simple 47%N
            else if (m =? 98)%N then simple 8%N
            else if (m =? 102)%N then simple 12%N
            else if (m =? 110)%N then simple 10%N
            else if (m =? 114)%N then simple 13%N
            else if (m =? 116)%N then simple 9%N
            else if (m =? 117)%N then
              match r' with
              | String h1 (String h2 (String h3 (String h4 r'')) as r3) =>
                  match hex_val h1, hex_val h2, hex_val h3, hex_val h4, parse_chars r'' with
                  | Some x1, Some x2, Some x3, Some x4, Some (t, rest) =>
                      let cp := (4096 * x1 + 256 * x2 + 16 * x3 + x4)%N in
                      if (55296 <=? cp)%N && (cp <=? 57343)%N then None
                      else Some (utf8 cp ++ t, rest)
                  | _, _, _, _, _ => None
                  end
              | _ => None
              end
            else None
        | EmptyString => None
        end
      else if (n <? 32)%N then None
      else match parse_chars r with
           | Some (t, rest) => Some (String a t, rest)
           | None => None
           end
  end.

(** An integer literal: an optional minus and digits without a leading
    zero, not followed by a fraction or an exponent. *)
Definition parse_int (s : string) : option (value * string) :=
  let '(neg, body) := match s with String "-" r => (true, r) | _ => (false, s) end in
  let '(ds, rest) := PyDecimal.span_digits body in
  match ds with
  | EmptyString => None
  | String d more =>
      if (Ascii.eqb d "0" && negb (is_empty more)) then None
      else match rest with
           | String "." _ | String "e" _ | String "E" _ => None
           | _ => Some (VInt (if neg then - Z.of_N (digits_value 0 ds) else Z.of_N (digits_value 0 ds))%Z, rest)
           end
  end.

Fixpoint parse_value (fuel : nat) (s : string) : option (value * string) :=
  match fuel with
  | O => None
  | S f =>
      match skip_ws s with
      | String "n" (String "u" (String "l" (String "l" r))) => Some (VNone, r)
      | String "t" (String "r" (String "u" (String "e" r))) => Some (VBool true, r)
      | String "f" (String "a" (String "l" (String "s" (String "e" r)))) => Some (VBool false, r)
      | String "[" r =>
          match skip_ws r with
          | String "]" r' => Some (VList [], r')
          | r' => match parse_items f r' with
                  | Some (l, rest) => Some (VList l, rest)
                  | None => None
                  end
          end
      | String "{" r =>
          match skip_ws r with
          | String "}" r' => Some (VDict [], r')
          | r' => match parse_members f r' [] with
                  | Some (d, rest) => Some (VDict d, rest)
                  | None => None
                  end
          end
      | String a r as t =>
          if (code a =? 34)%N then
            match parse_chars r with
            | Some (x, rest) => Some (VStr x, rest)
            | None => None
            end
          else parse_int t
      | EmptyString => None
      end
  end
with parse_items (fuel : nat) (s : string) : option (list value * string) :=
  match fuel with
  | O => None
  | S f =>
      match parse_value f s with
      | Some (v, rest) =>
          match skip_ws rest with
          | String "]" r => Some ([v], r)
          | String "," r =>
              match parse_items f r with
              | Some (l, rest') => Some (v :: l, rest')
              | None => None
              end
          | _ => None
          end
      | None => None
      end
  end
with parse_members (fuel : nat) (s : string) (acc : dict) : option (dict * string) :=
  match fuel with
  | O => None
  | S f =>
      match skip_ws s with
      | String q r =>
          if (code q =? 34)%N then
            match parse_chars r with
            | Some (k, rest) =>
                match skip_ws rest with
                | String ":" r1 =>
                    match parse_value f r1 with
                    | Some (v, rest1) =>
                        let acc := Assoc.set acc k v in
                        match skip_ws rest1 with
                        | String "}" r2 => Some (acc, r2)
                        | String "," r2 => parse_members f r2 acc
                        | _ => None
                        end
                    | None => None
                    end
                | _ => None
                end
            | None => None
            end
          else None
      | EmptyString => None
      end
  end.

Definition parse (s : string) : option value :=
  match parse_value (2 * String.length s + 2) s with
  | Some (v, rest) => if is_empty (skip_ws rest) then Some v else None
  | None => None
  end.

#[export] Instance codec : Json := {| dumps := print 0; loads := parse |}.

End JsonLite.

(** * Vocabulary of the statements *)

(** ** Configurations *)

Module ConfigDefs.
Import Py Storage.

(** The keys whose stored value must be a list. *)
Definition list_key (k : string) : bool :=
  String.eqb k "recentTableIds" || String.eqb k "loadPlaces" || String.eqb k "unloadPlaces".

(** The Python type of a value, for a stored value of the wrong type. *)
Definition type_name (v : value) : string :=
  match v with
  | VNone => "NoneType"
  | VBool _ => "bool"
  | VInt _ => "int"
  | VFloat _ => "float"
  | VStr _ => "str"
  | VList _ => "list"
  | VDict _ => "dict"
  end.

(** A world whose only file is [path] with the text [s]. *)
Definition world_with_file (path s : string) : world :=
  mkWorld (fun _ => (PyDate.mkdate 2026 2 25, "08:30:00")) 0
          (fun _ => "0123456789abcdef0123456789abcdef") 0
          {[ path := Text s ]} [].

Definition stored_bad : dict := [("recentLimit", VStr "abc"); ("theme", VStr "dark")].

(** The text of a stored config whose recentLimit is a str. *)
Definition stored_bad_text : string := JsonLite.print 0 (VDict stored_bad).

End ConfigDefs.

(** ** Recent tables *)

Module RecentDefs.
Import Py Storage.

(** The value that [cfg.get("recentLimit") or 12] passes to [int]. *)
Definition limit_value (cfg : dict) : value :=
  if truthy (get cfg "recentLimit") then get cfg "recentLimit" else VInt 12.

Definition cfg_limit_zero : dict :=
  [("recentLimit", VInt 0); ("recentTableIds", VList [VStr "a"; VStr "b"])].

End RecentDefs.

(** ** Characters that [strip] keeps *)

Module StrDefs.
Import PyStr.

(** A byte that is neither an ASCII space nor the first byte of one of the
    other spaces. *)
Definition plain (a : ascii) : bool :=
  negb (ascii_space a)
  && negb ((code a =? 194) || (code a =? 225) || (code a =? 226) || (code a =? 227))%N.

Fixpoint all_plain (s : string) : bool :=
  match s with
  | EmptyString => true
  | String a r => plain a && all_plain r
  end.

End StrDefs.

(** ** Tables on disk *)

Module PersistDefs.
Import PyStr Py Storage StrDefs.

(** A blank id: missing or None, a str of spaces only (the empty one
    included), or another value that is false (0, False, an empty list or
    dict).  The repr of a float is never blank. *)
Definition blank (v : value) : bool :=
  match v with
  | VNone => true
  | VStr s => all_space s
  | VFloat r => negb (truthy v) || all_space r
  | _ => negb (truthy v)
  end.

(** What [save_table] writes: the table with its time stamp. *)
Definition stamped (table : dict) (now : string) : value :=
  VDict (Assoc.set table "updatedAt" (VStr now)).

Definition world0 : world :=
  mkWorld (fun _ => (PyDate.mkdate 2026 2 25, "08:30:00")) 0
          (fun _ => "0123456789abcdef0123456789abcdef") 0 ∅ [].

Definition padded_table : dict := [("id", VStr " a "); ("rows", VList [])].

End PersistDefs.

(** ** The steps of [normalize_table] *)

Module NormDefs.
Import PyStr Py Storage StrDefs.

(** The world after one reading of the clock, and after one uuid. *)
Definition tick (w : world) : world :=
  mkWorld (clock w) (S (ticks w)) (uuids w) (drawn w) (fs w) (mem w).

Definition draw (w : world) : world :=
  mkWorld (clock w) (ticks w) (uuids w) (S (drawn w)) (fs w) (mem w).

(** The id that [_new_id("row")] returns in the world [w]. *)
Definition next_row_id (w : world) : string := "row_" ++ take 12 (uuids w (drawn w)).

(** The clock shows calendar dates. *)
Definition clock_valid (w : world) : Prop :=
  forall n, PyDate.valid (fst (clock w n)) = true.

(** What the body of the loop of [normalize_table] makes of the row [r]
    at index [i], given the id that [_new_id] returns. *)
Definition row_out (cfg : dict) (start_d : PyDate.date) (i : nat) (id : string) (r : dict)
  : result dict :=
  let r1 := ensure_row_defaults cfg (Assoc.setdefault r "id" (VStr id)) in
  match PyDate.add_days start_d i with
  | None => Raise OverflowError
  | Some d =>
      let r2 := Assoc.set r1 "loadDate" (VStr (PyDate.isoformat d)) in
      rbind (compute_amount r2) (fun a => Ok (Assoc.set r2 "amount" (VStr a)))
  end.

(** The parts of a table that [normalize_table] reads. *)
Definition meta_of (t : dict) : dict :=
  match get t "meta" with VDict m => m | _ => [] end.

Definition rows_of (t : dict) : list value :=
  match get_default t "rows" (VList []) with VList l => l | _ => [] end.

(** The first step of [normalize_table]: the start date. *)
Definition resolve_start (t : dict) : M PyDate.date :=
  let s1 := strip (str (or_empty (get (meta_of t) "startDate"))) in
  let s2 := strip (str (or_empty (get t "startDate"))) in
  start_date_iso <- (if negb (is_empty s1) then ret s1
                     else if negb (is_empty s2) then ret s2
                     else today_iso) ;;
  match parse_iso_date (VStr start_date_iso) with
  | Some d => ret d
  | None => date_today
  end.

(** The last step: the table that is returned. *)
Definition finish (t : dict) (start_d : PyDate.date) (out_rows : list value) : dict :=
  Assoc.set
    (Assoc.set (Assoc.set t "rows" (VList out_rows))
       "startDate" (VStr (PyDate.isoformat start_d)))
    "meta" (VDict (Assoc.set (meta_of t) "startDate" (VStr (PyDate.isoformat start_d)))).

(** The rows of a table are in step with its start date: row [i] is
    dated [i] days after it. *)
Definition dated (t : dict) (start_d : PyDate.date) (n : nat) : Prop :=
  get t "startDate" = VStr (PyDate.isoformat start_d)
  /\ exists rows,
       get t "rows" = VList rows
       /\ length rows = n
       /\ forall i r, rows !! i = Some r ->
            exists rd di, r = VDict rd
                          /\ PyDate.add_days start_d i = Some di
                          /\ get rd "loadDate" = VStr (PyDate.isoformat di).

Definition all_dicts (rows : list value) : Prop := Forall (fun r => is_dict r = true) rows.

(** The test of [ensure_row_defaults]: [str(v or "").strip()] is empty. *)
Definition unset (v : value) : bool := is_empty (strip (str (or_empty v))).

Definition default_of (cfg : dict) (k : string) : value := VStr (str (or_empty (get cfg k))).

(** The table that [create_table] hands to [normalize_table]. *)
Definition created (start_date_iso : string) (initial_rows : Z) (rows : list value)
    (table_id created_at updated_at : string) : dict :=
  [ ("id", VStr table_id);
    ("name", VStr (start_date_iso ++ "-"));
    ("startDate", VStr start_date_iso);
    ("columns", VList (map (fun kh => VDict [("key", VStr (fst kh)); ("label", VStr (snd kh))])
                           FIXED_HEADERS));
    ("rows", VList rows);
    ("createdAt", VStr created_at);
    ("updatedAt", VStr updated_at);
    ("meta", VDict [("startDate", VStr start_date_iso); ("initialRows", VInt initial_rows)]) ].

(** A row without a freight, as [create_table] makes them. *)
Definition no_freight (r : value) : Prop :=
  exists d, r = VDict d /\ get d "freight" = VStr "".

Definition cfg0 : dict := [("defaultVehicle", VStr "V1"); ("defaultModel", VStr "PAC")].

(** A table whose rows hold an entry that is not a dict before a row. *)
Definition gap_table : dict :=
  [("startDate", VStr "2026-02-25"); ("rows", VList [VNone; VDict []])].

Definition world0 : world :=
  mkWorld (fun _ => (PyDate.mkdate 2026 11 3, "08:30:00")) 0
          (fun _ => "0123456789abcdef0123456789abcdef") 0 ∅ [].

End NormDefs.

(** ** Powers of ten *)

Module DigitDefs.
Import PyStr StrDefs.
Local Open Scope N_scope.

Fixpoint pow10 (k : nat) : N :=
  match k with O => 1 | S k' => 10 * pow10 k' end.

End DigitDefs.

(** ** Decimal numbers *)

Module DecDefs.
Import PyStr PyDecimal StrDefs DigitDefs.

(** Two finite decimals with the same sign that stand for the same
    number: their coefficients agree once both are written at the smaller
    exponent. *)
Definition same_number (x y : decimal) : Prop :=
  match x, y with
  | Fin sx cx ex, Fin sy cy ey =>
      sx = sy
      /\ (Z.of_N cx * 10 ^ (ex - Z.min ex ey) = Z.of_N cy * 10 ^ (ey - Z.min ex ey))%Z
  | _, _ => False
  end.


(** A product that the context holds exactly: at most 28 digits and an
    exponent within its range. *)
Definition fits (c : N) (e : Z) : Prop :=
  (c < 10 ^ 28)%N /\ (-1000026 <= e <= 999972)%Z.

(** The characters of a number in plain notation. *)
Definition numchar (c : ascii) : bool :=
  is_digit c || Ascii.eqb c "-" || Ascii.eqb c ".".

Fixpoint all_num (s : string) : bool :=
  match s with
  | EmptyString => true
  | String a r => numchar a && all_num r
  end.

End DecDefs.

(** ** Plain notation *)

Module PlainDefs.
Import PyStr PyDecimal StrDefs DigitDefs DecDefs.

(** The text of a number from its integer and fraction digits. *)
Definition plain_text (neg : bool) (ip fp : string) : string :=
  (sign_str neg ++ ip ++ (if is_empty fp then "" else "." ++ fp))%string.


End PlainDefs.

(** ** Rows with amounts *)

Module AmountDefs.
Import PyStr Py PyDecimal Storage StrDefs DigitDefs DecDefs PlainDefs.



End AmountDefs.

(** ** Totals *)

Module SummaryDefs.
Import PyStr Py PyDecimal Storage StrDefs NormDefs DigitDefs DecDefs.

(** The sum of two finite decimals before it is brought into the
    context: the integers at the smaller exponent are added. *)
Definition exact_plus (a b : decimal) : option decimal :=
  match a, b with
  | Fin sa ca ea, Fin sb cb eb =>
      let e := Z.min ea eb in
      let z := (signed sa (ca * 10 ^ Z.to_N (ea - e)) + signed sb (cb * 10 ^ Z.to_N (eb - e)))%Z in
      Some (Fin (if (z =? 0)%Z then (ca =? 0)%N && (cb =? 0)%N && sa && sb else (z <? 0)%Z)
                (Z.abs_N z) e)
  | _, _ => None
  end.

Definition fitsb (d : decimal) : bool :=
  match d with
  | Fin _ c e => (c <? 10 ^ 28)%N && (-1000026 <=? e)%Z && (e <=? 999972)%Z
  | _ => false
  end.

(** The total of the amounts when no addition needs rounding: every
    amount that parses is finite and every partial sum fits. *)
Fixpoint exact_total (total : decimal) (rows : list value) : option decimal :=
  match rows with
  | [] => Some total
  | r :: rest =>
      match r with
      | VDict d =>
          match to_decimal (get d "amount") with
          | Some a =>
              match exact_plus total a with
              | Some t => if fitsb t then exact_total t rest else None
              | None => None
              end
          | None => exact_total total rest
          end
      | _ => exact_total total rest
      end
  end.

(** The load date of the last row, or the empty string. *)
Definition end_of (rows : list value) : string :=
  match last rows with
  | Some (VDict lastrow) => strip (str (or_empty (get lastrow "loadDate")))
  | _ => ""
  end.

Definition dated_row (r : value) : Prop :=
  exists rd di, r = VDict rd /\ get rd "loadDate" = VStr (PyDate.isoformat di).

(** Two rows: 100 at 2.5 tons, and an empty one. *)
Definition small_table : dict :=
  [("startDate", VStr "2026-02-25");
   ("rows", VList [VDict [("freight", VStr "100"); ("settleTons", VStr "2.5")]; VDict []])].

(** Two rows whose amounts add up to 29 digits. *)
Definition wide_table : dict :=
  [("startDate", VStr "2026-02-25");
   ("rows", VList [VDict [("freight", VStr "1000000000000000000000000000");
                          ("settleTons", VStr "1")];
                   VDict [("freight", VStr "0.1"); ("settleTons", VStr "1")]])].

End SummaryDefs.

(** ** Heaps *)

Module FrameDefs.
Import PyStr Ref Storage RefStorage StrDefs.

(** Every object of [h] is the same object in [h']. *)
Definition extends (h h' : heap) : Prop :=
  forall a o, h !! a = Some o -> h' !! a = Some o.

(** The value refers to an object of the heap, if to any. *)
Definition in_heap (h : heap) (v : hvalue) : Prop :=
  match v with
  | HRef a => a < length h
  | _ => True
  end.

(** [not str(v or "").strip()] *)
Definition blank (h : heap) (v : hvalue) : bool :=
  is_empty (strip (str h (or_empty h v))).

(** The binding of [k] is kept when its value is not blank. *)
Definition kept (h : heap) (k : string) (r r' : list (string * hvalue)) : Prop :=
  forall v, Assoc.lookup r k = Some v -> in_heap h v -> blank h v = false ->
            Assoc.lookup r' k = Some v.

(** What an output row [r'] has in common with the input row [r]. *)
Definition row_frame (h : heap) (r r' : list (string * hvalue)) : Prop :=
  (forall k, k <> "id" -> k <> "vehicle" -> k <> "model" -> k <> "loadDate" -> k <> "amount" ->
             Assoc.lookup r' k = Assoc.lookup r k)
  /\ (forall v, Assoc.lookup r "id" = Some v -> Assoc.lookup r' "id" = Some v)
  /\ kept h "vehicle" r r'
  /\ kept h "model" r r'.

Definition dict_rows (h : heap) (items : list hvalue) : Prop :=
  Forall (fun v => exists l r, v = HRef l /\ h !! l = Some (ODict r)) items.

Definition cfg0 : list (string * hvalue) :=
  [("defaultVehicle", HStr "V1"); ("defaultModel", HStr "PAC")].

Definition table0 : list (string * hvalue) :=
  [("id", HStr "tbl_1"); ("name", HStr "t"); ("startDate", HStr "2026-02-25");
   ("rows", HRef 2)].

Definition row0 : list (string * hvalue) :=
  [("vehicle", HStr "A1"); ("freight", HStr "100"); ("settleTons", HStr "2.5");
   ("note", HStr "x")].

(** A heap with a config, a table, its row list and two rows. *)
Definition world0 : world :=
  mkWorld (fun _ => (PyDate.mkdate 2026 11 3, "08:30:00")) 0
          (fun _ => "0123456789abcdef0123456789abcdef") 0 ∅
          [ODict cfg0; ODict table0; OList [HRef 3; HRef 4]; ODict row0; ODict []].

End FrameDefs.

(** ** Sample data of the further properties *)

Module MoreDefs.
Import PyStr Py Storage.

(** A world with an empty disk whose clock shows 2026-02-25, 08:30. *)
Definition morning : world :=
  mkWorld (fun _ => (PyDate.mkdate 2026 2 25, "08:30:00")) 0
          (fun _ => "0123456789abcdef0123456789abcdef") 0 ∅ [].


Definition some_config : dict :=
  [("recentTableIds", VList [VStr "a"; VStr "b"]); ("recentLimit", VInt 3); ("theme", VStr "dark")].


End MoreDefs.

(** ** Rows on which [compute_amount] raises *)

Module NumberDefs.
Import PyStr Py PyDecimal Storage.

Definition infinite_row : dict := [("freight", VStr "Infinity"); ("settleTons", VStr "0")].

Definition huge_row : dict := [("freight", VStr "1e999999"); ("settleTons", VStr "10")].

End NumberDefs.

(** ** Start dates and rows of tables *)

Module TableDefs.
Import PyStr Py Storage NormDefs.



(** An output row of [normalize_table] beside the entry it was made of. *)
Definition row_kept (cfg : dict) (vin vout : value) : Prop :=
  exists r r',
    vin = VDict r /\ vout = VDict r'
    /\ (forall k, k <> "id" -> k <> "vehicle" -> k <> "model" -> k <> "loadDate" ->
                  k <> "amount" -> Assoc.lookup r' k = Assoc.lookup r k)
    /\ (forall v, Assoc.lookup r "id" = Some v -> Assoc.lookup r' "id" = Some v)
    /\ (Assoc.lookup r "id" = None -> exists s, Assoc.lookup r' "id" = Some (VStr s))
    /\ Assoc.lookup r' "vehicle" =
       (if unset (get r "vehicle") then Some (default_of cfg "defaultVehicle")
        else Assoc.lookup r "vehicle")
    /\ Assoc.lookup r' "model" =
       (if unset (get r "model") then Some (default_of cfg "defaultModel")
        else Assoc.lookup r "model").

(** A row whose amount is the one of its freight and settleTons. *)
Definition synced (v : value) : Prop :=
  exists d a, v = VDict d /\ get d "amount" = VStr a /\ compute_amount d = Ok a.


(** A table with an entry that is not a row, a row with an id and a
    vehicle, and an empty row. *)
Definition mixed_table : dict :=
  [("name", VStr "t"); ("startDate", VStr "2026-02-25");
   ("rows", VList [VStr "x";
                   VDict [("id", VStr "r1"); ("vehicle", VStr "A1"); ("freight", VStr "100");
                          ("settleTons", VStr "2.5"); ("note", VStr "n")];
                   VDict []])].

Definition row_table : dict :=
  [("startDate", VStr "2026-02-25");
   ("rows", VList [VDict [("freight", VStr "100"); ("settleTons", VStr "2.5")]; VDict []])].

End TableDefs.

(** ** Cells of the CSV export *)

Module CsvDefs.
Import PyStr Py Storage PyCsv.

(** The texts of the cells that [export_csv_bytes] writes for the rows. *)
Fixpoint cell_rows (keys : list string) (rows : list value) : list (list string) :=
  match rows with
  | [] => []
  | VDict d :: rest =>
      map (fun k => field_text (get_default d k (VStr ""))) keys :: cell_rows keys rest
  | _ :: rest => cell_rows keys rest
  end.

Definition cells (table : dict) : list (list string) :=
  match get_default table "rows" (VList []) with
  | VList rows => cell_rows (map fst FIXED_HEADERS) rows
  | _ => []
  end.

Fixpoint count_char (c : ascii) (s : string) : nat :=
  match s with
  | EmptyString => 0
  | String a r => (if Ascii.eqb a c then 1 else 0) + count_char c r
  end.

(** A reader of records that end with a line feed, for the proof that
    the records can be told apart. *)
Inductive rstate : Type := AtStart | InPlain | InQuoted | AfterQuote.

Fixpoint read (s : string) (st : rstate) (cur : string) (fields : list string)
    (recs : list (list string)) : list (list string) :=
  match s with
  | EmptyString => rev recs
  | String c r =>
      match st with
      | AtStart | InPlain =>
          if Ascii.eqb c "," then read r AtStart EmptyString (cur :: fields) recs
          else if Ascii.eqb c lf then read r AtStart EmptyString [] (rev (cur :: fields) :: recs)
          else if Ascii.eqb c dquote && match st with AtStart => true | _ => false end
               then read r InQuoted cur fields recs
          else read r InPlain (cur ++ String c EmptyString) fields recs
      | InQuoted =>
          if Ascii.eqb c dquote then read r AfterQuote cur fields recs
          else read r InQuoted (cur ++ String c EmptyString) fields recs
      | AfterQuote =>
          if Ascii.eqb c dquote then read r InQuoted (cur ++ String dquote EmptyString) fields recs
          else if Ascii.eqb c "," then read r AtStart EmptyString (cur :: fields) recs
          else if Ascii.eqb c lf then read r AtStart EmptyString [] (rev (cur :: fields) :: recs)
          else read r InPlain (cur ++ String c EmptyString) fields recs
      end
  end.

(** A table with a cell that needs quotes. *)
Definition quoting_table : dict :=
  [("rows", VList [VDict [("loadPlace", VStr "a,b"); ("vehicle", VStr "V1")]; VNone;
                   VDict [("amount", VStr "250")]])].

(** The same cells in a table with a name and without the entry that is
    not a row. *)
Definition quoting_table2 : dict :=
  [("name", VStr "x");
   ("rows", VList [VDict [("loadPlace", VStr "a,b"); ("vehicle", VStr "V1")];
                   VDict [("amount", VStr "250")]])].

End CsvDefs.

(** * Properties *)

(** ** Association lists *)

Module AssocFacts.
Import Assoc.

Section Facts.
Context {V : Type}.
Implicit Types (d : list (string * V)) (k : string) (v : V).

Lemma lookup_set_eq d k v : lookup (set d k v) k = Some v.
Proof.
  induction d as [|[k' v'] d IH]; simpl.
  - now rewrite String.eqb_refl.
  - destruct (String.eqb k' k) eqn:E; simpl.
    + now rewrite String.eqb_refl.
    + now rewrite E.
Qed.

Lemma lookup_set_ne d k k' v : k <> k' -> lookup (set d k v) k' = lookup d k'.
Proof.
  intros Hne. induction d as [|[k0 v0] d IH]; simpl.
  - destruct (String.eqb k k') eqn:E; [apply String.eqb_eq in E; contradiction | reflexivity].
  - destruct (String.eqb k0 k) eqn:E; simpl.
    + apply String.eqb_eq in E. subst k0.
      destruct (String.eqb k k') eqn:E'; [apply String.eqb_eq in E'; contradiction | reflexivity].
    + destruct (String.eqb k0 k'); [reflexivity | exact IH].
Qed.

Lemma set_same d k v : lookup d k = Some v -> set d k v = d.
Proof.
  induction d as [|[k' v'] d IH]; simpl; [discriminate|].
  destruct (String.eqb k' k) eqn:E.
  - intros [= ->]. apply String.eqb_eq in E. now subst.
  - intros H. now rewrite IH.
Qed.

Lemma set_set d k v v' : set (set d k v) k v' = set d k v'.
Proof.
  induction d as [|[k0 v0] d IH]; simpl.
  - now rewrite String.eqb_refl.
  - destruct (String.eqb k0 k) eqn:E; simpl.
    + now rewrite String.eqb_refl.
    + now rewrite E, IH.
Qed.

Lemma lookup_setdefault d k k' v :
  lookup (setdefault d k v) k' =
  match lookup d k' with
  | Some x => Some x
  | None => if String.eqb k k' then Some v else None
  end.
Proof.
  unfold setdefault. destruct (lookup d k) eqn:Hk.
  - destruct (lookup d k') eqn:Hk'; [reflexivity|].
    destruct (String.eqb k k') eqn:E; [|reflexivity].
    apply String.eqb_eq in E. congruence.
  - destruct (String.eqb k k') eqn:E.
    + apply String.eqb_eq in E. subst k'. now rewrite lookup_set_eq, Hk.
    + apply String.eqb_neq in E. rewrite lookup_set_ne by assumption.
      now destruct (lookup d k').
Qed.

(** [for k, v in base.items(): d.setdefault(k, v)] keeps every binding of
    [d] and takes the others from [base]. *)
Lemma lookup_fold_setdefault (base : list (string * V)) d k :
  lookup (fold_left (fun c kv => setdefault c (fst kv) (snd kv)) base d) k =
  match lookup d k with
  | Some x => Some x
  | None => lookup base k
  end.
Proof.
  revert d. induction base as [|[k0 v0] base IH]; intros d; simpl.
  - now destruct (lookup d k).
  - rewrite IH, lookup_setdefault. simpl.
    destruct (lookup d k); [reflexivity|].
    now destruct (String.eqb k0 k).
Qed.

End Facts.
End AssocFacts.

(** ** C8: [_read_json] *)

Section ReadJson.
Context {J : Json}.
Import Py Storage.

(** What [_read_json] returns, by the state of the file. *)
Lemma read_json_run (path : string) (default : value) (w : world) :
  _read_json path default w =
    (Ok match fs w !! path with
        | Some (Text s) => match loads s with Some v => v | None => default end
        | _ => default
        end, w).
Proof.
  unfold _read_json, try_except, bind, read_text, json_loads.
  destruct (fs w !! path) as [[s|]|]; try reflexivity.
  destruct (loads s); reflexivity.
Qed.

(** C8. [_read_json] never raises and leaves the world as it is: it
    returns the parsed document when the file can be read and parsed, and
    the default when the file is missing, cannot be read or does not
    parse. *)
Theorem read_json_total (path : string) (default : value) (w : world) :
  _read_json path default w =
    (Ok match fs w !! path with
        | Some (Text s) => match loads s with Some v => v | None => default end
        | _ => default
        end, w).
Proof.
  unfold _read_json, try_except, bind, read_text, json_loads.
  destruct (fs w !! path) as [[s|]|]; try reflexivity.
  destruct (loads s); reflexivity.
Qed.

End ReadJson.

(** ** C9: [load_config] *)

Module ConfigFacts.
Import Py Storage AssocFacts.
Export ConfigDefs.

Lemma lookup_cond_set (d : dict) (c : bool) k0 v0 k :
  Assoc.lookup (if c then d else Assoc.set d k0 v0) k =
  if negb c && String.eqb k0 k then Some v0 else Assoc.lookup d k.
Proof.
  destruct c; simpl; [reflexivity|].
  destruct (String.eqb_spec k0 k) as [->|Hne].
  - apply lookup_set_eq.
  - now apply lookup_set_ne.
Qed.

Lemma default_config_run (w : world) :
  exists base,
    default_config w =
      (Ok base, mkWorld (clock w) (S (ticks w)) (uuids w) (drawn w) (fs w) (mem w))
    /\ Assoc.lookup base "recentTableIds" = Some (VList [])
    /\ Assoc.lookup base "recentLimit" = Some (VInt 12)
    /\ (exists l, Assoc.lookup base "loadPlaces" = Some (VList l))
    /\ (exists l, Assoc.lookup base "unloadPlaces" = Some (VList l)).
Proof.
  eexists. split; [reflexivity|]. simpl. repeat split; eauto.
Qed.

(** C9, as amended.  When config.json holds a JSON object, [load_config]
    returns it with every key of the defaults that it lacks added, and
    with the default in place of a stored recentTableIds, loadPlaces or
    unloadPlaces that is not a list.  Every other stored binding, of a key
    of the defaults or not, is returned as stored. *)
Theorem load_config_backfills {J : Json} (base_dir : string) (w : world) (s : string) (d : dict) :
  fs w !! path_join base_dir "config.json" = Some (Text s) ->
  loads s = Some (VDict d) ->
  exists d0 w0 base w1 cfg,
    default_config w = (Ok d0, w0)
    /\ default_config w0 = (Ok base, w1)
    /\ load_config base_dir w = (Ok cfg, w1)
    /\ forall k,
         Assoc.lookup cfg k =
         match Assoc.lookup d k with
         | Some v => if list_key k && negb (is_list v) then Assoc.lookup base k else Some v
         | None => Assoc.lookup base k
         end.
Proof.
  intros Hfile Hparse.
  destruct (default_config_run w) as (d0 & Hd0 & _).
  set (w0 := mkWorld (clock w) (S (ticks w)) (uuids w) (drawn w) (fs w) (mem w)) in *.
  destruct (default_config_run w0) as (base & Hbase & Hr & _ & [lp Hlp] & [up Hup]).
  set (w1 := mkWorld (clock w0) (S (ticks w0)) (uuids w0) (drawn w0) (fs w0) (mem w0)) in *.
  eexists d0, w0, base, w1, _. split; [exact Hd0|]. split; [exact Hbase|].
  split.
  - unfold load_config. unfold bind at 1. rewrite Hd0.
    unfold bind at 1. rewrite read_json_run.
    change (fs w0) with (fs w). rewrite Hfile, Hparse.
    unfold bind at 1. unfold ret at 1.
    unfold bind at 1. rewrite Hbase. reflexivity.
  - intros k. unfold get.
    pose proof (lookup_fold_setdefault base d) as Hc.
    set (c := fold_left (fun c kv => Assoc.setdefault c (fst kv) (snd kv)) base d) in *.
    clearbody c.
    rewrite !lookup_cond_set.
    change ("recentTableIds" =? "unloadPlaces") with false.
    change ("recentTableIds" =? "loadPlaces") with false.
    change ("loadPlaces" =? "unloadPlaces") with false.
    rewrite !andb_false_r, !Hc, Hlp, Hup, Hr. unfold list_key.
    destruct (String.eqb_spec "unloadPlaces" k) as [<-|H1].
    { destruct (Assoc.lookup d "unloadPlaces") as [[]|]; simpl; rewrite ?Hup, ?andb_false_r; reflexivity. }
    destruct (String.eqb_spec "loadPlaces" k) as [<-|H2].
    { destruct (Assoc.lookup d "loadPlaces") as [[]|]; simpl; rewrite ?Hlp, ?andb_false_r; reflexivity. }
    destruct (String.eqb_spec "recentTableIds" k) as [<-|H3].
    { destruct (Assoc.lookup d "recentTableIds") as [[]|]; simpl; rewrite ?Hr, ?andb_false_r; reflexivity. }
    rewrite !andb_false_r.
    destruct (String.eqb_spec k "recentTableIds"); [congruence|].
    destruct (String.eqb_spec k "loadPlaces"); [congruence|].
    destruct (String.eqb_spec k "unloadPlaces"); [congruence|].
    simpl. now destruct (Assoc.lookup d k).
Qed.

Lemma load_config_backfills_witness :
  let w := world_with_file (path_join "app" "config.json") stored_bad_text in
  fs w !! path_join "app" "config.json" = Some (Text stored_bad_text)
  /\ JsonLite.parse stored_bad_text = Some (VDict stored_bad)
  /\ exists d0 w0 base w1 cfg,
       default_config w = (Ok d0, w0)
       /\ default_config w0 = (Ok base, w1)
       /\ load_config (J:=JsonLite.codec) "app" w = (Ok cfg, w1)
       /\ forall k,
            Assoc.lookup cfg k =
            match Assoc.lookup stored_bad k with
            | Some v => if list_key k && negb (is_list v) then Assoc.lookup base k else Some v
            | None => Assoc.lookup base k
            end.
Proof.
  assert (H1 : fs (world_with_file (path_join "app" "config.json") stored_bad_text)
               !! path_join "app" "config.json" = Some (Text stored_bad_text))
    by (vm_compute; reflexivity).
  assert (H2 : JsonLite.parse stored_bad_text = Some (VDict stored_bad)) by (vm_compute; reflexivity).
  split; [exact H1|]. split; [exact H2|].
  exact (load_config_backfills (J:=JsonLite.codec) "app" _ _ _ H1 H2).
Defined.

(** C9, as stated, fails: the stored recentLimit is a str where the
    default is an int, and [load_config] returns the stored str. *)
Lemma load_config_keeps_wrong_type :
  let w := world_with_file (path_join "app" "config.json") stored_bad_text in
  JsonLite.parse stored_bad_text = Some (VDict stored_bad)
  /\ Assoc.lookup stored_bad "recentLimit" = Some (VStr "abc")
  /\ (exists base w1, default_config w = (Ok base, w1)
                      /\ Assoc.lookup base "recentLimit" = Some (VInt 12))
  /\ type_name (VStr "abc") <> type_name (VInt 12)
  /\ exists cfg w', load_config (J:=JsonLite.codec) "app" w = (Ok cfg, w')
                    /\ Assoc.lookup cfg "recentLimit" = Some (VStr "abc").
Proof.
  split; [vm_compute; reflexivity|]. split; [reflexivity|].
  split; [eexists _, _; split; [reflexivity | reflexivity]|].
  split; [discriminate|].
  eexists _, _. split; [vm_compute; reflexivity | reflexivity].
Qed.

End ConfigFacts.

(** ** C5: [touch_recent] *)

Module RecentFacts.
Import Py Storage AssocFacts.
Export RecentDefs.

Lemma in_firstn {A} (n : nat) (l : list A) (x : A) : In x (firstn n l) -> In x l.
Proof.
  intros H. rewrite <- (firstn_skipn n l). apply in_or_app. now left.
Qed.

Lemma differs_self (table_id : string) : differs table_id (VStr table_id) = false.
Proof. simpl. now rewrite String.eqb_refl. Qed.

(** C5, as amended.  When recentTableIds can be iterated over and the
    limit, recentLimit or 12 when recentLimit is missing, None, 0 or
    otherwise false, converts to an int, [touch_recent] returns the config
    with recentTableIds replaced by a list that starts with the touched id,
    holds it nowhere else, continues with the other ids in their order and
    has at most max(1, limit) entries.  When either step raises,
    [touch_recent] raises. *)
Theorem touch_recent_front_bounded (cfg : dict) (table_id : string) :
  (forall ids limit,
     iter (get_default cfg "recentTableIds" (VList [])) = Ok ids ->
     int (limit_value cfg) = Ok limit ->
     exists rest,
       touch_recent cfg table_id =
         Ok (Assoc.set cfg "recentTableIds" (VList (VStr table_id :: rest)))
       /\ rest = firstn (Z.to_nat (Z.max 1 limit) - 1) (List.filter (differs table_id) ids)
       /\ ~ In (VStr table_id) rest
       /\ (Z.of_nat (length (VStr table_id :: rest)) <= Z.max 1 limit)%Z)
  /\ (forall e, iter (get_default cfg "recentTableIds" (VList [])) = Raise e ->
                touch_recent cfg table_id = Raise e)
  /\ (forall ids e, iter (get_default cfg "recentTableIds" (VList [])) = Ok ids ->
                    int (limit_value cfg) = Raise e ->
                    touch_recent cfg table_id = Raise e).
Proof.
  unfold touch_recent, limit_value. split; [|split].
  - intros ids limit Hids Hlimit. rewrite Hids. simpl. rewrite Hlimit. simpl.
    eexists. split; [|split; [reflexivity|split]].
    + unfold slice_to.
      destruct (Z.to_nat (Z.max 1 limit)) as [|n] eqn:En; [lia|].
      simpl. now rewrite Nat.sub_0_r.
    + intros Hin. apply in_firstn, filter_In in Hin. destruct Hin as [_ Hd].
      rewrite differs_self in Hd. discriminate.
    + simpl length. pose proof (firstn_le_length (Z.to_nat (Z.max 1 limit) - 1)
                                  (List.filter (differs table_id) ids)). lia.
  - intros e He. now rewrite He.
  - intros ids e Hids He. rewrite Hids. simpl. now rewrite He.
Qed.

Lemma touch_recent_front_bounded_witness :
  iter (get_default cfg_limit_zero "recentTableIds" (VList [])) = Ok [VStr "a"; VStr "b"]
  /\ int (limit_value cfg_limit_zero) = Ok 12%Z
  /\ exists rest,
       touch_recent cfg_limit_zero "b" =
         Ok (Assoc.set cfg_limit_zero "recentTableIds" (VList (VStr "b" :: rest)))
       /\ rest = firstn (Z.to_nat (Z.max 1 12) - 1) (List.filter (differs "b") [VStr "a"; VStr "b"])
       /\ ~ In (VStr "b") rest
       /\ (Z.of_nat (length (VStr "b" :: rest)) <= Z.max 1 12)%Z.
Proof.
  split; [reflexivity|]. split; [reflexivity|].
  apply (proj1 (touch_recent_front_bounded cfg_limit_zero "b")); reflexivity.
Defined.

(** C5, as stated, fails: with recentLimit 0 the list that
    [touch_recent] returns has three entries, more than max(1, 0). *)
Lemma touch_recent_limit_zero :
  int (get cfg_limit_zero "recentLimit") = Ok 0%Z
  /\ touch_recent cfg_limit_zero "c" =
       Ok [("recentLimit", VInt 0); ("recentTableIds", VList [VStr "c"; VStr "a"; VStr "b"])]
  /\ (Z.max 1 0 < Z.of_nat (length [VStr "c"; VStr "a"; VStr "b"]))%Z.
Proof. split; [reflexivity|]. split; [reflexivity|]. simpl. lia. Qed.

End RecentFacts.

(** ** Strings: [strip] *)

Module StrFacts.
Import PyStr.
Export StrDefs.

Lemma lstrip_plain a s : plain a = true -> lstrip (String a s) = String a s.
Proof.
  unfold plain. intros H. apply andb_prop in H as [H1 H2].
  apply negb_true_iff in H1. apply negb_true_iff in H2.
  apply orb_false_elim in H2 as [H2 H227]. apply orb_false_elim in H2 as [H2 H226].
  apply orb_false_elim in H2 as [H194 H225].
  simpl. rewrite H1. destruct s as [|b r2]; [reflexivity|].
  unfold space2. rewrite H194. simpl. destruct r2 as [|c r3]; [reflexivity|].
  unfold space3. rewrite H225, H226, H227. reflexivity.
Qed.

Lemma all_space_plain a s : plain a = true -> all_space (String a s) = false.
Proof. intros H. unfold all_space. now rewrite lstrip_plain. Qed.

Lemma rstrip_all_plain s : all_plain s = true -> rstrip s = s.
Proof.
  induction s as [|a r IH]; [reflexivity|].
  simpl all_plain. intros H. apply andb_prop in H as [Ha Hr].
  change (rstrip (String a r)) with
    (if all_space (String a r) then EmptyString else String a (rstrip r)).
  rewrite (all_space_plain a r Ha), (IH Hr). reflexivity.
Qed.

Lemma strip_all_plain s : all_plain s = true -> strip s = s.
Proof.
  intros H. unfold strip. destruct s as [|a r]; [reflexivity|].
  pose proof H as H'. simpl in H'. apply andb_prop in H' as [Ha _].
  rewrite (lstrip_plain a r Ha). now apply rstrip_all_plain.
Qed.

Lemma strip_plain_nonempty a s : plain a = true -> is_empty (strip (String a s)) = false.
Proof.
  intros H. unfold strip. rewrite (lstrip_plain a s H).
  change (rstrip (String a s)) with
    (if all_space (String a s) then EmptyString else String a (rstrip s)).
  now rewrite (all_space_plain a s H).
Qed.

(** What [lstrip] returns does not start with a space. *)
Lemma lstrip_idem s : lstrip (lstrip s) = lstrip s.
Proof.
  remember (String.length s) as n eqn:Hn. revert s Hn.
  induction n as [n IH] using lt_wf_ind. intros s Hn.
  destruct s as [|a r1]; [reflexivity|].
  simpl in Hn.
  change (lstrip (String a r1)) with
    (if ascii_space a then lstrip r1
     else match r1 with
          | EmptyString => String a r1
          | String b r2 =>
              if space2 a b then lstrip r2
              else match r2 with
                   | EmptyString => String a r1
                   | String c r3 => if space3 a b c then lstrip r3 else String a r1
                   end
          end).
  destruct (ascii_space a) eqn:Ea.
  { apply (IH (String.length r1)); [lia | reflexivity]. }
  destruct r1 as [|b r2].
  { simpl. now rewrite Ea. }
  destruct (space2 a b) eqn:E2.
  { simpl in Hn. apply (IH (String.length r2)); [lia | reflexivity]. }
  destruct r2 as [|c r3].
  { simpl. now rewrite Ea, E2. }
  destruct (space3 a b c) eqn:E3.
  { simpl in Hn. apply (IH (String.length r3)); [lia | reflexivity]. }
  simpl. now rewrite Ea, E2, E3.
Qed.

(** [s.strip()] is empty exactly when [s] consists of spaces. *)
Lemma is_empty_strip s : is_empty (strip s) = all_space s.
Proof.
  unfold strip, all_space. pose proof (lstrip_idem s) as H.
  destruct (lstrip s) as [|a t] eqn:E; [reflexivity|].
  change (rstrip (String a t)) with
    (if all_space (String a t) then EmptyString else String a (rstrip t)).
  unfold all_space. rewrite H. reflexivity.
Qed.

Lemma plain_digit_char (k : N) : (k < 10)%N -> plain (digit_char k) = true.
Proof.
  intros H.
  assert (Hk : (k = 0 \/ k = 1 \/ k = 2 \/ k = 3 \/ k = 4 \/ k = 5 \/ k = 6 \/ k = 7
               \/ k = 8 \/ k = 9)%N) by lia.
  repeat (destruct Hk as [-> | Hk]; [reflexivity|]). now subst.
Qed.

Lemma is_digit_digit_char (k : N) : (k < 10)%N -> is_digit (digit_char k) = true.
Proof.
  intros H.
  assert (Hk : (k = 0 \/ k = 1 \/ k = 2 \/ k = 3 \/ k = 4 \/ k = 5 \/ k = 6 \/ k = 7
               \/ k = 8 \/ k = 9)%N) by lia.
  repeat (destruct Hk as [-> | Hk]; [reflexivity|]). now subst.
Qed.

Lemma digit_val_digit_char (k : N) : (k < 10)%N -> digit_val (digit_char k) = k.
Proof.
  intros H.
  assert (Hk : (k = 0 \/ k = 1 \/ k = 2 \/ k = 3 \/ k = 4 \/ k = 5 \/ k = 6 \/ k = 7
               \/ k = 8 \/ k = 9)%N) by lia.
  repeat (destruct Hk as [-> | Hk]; [reflexivity|]). now subst.
Qed.

Lemma length_append (s t : string) :
  String.length (s ++ t) = (String.length s + String.length t)%nat.
Proof. induction s as [|a s IH]; simpl; [reflexivity | now rewrite IH]. Qed.


End StrFacts.

(** ** C6 and C7: [save_table] and [load_table_by_id] *)

Module PersistFacts.
Import PyStr Py Storage AssocFacts StrFacts.
Export PersistDefs.






Section Persist.
Context {J : Json}.







End Persist.



(** C6 on the table with the id " a ": [save_table] returns, and
    [load_table_by_id] with the same id finds nothing. *)
Theorem load_misses_padded_id :
  exists w',
    save_table (J:=JsonLite.codec) "tables" padded_table world0 = (Ok tt, w')
    /\ load_table_by_id (J:=JsonLite.codec) "tables" " a " w' = (Ok None, w')
    /\ JsonLite.parse (JsonLite.print 0 (stamped padded_table "2026-02-25T08:30:00"))
       = Some (stamped padded_table "2026-02-25T08:30:00").
Proof.
  eexists. split; [vm_compute; reflexivity|].
  split; vm_compute; reflexivity.
Qed.

End PersistFacts.

(** ** Dates *)

Module DateFacts.
Import PyStr PyDate StrFacts.
Local Open Scope N_scope.

Lemma dig_plain (n : N) : plain (dig n) = true.
Proof. apply plain_digit_char, N.mod_lt. discriminate. Qed.

Lemma dig_is_digit (n : N) : is_digit (dig n) = true.
Proof. apply is_digit_digit_char, N.mod_lt. discriminate. Qed.

Lemma dig_val (n : N) : digit_val (dig n) = n mod 10.
Proof. apply digit_val_digit_char, N.mod_lt. discriminate. Qed.

Lemma isoformat_all_plain (d : date) : all_plain (isoformat d) = true.
Proof. unfold isoformat. simpl. now rewrite !dig_plain. Qed.

(** [isoformat] writes no surrounding space. *)
Lemma strip_isoformat (d : date) : strip (isoformat d) = isoformat d.
Proof. apply strip_all_plain, isoformat_all_plain. Qed.

Lemma isoformat_not_empty (d : date) : is_empty (isoformat d) = false.
Proof. reflexivity. Qed.

Lemma num4_dig (y : N) :
  y <= 9999 -> num4 (dig (y / 1000)) (dig (y / 100)) (dig (y / 10)) (dig y) = Some y.
Proof.
  intros H. unfold num4. rewrite !dig_is_digit, !dig_val. simpl. f_equal.
  pose proof (N.div_mod y 10 ltac:(discriminate)).
  pose proof (N.div_mod (y / 10) 10 ltac:(discriminate)).
  pose proof (N.div_mod (y / 10 / 10) 10 ltac:(discriminate)).
  pose proof (N.mod_lt y 10 ltac:(discriminate)).
  pose proof (N.mod_lt (y / 10) 10 ltac:(discriminate)).
  pose proof (N.mod_lt (y / 10 / 10) 10 ltac:(discriminate)).
  assert (E100 : y / 100 = y / 10 / 10) by (rewrite N.Div0.div_div; reflexivity).
  assert (E1000 : y / 1000 = y / 10 / 10 / 10) by (rewrite !N.Div0.div_div; reflexivity).
  assert (Hs : y / 10 / 10 / 10 < 10).
  { rewrite <- E1000. apply N.Div0.div_lt_upper_bound. lia. }
  rewrite E100, E1000. rewrite (N.mod_small (y / 10 / 10 / 10) 10 Hs). lia.
Qed.

Lemma num2_dig (m : N) : m <= 99 -> num2 (dig (m / 10)) (dig m) = Some m.
Proof.
  intros H. unfold num2. rewrite !dig_is_digit, !dig_val. simpl. f_equal.
  pose proof (N.div_mod m 10 ltac:(discriminate)).
  assert (Hs : m / 10 < 10) by (apply N.Div0.div_lt_upper_bound; lia).
  rewrite (N.mod_small (m / 10) 10 Hs). lia.
Qed.

Lemma days_in_month_le (y m : N) : days_in_month y m <= 31.
Proof.
  unfold days_in_month.
  repeat match goal with
         | |- context [match ?x with _ => _ end] => destruct x
         end; lia.
Qed.

Lemma valid_bounds (d : date) :
  valid d = true ->
  1 <= year d <= 9999 /\ 1 <= month d <= 12 /\ 1 <= day d <= days_in_month (year d) (month d).
Proof.
  unfold valid. intros H.
  repeat (apply andb_prop in H as [H ?]).
  repeat match goal with
         | H : (_ <=? _) = true |- _ => apply N.leb_le in H
         end. lia.
Qed.

(** [fromisoformat] reads back what [isoformat] writes. *)
Lemma fromisoformat_isoformat (d : date) :
  valid d = true -> fromisoformat (isoformat d) = Some d.
Proof.
  intros Hv. pose proof (valid_bounds d Hv) as (Hy & Hm & Hd).
  pose proof (days_in_month_le (year d) (month d)).
  unfold fromisoformat, isoformat. simpl.
  rewrite num4_dig by lia. rewrite !num2_dig by lia.
  destruct d as [y m dd]. simpl in *. now rewrite Hv.
Qed.

Lemma fromisoformat_valid (s : string) (d : date) :
  fromisoformat s = Some d -> valid d = true.
Proof.
  unfold fromisoformat.
  repeat (destruct s as [|? s]; try discriminate).
  destruct (_ && _); [|discriminate].
  destruct (num4 _ _ _ _); [|discriminate].
  destruct (num2 _ _); [|discriminate].
  destruct (num2 _ _); [|discriminate].
  destruct (valid _) eqn:E; [|discriminate].
  now intros [= <-].
Qed.

Lemma next_day_valid (d d' : date) :
  valid d = true -> next_day d = Some d' -> valid d' = true.
Proof.
  intros Hv. pose proof (valid_bounds d Hv) as (Hy & Hm & Hd).
  unfold next_day.
  destruct (day d <? days_in_month (year d) (month d)) eqn:E1.
  - intros [= <-]. apply N.ltb_lt in E1. unfold valid. simpl.
    repeat (apply andb_true_intro; split); apply N.leb_le; lia.
  - destruct (month d <? 12) eqn:E2.
    + intros [= <-]. apply N.ltb_lt in E2. unfold valid. simpl.
      repeat (apply andb_true_intro; split); try (apply N.leb_le; lia).
      apply N.leb_le. unfold days_in_month.
      repeat match goal with
             | |- context [match ?x with _ => _ end] => destruct x
             end; lia.
    + destruct (year d <? 9999) eqn:E3; [|discriminate].
      intros [= <-]. apply N.ltb_lt in E3. unfold valid. simpl.
      repeat (apply andb_true_intro; split); apply N.leb_le; lia.
Qed.

Lemma add_days_valid (i : nat) (d d' : date) :
  valid d = true -> add_days d i = Some d' -> valid d' = true.
Proof.
  revert d. induction i as [|i IH]; intros d Hv; simpl.
  - now intros [= <-].
  - destruct (next_day d) as [d1|] eqn:E; [|discriminate].
    apply IH. now apply (next_day_valid d).
Qed.

(** A date that is reached in [i + 1] days is reached in [i]. *)
Lemma add_days_S (i : nat) (d d' : date) :
  add_days d (S i) = Some d' -> exists d1, add_days d i = Some d1 /\ next_day d1 = Some d'.
Proof.
  revert d. induction i as [|i IH]; intros d; simpl.
  - destruct (next_day d) as [d1|] eqn:E; [|discriminate]. intros [= <-]. eauto.
  - destruct (next_day d) as [d1|] eqn:E; [|discriminate].
    intros H. apply (IH d1). exact H.
Qed.

Lemma add_days_le (i j : nat) (d d' : date) :
  (j <= i)%nat -> add_days d i = Some d' -> exists d1, add_days d j = Some d1.
Proof.
  intros Hle. revert d'. induction Hle as [|i Hle IH]; intros d' H.
  - eauto.
  - apply add_days_S in H as (d1 & H1 & _). eauto.
Qed.

End DateFacts.

(** ** [normalize_table] on values *)

Module NormFacts.
Import PyStr Py Storage AssocFacts StrFacts DateFacts.
Export NormDefs.

Lemma bind_ok {A B} (m : M A) (f : A -> M B) (w w' : world) (b : B) :
  bind m f w = (Ok b, w') -> exists a w1, m w = (Ok a, w1) /\ f a w1 = (Ok b, w').
Proof.
  unfold bind. destruct (m w) as [[a|e] w1]; [eauto | discriminate].
Qed.

Lemma bind_assoc {A B C} (m : M A) (f : A -> M B) (g : B -> M C) (w : world) :
  bind (bind m f) g w = bind m (fun x => bind (f x) g) w.
Proof. unfold bind. destruct (m w) as [[a|e] w1]; reflexivity. Qed.

Lemma normalize_table_steps (cfg t : dict) (w : world) :
  normalize_table cfg t w =
  bind (resolve_start t) (fun sd =>
    bind (normalize_rows cfg sd 0 (rows_of t)) (fun out => ret (finish t sd out))) w.
Proof.
  unfold normalize_table, resolve_start. rewrite bind_assoc. reflexivity.
Qed.

(** One turn of the loop on a dict. *)
Lemma normalize_rows_dict (cfg : dict) (sd : PyDate.date) (i : nat) (r : dict)
    (rest : list value) (w : world) :
  normalize_rows cfg sd i (VDict r :: rest) w =
  match row_out cfg sd i (next_row_id w) r with
  | Raise e => (Raise e, draw w)
  | Ok r' =>
      match normalize_rows cfg sd (S i) rest (draw w) with
      | (Ok out, w') => (Ok (VDict r' :: out), w')
      | (Raise e, w') => (Raise e, w')
      end
  end.
Proof.
  simpl. unfold bind at 1. unfold _new_id, bind at 1, uuid4_hex, ret at 1. simpl.
  fold (draw w). fold (next_row_id w). unfold row_out.
  unfold bind at 1, date_plus.
  destruct (PyDate.add_days sd i) as [d|]; [|reflexivity].
  unfold ret at 1. unfold bind at 1, lift.
  destruct (compute_amount _) as [a|e]; [|reflexivity].
  simpl. unfold bind. destruct (normalize_rows cfg sd (S i) rest (draw w)) as [[out|e] w'];
    reflexivity.
Qed.

(** One turn of the loop on an entry that is not a dict: the entry is
    dropped and the index moves on. *)
Lemma normalize_rows_skip (cfg : dict) (sd : PyDate.date) (i : nat) (v : value)
    (rest : list value) (w : world) :
  is_dict v = false ->
  normalize_rows cfg sd i (v :: rest) w = normalize_rows cfg sd (S i) rest w.
Proof. destruct v; simpl; intros H; try reflexivity. discriminate. Qed.

Lemma get_set_ne (d : dict) (k k' : string) (v : value) :
  k <> k' -> get (Assoc.set d k v) k' = get d k'.
Proof. intros H. unfold get. now rewrite lookup_set_ne. Qed.

Lemma get_set_eq (d : dict) (k : string) (v : value) : get (Assoc.set d k v) k = v.
Proof. unfold get. now rewrite lookup_set_eq. Qed.

Lemma erd_unfold (cfg r : dict) :
  ensure_row_defaults cfg r =
  let r1 := if unset (get r "vehicle") then Assoc.set r "vehicle" (default_of cfg "defaultVehicle") else r in
  if unset (get r1 "model") then Assoc.set r1 "model" (default_of cfg "defaultModel") else r1.
Proof. reflexivity. Qed.

Lemma erd_lookup_other (cfg r : dict) (k : string) :
  k <> "vehicle" -> k <> "model" ->
  Assoc.lookup (ensure_row_defaults cfg r) k = Assoc.lookup r k.
Proof.
  intros Hv Hm. rewrite erd_unfold. cbv zeta.
  destruct (unset (get r "vehicle")); destruct (unset (get _ "model"));
    rewrite ?lookup_set_ne by congruence; reflexivity.
Qed.

Lemma erd_lookup_vehicle (cfg r : dict) :
  Assoc.lookup (ensure_row_defaults cfg r) "vehicle" =
  if unset (get r "vehicle") then Some (default_of cfg "defaultVehicle")
  else Assoc.lookup r "vehicle".
Proof.
  rewrite erd_unfold. cbv zeta.
  destruct (unset (get r "vehicle")); destruct (unset (get _ "model"));
    rewrite ?lookup_set_ne by discriminate; rewrite ?lookup_set_eq; reflexivity.
Qed.

Lemma erd_lookup_model (cfg r : dict) :
  Assoc.lookup (ensure_row_defaults cfg r) "model" =
  if unset (get r "model") then Some (default_of cfg "defaultModel")
  else Assoc.lookup r "model".
Proof.
  rewrite erd_unfold. cbv zeta.
  destruct (unset (get r "vehicle")); rewrite ?get_set_ne by discriminate;
    destruct (unset (get r "model")); rewrite ?lookup_set_eq;
    rewrite ?lookup_set_ne by discriminate; reflexivity.
Qed.

(** A row whose vehicle and model are set, or are the defaults already,
    is left as it is. *)
Lemma erd_fixed (cfg r : dict) :
  (unset (get r "vehicle") = true ->
   Assoc.lookup r "vehicle" = Some (default_of cfg "defaultVehicle")) ->
  (unset (get r "model") = true ->
   Assoc.lookup r "model" = Some (default_of cfg "defaultModel")) ->
  ensure_row_defaults cfg r = r.
Proof.
  intros Hv Hm. rewrite erd_unfold. cbv zeta.
  destruct (unset (get r "vehicle")) eqn:Ev.
  - rewrite (set_same r _ _ (Hv eq_refl)).
    destruct (unset (get r "model")) eqn:Em; [|reflexivity].
    now rewrite (set_same r _ _ (Hm eq_refl)).
  - destruct (unset (get r "model")) eqn:Em; [|reflexivity].
    now rewrite (set_same r _ _ (Hm eq_refl)).
Qed.

Lemma compute_amount_ext (r r' : dict) :
  get r "freight" = get r' "freight" -> get r "settleTons" = get r' "settleTons" ->
  compute_amount r = compute_amount r'.
Proof. intros H1 H2. unfold compute_amount. now rewrite H1, H2. Qed.

Lemma get_lookup (d d' : dict) (k : string) :
  Assoc.lookup d k = Assoc.lookup d' k -> get d k = get d' k.
Proof. intros H. unfold get. now rewrite H. Qed.

(** The shape of a row that the loop returns. *)
Lemma row_out_inv (cfg : dict) (sd : PyDate.date) (i : nat) (id : string) (r r' : dict) :
  row_out cfg sd i id r = Ok r' ->
  exists di a,
    PyDate.add_days sd i = Some di
    /\ let r1 := ensure_row_defaults cfg (Assoc.setdefault r "id" (VStr id)) in
       let r2 := Assoc.set r1 "loadDate" (VStr (PyDate.isoformat di)) in
       compute_amount r2 = Ok a /\ r' = Assoc.set r2 "amount" (VStr a).
Proof.
  unfold row_out. destruct (PyDate.add_days sd i) as [di|]; [|discriminate].
  destruct (compute_amount _) as [a|e] eqn:Ea; [|discriminate].
  simpl. intros [= <-]. exists di, a. auto.
Qed.

Lemma row_out_dated (cfg : dict) (sd : PyDate.date) (i : nat) (id : string) (r r' : dict) :
  row_out cfg sd i id r = Ok r' ->
  exists di, PyDate.add_days sd i = Some di
             /\ get r' "loadDate" = VStr (PyDate.isoformat di).
Proof.
  intros H. apply row_out_inv in H as (di & a & Hd & _ & ->).
  exists di. split; [exact Hd|].
  rewrite get_set_ne by discriminate. apply get_set_eq.
Qed.

(** A row that the loop returned comes back unchanged from the loop at
    the same index, whatever id is offered. *)
Lemma row_out_idem (cfg : dict) (sd : PyDate.date) (i : nat) (id id' : string) (r r' : dict) :
  row_out cfg sd i id r = Ok r' -> row_out cfg sd i id' r' = Ok r'.
Proof.
  intros H. apply row_out_inv in H as (di & a & Hd & Ha & Hr'). cbv zeta in Ha, Hr'.
  set (r0 := Assoc.setdefault r "id" (VStr id)) in *.
  set (r1 := ensure_row_defaults cfg r0) in *.
  set (r2 := Assoc.set r1 "loadDate" (VStr (PyDate.isoformat di))) in *.
  assert (Hk : forall k, k <> "loadDate" -> k <> "amount" ->
                         Assoc.lookup r' k = Assoc.lookup r1 k).
  { intros k H1 H2. subst r' r2. now rewrite !lookup_set_ne by congruence. }
  assert (Hid : Assoc.setdefault r' "id" (VStr id') = r').
  { unfold Assoc.setdefault. rewrite Hk by discriminate.
    subst r1. rewrite erd_lookup_other by discriminate.
    subst r0. rewrite lookup_setdefault. simpl.
    now destruct (Assoc.lookup r "id"). }
  assert (Herd : ensure_row_defaults cfg r' = r').
  { apply erd_fixed; intros Hu.
    - rewrite Hk by discriminate. subst r1. rewrite erd_lookup_vehicle.
      destruct (unset (get r0 "vehicle")) eqn:E; [reflexivity|].
      rewrite (get_lookup r' r0 "vehicle") in Hu; [congruence|].
      rewrite Hk by discriminate. rewrite erd_lookup_vehicle. now rewrite E.
    - rewrite Hk by discriminate. subst r1. rewrite erd_lookup_model.
      destruct (unset (get r0 "model")) eqn:E; [reflexivity|].
      rewrite (get_lookup r' r0 "model") in Hu; [congruence|].
      rewrite Hk by discriminate. rewrite erd_lookup_model. now rewrite E. }
  unfold row_out. rewrite Hid, Herd, Hd.
  assert (Hload : Assoc.set r' "loadDate" (VStr (PyDate.isoformat di)) = r').
  { apply set_same. subst r' r2. rewrite lookup_set_ne by discriminate. apply lookup_set_eq. }
  rewrite Hload.
  assert (Hamt : compute_amount r' = Ok a).
  { rewrite <- Ha. apply compute_amount_ext; subst r'; now rewrite get_set_ne by discriminate. }
  rewrite Hamt. simpl. f_equal. apply set_same. subst r'. apply lookup_set_eq.
Qed.

Lemma normalize_rows_dated (cfg : dict) (sd : PyDate.date) (rows : list value) :
  all_dicts rows ->
  forall i w out w',
    normalize_rows cfg sd i rows w = (Ok out, w') ->
    length out = length rows
    /\ all_dicts out
    /\ forall j r, out !! j = Some r ->
         exists rd di, r = VDict rd
                       /\ PyDate.add_days sd (i + j) = Some di
                       /\ get rd "loadDate" = VStr (PyDate.isoformat di).
Proof.
  induction 1 as [|rr rows Hrr Hrows IH]; intros i w out w' Hrun.
  - simpl in Hrun. injection Hrun as <- <-. repeat split; [constructor|].
    intros j r Hj. discriminate Hj.
  - destruct rr as [| | | | | |r]; try discriminate Hrr.
    rewrite normalize_rows_dict in Hrun.
    destruct (row_out cfg sd i (next_row_id w) r) as [r'|e] eqn:Hrow; [|discriminate].
    destruct (normalize_rows cfg sd (S i) rows (draw w)) as [[out0|e] w0] eqn:Hrest;
      [|discriminate].
    injection Hrun as <- <-.
    destruct (IH _ _ _ _ Hrest) as (Hlen & Hall & Hdates).
    split; [simpl; now rewrite Hlen|]. split; [constructor; [reflexivity | exact Hall]|].
    intros [|j] x Hj.
    + injection Hj as <-. apply row_out_dated in Hrow as (di & Hd & Hl).
      exists r', di. rewrite Nat.add_0_r. auto.
    + apply Hdates in Hj. now rewrite Nat.add_succ_r.
Qed.

Lemma normalize_rows_idem (cfg : dict) (sd : PyDate.date) (rows : list value) :
  all_dicts rows ->
  forall i w out w',
    normalize_rows cfg sd i rows w = (Ok out, w') ->
    forall w2, exists w3, normalize_rows cfg sd i out w2 = (Ok out, w3).
Proof.
  induction 1 as [|rr rows Hrr Hrows IH]; intros i w out w' Hrun w2.
  - simpl in Hrun. injection Hrun as <- <-. eexists. reflexivity.
  - destruct rr as [| | | | | |r]; try discriminate Hrr.
    rewrite normalize_rows_dict in Hrun.
    destruct (row_out cfg sd i (next_row_id w) r) as [r'|e] eqn:Hrow; [|discriminate].
    destruct (normalize_rows cfg sd (S i) rows (draw w)) as [[out0|e] w0] eqn:Hrest;
      [|discriminate].
    injection Hrun as <- <-.
    destruct (IH _ _ _ _ Hrest (draw w2)) as (w3 & Hagain).
    exists w3. rewrite normalize_rows_dict.
    rewrite (row_out_idem cfg sd i _ (next_row_id w2) r r' Hrow), Hagain. reflexivity.
Qed.

Lemma resolve_start_fixed (t : dict) (d : PyDate.date) (w : world) :
  PyDate.valid d = true ->
  get (meta_of t) "startDate" = VStr (PyDate.isoformat d) ->
  resolve_start t w = (Ok d, w).
Proof.
  intros Hv Hm. unfold resolve_start. rewrite Hm. cbv zeta.
  replace (strip (str (or_empty (VStr (PyDate.isoformat d))))) with (PyDate.isoformat d)
    by (unfold or_empty; simpl; now rewrite strip_isoformat).
  rewrite isoformat_not_empty. simpl negb. cbv iota.
  unfold bind, ret, parse_iso_date. rewrite strip_isoformat, isoformat_not_empty.
  now rewrite (fromisoformat_isoformat d Hv).
Qed.

Lemma resolve_start_valid (t : dict) (w w1 : world) (sd : PyDate.date) :
  clock_valid w -> resolve_start t w = (Ok sd, w1) -> PyDate.valid sd = true.
Proof.
  intros Hc Hrun. unfold resolve_start in Hrun. cbv zeta in Hrun.
  apply bind_ok in Hrun as (iso & w0 & Hiso & Hd).
  assert (Hclock : clock w0 = clock w).
  { destruct (negb (is_empty _)); [now injection Hiso as _ <-|].
    destruct (negb (is_empty _)); [now injection Hiso as _ <-|].
    unfold today_iso, date_today, bind, read_clock, ret in Hiso. now injection Hiso as _ <-. }
  unfold parse_iso_date in Hd.
  destruct (is_empty (strip iso)).
  - unfold date_today, bind, read_clock, ret in Hd. injection Hd as <- _.
    rewrite Hclock. apply Hc.
  - destruct (PyDate.fromisoformat (strip iso)) as [d|] eqn:E.
    + injection Hd as <- _. now apply (fromisoformat_valid (strip iso)).
    + unfold date_today, bind, read_clock, ret in Hd. injection Hd as <- _.
      rewrite Hclock. apply Hc.
Qed.

Lemma lookup_finish_rows (t : dict) (sd : PyDate.date) (out : list value) :
  Assoc.lookup (finish t sd out) "rows" = Some (VList out).
Proof.
  unfold finish. rewrite !lookup_set_ne by discriminate. apply lookup_set_eq.
Qed.

Lemma lookup_finish_start (t : dict) (sd : PyDate.date) (out : list value) :
  Assoc.lookup (finish t sd out) "startDate" = Some (VStr (PyDate.isoformat sd)).
Proof.
  unfold finish. rewrite lookup_set_ne by discriminate. apply lookup_set_eq.
Qed.

Lemma lookup_finish_meta (t : dict) (sd : PyDate.date) (out : list value) :
  Assoc.lookup (finish t sd out) "meta" =
  Some (VDict (Assoc.set (meta_of t) "startDate" (VStr (PyDate.isoformat sd)))).
Proof. unfold finish. apply lookup_set_eq. Qed.

(** The table that a pass over dict rows returns is returned again by
    any further pass. *)
Lemma finish_fixed (cfg t : dict) (sd : PyDate.date) (rows out : list value) (w w' : world) :
  PyDate.valid sd = true ->
  all_dicts rows ->
  normalize_rows cfg sd 0 rows w = (Ok out, w') ->
  forall w2, exists w3,
    normalize_table cfg (finish t sd out) w2 = (Ok (finish t sd out), w3).
Proof.
  intros Hv Hall Hrun w2.
  destruct (normalize_rows_idem cfg sd rows Hall 0 w out w' Hrun w2) as (w3 & Hagain).
  exists w3. rewrite normalize_table_steps.
  set (t1 := finish t sd out).
  assert (Hmeta : meta_of t1 = Assoc.set (meta_of t) "startDate" (VStr (PyDate.isoformat sd))).
  { unfold meta_of at 1, get. subst t1. now rewrite lookup_finish_meta. }
  assert (Hrows : rows_of t1 = out).
  { unfold rows_of, get_default. subst t1. now rewrite lookup_finish_rows. }
  unfold bind at 1. rewrite (resolve_start_fixed t1 sd w2 Hv)
    by (rewrite Hmeta; apply get_set_eq).
  unfold bind. rewrite Hrows, Hagain. unfold ret. f_equal. f_equal.
  unfold finish at 1. rewrite Hmeta, set_set.
  rewrite (set_same t1 "rows") by apply lookup_finish_rows.
  rewrite (set_same t1 "startDate") by apply lookup_finish_start.
  apply set_same. apply lookup_finish_meta.
Qed.

(** C3 on tables whose rows are dicts: a second pass returns the table
    of the first. *)
Lemma normalize_table_idem_dicts (cfg t t1 : dict) (w w1 : world) :
  clock_valid w ->
  all_dicts (rows_of t) ->
  normalize_table cfg t w = (Ok t1, w1) ->
  forall w2, exists w3, normalize_table cfg t1 w2 = (Ok t1, w3).
Proof.
  intros Hc Hall Hrun w2. rewrite normalize_table_steps in Hrun.
  apply bind_ok in Hrun as (sd & wa & Hsd & Hrun).
  apply bind_ok in Hrun as (out & wb & Hrows & Hret).
  injection Hret as <- <-.
  apply (finish_fixed cfg t sd (rows_of t) out wa wb); auto.
  now apply (resolve_start_valid t w wa).
Qed.

(** C1 on tables whose rows are dicts: the rows that a pass returns are
    in step with the start date that it returns. *)
Lemma normalize_table_dated (cfg t t1 : dict) (w w1 : world) :
  all_dicts (rows_of t) ->
  normalize_table cfg t w = (Ok t1, w1) ->
  exists sd, dated t1 sd (length (rows_of t)).
Proof.
  intros Hall Hrun. rewrite normalize_table_steps in Hrun.
  apply bind_ok in Hrun as (sd & wa & Hsd & Hrun).
  apply bind_ok in Hrun as (out & wb & Hrows & Hret).
  injection Hret as <- <-.
  destruct (normalize_rows_dated cfg sd (rows_of t) Hall 0 wa out wb Hrows) as (Hlen & _ & Hd).
  exists sd. split.
  - unfold get. now rewrite lookup_finish_start.
  - exists out. split; [unfold get; now rewrite lookup_finish_rows|]. split; [exact Hlen|].
    intros j r Hj. apply Hd in Hj. exact Hj.
Qed.

Lemma create_table_steps (cfg : dict) (d : PyDate.date) (n : Z) (w : world) :
  PyDate.valid d = true ->
  create_table cfg (PyDate.isoformat d) n w =
  bind (fresh_rows cfg d 0 (Z.to_nat (Z.max 1 n))) (fun rows =>
    bind (_new_id "tbl") (fun table_id =>
      bind now_iso (fun c =>
        bind now_iso (fun u =>
          normalize_table cfg (created (PyDate.isoformat d) n rows table_id c u))))) w.
Proof.
  intros Hv. unfold create_table. rewrite strip_isoformat, isoformat_not_empty.
  simpl negb. cbv iota. unfold bind at 1, ret at 1.
  unfold ensure_rows_from_start_date, parse_iso_date.
  rewrite strip_isoformat, isoformat_not_empty, (fromisoformat_isoformat d Hv).
  rewrite bind_assoc. unfold bind at 1, ret at 1. reflexivity.
Qed.

Lemma fresh_rows_spec (cfg : dict) (sd : PyDate.date) (n : nat) :
  forall i w rows w',
    fresh_rows cfg sd i n w = (Ok rows, w') ->
    length rows = n /\ Forall no_freight rows.
Proof.
  induction n as [|n IH]; intros i w rows w' Hrun.
  - injection Hrun as <- <-. split; [reflexivity | constructor].
  - simpl in Hrun.
    apply bind_ok in Hrun as (d & w0 & Hd & Hrun).
    apply bind_ok in Hrun as (id & w2 & Hid & Hrun).
    apply bind_ok in Hrun as (rest & w3 & Hrest & Hret).
    injection Hret as <- <-.
    destruct (IH _ _ _ _ Hrest) as (Hlen & Hall).
    split; [simpl; now rewrite Hlen|]. constructor; [|exact Hall].
    eexists. split; [reflexivity|].
    unfold get. now rewrite erd_lookup_other by discriminate.
Qed.

Lemma fresh_rows_returns (cfg : dict) (sd : PyDate.date) (n : nat) :
  forall i w,
    (forall j, (j < n)%nat -> exists dj, PyDate.add_days sd (i + j) = Some dj) ->
    exists rows w', fresh_rows cfg sd i n w = (Ok rows, w').
Proof.
  induction n as [|n IH]; intros i w Hdays.
  - eexists _, _. reflexivity.
  - destruct (Hdays 0%nat ltac:(lia)) as (d0 & Hd0). rewrite Nat.add_0_r in Hd0.
    simpl. unfold bind at 1, date_plus. rewrite Hd0. unfold ret at 1.
    unfold bind at 1, _new_id, bind at 1, uuid4_hex, ret at 1. simpl.
    destruct (IH (S i) (draw w)) as (rest & w' & Hrest).
    { intros j Hj. destruct (Hdays (S j) ltac:(lia)) as (dj & Hdj).
      exists dj. now rewrite Nat.add_succ_r in Hdj. }
    unfold bind. fold (draw w). rewrite Hrest. eexists _, _. reflexivity.
Qed.

Lemma new_id_run (prefix : string) (w : world) :
  _new_id prefix w = (Ok (prefix ++ "_" ++ take 12 (uuids w (drawn w))), draw w).
Proof. reflexivity. Qed.

Lemma now_iso_run (w : world) :
  now_iso w =
  (Ok (PyDate.isoformat (fst (clock w (ticks w))) ++ "T" ++ snd (clock w (ticks w))), tick w).
Proof. reflexivity. Qed.

Lemma to_decimal_empty : to_decimal (VStr "") = None.
Proof. reflexivity. Qed.

Lemma row_out_no_freight (cfg : dict) (sd di : PyDate.date) (i : nat) (id : string) (r : dict) :
  get r "freight" = VStr "" ->
  PyDate.add_days sd i = Some di ->
  exists r', row_out cfg sd i id r = Ok r'.
Proof.
  intros Hf Hd. unfold row_out. rewrite Hd. unfold compute_amount.
  replace (get _ "freight") with (VStr "").
  - rewrite to_decimal_empty. simpl. eauto.
  - rewrite get_set_ne by discriminate. unfold get.
    rewrite erd_lookup_other by discriminate. rewrite lookup_setdefault.
    unfold get in Hf. destruct (Assoc.lookup r "freight"); [now rewrite Hf | now rewrite Hf].
Qed.

Lemma normalize_rows_returns (cfg : dict) (sd : PyDate.date) (rows : list value) :
  Forall no_freight rows ->
  forall i w,
    (forall j, (j < length rows)%nat -> exists dj, PyDate.add_days sd (i + j) = Some dj) ->
    exists out w', normalize_rows cfg sd i rows w = (Ok out, w').
Proof.
  induction 1 as [|rr rows (r & -> & Hf) Hrows IH]; intros i w Hdays.
  - eexists _, _. reflexivity.
  - destruct (Hdays 0%nat ltac:(simpl; lia)) as (d0 & Hd0). rewrite Nat.add_0_r in Hd0.
    destruct (row_out_no_freight cfg sd d0 i (next_row_id w) r Hf Hd0) as (r' & Hrow).
    destruct (IH (S i) (draw w)) as (out & w' & Hrest).
    { intros j Hj. destruct (Hdays (S j) ltac:(simpl; lia)) as (dj & Hdj).
      exists dj. now rewrite Nat.add_succ_r in Hdj. }
    rewrite normalize_rows_dict, Hrow, Hrest. eexists _, _. reflexivity.
Qed.

Lemma no_freight_all_dicts (rows : list value) : Forall no_freight rows -> all_dicts rows.
Proof.
  induction 1 as [|r rows (d & -> & _) _ IH]; constructor; [reflexivity | exact IH].
Qed.

Lemma created_meta (s : string) (n : Z) (rows : list value) (id c u : string) :
  meta_of (created s n rows id c u) = [("startDate", VStr s); ("initialRows", VInt n)].
Proof. reflexivity. Qed.

Lemma created_rows (s : string) (n : Z) (rows : list value) (id c u : string) :
  rows_of (created s n rows id c u) = rows.
Proof. reflexivity. Qed.

(** C1 for [create_table]: for a valid start date the table that
    [create_table] returns has max(1, row count) rows, row [i] is dated
    [i] days after the start date, and [normalize_table] returns this
    table unchanged. *)
Lemma create_table_dated (cfg : dict) (d : PyDate.date) (n : Z) (w w1 : world) (t : dict) :
  PyDate.valid d = true ->
  create_table cfg (PyDate.isoformat d) n w = (Ok t, w1) ->
  dated t d (Z.to_nat (Z.max 1 n))
  /\ forall w2, exists w3, normalize_table cfg t w2 = (Ok t, w3).
Proof.
  intros Hv Hrun. rewrite create_table_steps in Hrun by assumption.
  apply bind_ok in Hrun as (rows & wa & Hrows & Hrun).
  apply bind_ok in Hrun as (id & wb & _ & Hrun).
  apply bind_ok in Hrun as (c & wc & _ & Hrun).
  apply bind_ok in Hrun as (u & wd & _ & Hrun).
  destruct (fresh_rows_spec _ _ _ _ _ _ _ Hrows) as (Hlen & Hfresh).
  pose proof (no_freight_all_dicts rows Hfresh) as Hall.
  set (t0 := created (PyDate.isoformat d) n rows id c u) in *.
  rewrite normalize_table_steps in Hrun.
  unfold bind at 1 in Hrun.
  rewrite (resolve_start_fixed t0 d wd Hv) in Hrun by reflexivity.
  apply bind_ok in Hrun as (out & we & Hout & Hret).
  injection Hret as <- <-.
  change (rows_of t0) with rows in Hout.
  destruct (normalize_rows_dated cfg d rows Hall 0 wd out we Hout) as (Hlen' & _ & Hd).
  split.
  - split; [unfold get; now rewrite lookup_finish_start|].
    exists out. split; [unfold get; now rewrite lookup_finish_rows|].
    split; [congruence|]. intros j r Hj. apply Hd in Hj. exact Hj.
  - apply (finish_fixed cfg t0 d rows out wd we); assumption.
Qed.

(** [create_table] returns when the last row's date exists, that is when
    it is not after 9999-12-31. *)
Lemma create_table_returns (cfg : dict) (d dl : PyDate.date) (n : Z) (w : world) :
  PyDate.valid d = true ->
  PyDate.add_days d (Z.to_nat (Z.max 1 n) - 1) = Some dl ->
  exists t w1, create_table cfg (PyDate.isoformat d) n w = (Ok t, w1).
Proof.
  intros Hv Hlast. rewrite create_table_steps by assumption.
  assert (Hdays : forall j, (j < Z.to_nat (Z.max 1 n))%nat ->
                            exists dj, PyDate.add_days d (0 + j) = Some dj).
  { intros j Hj. apply (add_days_le (Z.to_nat (Z.max 1 n) - 1) j d dl); [lia | exact Hlast]. }
  destruct (fresh_rows_returns cfg d _ 0 w Hdays) as (rows & wa & Hrows).
  destruct (fresh_rows_spec _ _ _ _ _ _ _ Hrows) as (Hlen & Hfresh).
  unfold bind at 1. rewrite Hrows.
  unfold bind at 1. rewrite new_id_run.
  unfold bind at 1. rewrite now_iso_run.
  unfold bind at 1. rewrite now_iso_run.
  rewrite normalize_table_steps. unfold bind at 1.
  rewrite resolve_start_fixed with (d := d) by (assumption || reflexivity).
  rewrite created_rows.
  destruct (normalize_rows_returns cfg d rows Hfresh 0 (tick (tick (draw wa))))
    as (out & we & Hout); [now rewrite Hlen|].
  unfold bind. rewrite Hout. eexists _, _. reflexivity.
Qed.

(** C1 on a table whose rows hold None and then a row: the pass drops the
    None, and the row, now first, is dated one day after the start
    date. *)
Theorem normalize_table_date_gap :
  exists t1 w1 row,
    normalize_table cfg0 gap_table world0 = (Ok t1, w1)
    /\ get t1 "startDate" = VStr "2026-02-25"
    /\ get t1 "rows" = VList [VDict row]
    /\ get row "loadDate" = VStr "2026-02-26"
    /\ PyDate.add_days (PyDate.mkdate 2026 2 25) 0 = Some (PyDate.mkdate 2026 2 25).
Proof.
  eexists _, _, _. split; [vm_compute; reflexivity|].
  repeat split; reflexivity.
Qed.

(** C3 on the same table: the second pass dates the row on the start
    date, so it does not return the table of the first pass. *)
Theorem normalize_table_twice_differs :
  exists t1 w1 t2 w2 row1 row2,
    normalize_table cfg0 gap_table world0 = (Ok t1, w1)
    /\ normalize_table cfg0 t1 w1 = (Ok t2, w2)
    /\ get t1 "rows" = VList [VDict row1]
    /\ get t2 "rows" = VList [VDict row2]
    /\ get row1 "loadDate" = VStr "2026-02-26"
    /\ get row2 "loadDate" = VStr "2026-02-25"
    /\ t2 <> t1.
Proof.
  eexists _, _, _, _, _, _. split; [vm_compute; reflexivity|].
  split; [vm_compute; reflexivity|].
  repeat split; try reflexivity. discriminate.
Qed.

End NormFacts.

(** ** Decimal digits *)

Module DigitFacts.
Import PyStr StrFacts.
Export DigitDefs.
Local Open Scope N_scope.

Lemma pow10_spec (k : nat) : pow10 k = 10 ^ N.of_nat k.
Proof.
  induction k as [|k IH]; [reflexivity|].
  rewrite Nat2N.inj_succ, N.pow_succ_r', <- IH. reflexivity.
Qed.

Lemma pow10_pos (k : nat) : 0 < pow10 k.
Proof. induction k as [|k IH]; simpl pow10; lia. Qed.

Lemma pow10_add (j k : nat) : pow10 (j + k) = pow10 j * pow10 k.
Proof. induction j as [|j IH]; simpl pow10; [lia | rewrite IH; lia]. Qed.

Lemma pow10_le (j k : nat) : (j <= k)%nat -> pow10 j <= pow10 k.
Proof.
  intros H. replace k with (j + (k - j))%nat by lia. rewrite pow10_add.
  pose proof (pow10_pos j). pose proof (pow10_pos (k - j)). nia.
Qed.

Lemma append_cons (c : ascii) (s t : string) : (String c s ++ t = String c (s ++ t))%string.
Proof. reflexivity. Qed.

Lemma append_assoc (s t u : string) : ((s ++ t) ++ u = s ++ (t ++ u))%string.
Proof.
  induction s as [|c s IH]; [reflexivity|]. rewrite !append_cons. f_equal. exact IH.
Qed.

Lemma append_nil_r (s : string) : (s ++ "")%string = s.
Proof.
  induction s as [|c s IH]; [reflexivity|]. rewrite append_cons. f_equal. exact IH.
Qed.

Lemma digits_value_app (a : N) (s t : string) :
  digits_value a (s ++ t) = digits_value (digits_value a s) t.
Proof.
  revert a. induction s as [|c s IH]; intros a; [reflexivity|].
  rewrite append_cons. simpl. apply IH.
Qed.

Lemma all_digits_app (s t : string) : all_digits (s ++ t) = all_digits s && all_digits t.
Proof.
  induction s as [|c s IH]; [reflexivity|]. rewrite append_cons. simpl.
  rewrite IH. now rewrite andb_assoc.
Qed.

Lemma is_digit_val_lt (c : ascii) : is_digit c = true -> digit_val c < 10.
Proof.
  unfold is_digit, digit_val. intros H. apply andb_prop in H as [H1 H2].
  apply N.leb_le in H1. apply N.leb_le in H2. lia.
Qed.

(** The digits that [digits_fuel] puts before the last one. *)
Lemma digits_fuel_spec (f : nat) :
  forall n acc,
    n < 2 ^ N.of_nat (S f) ->
    exists ds,
      digits_fuel (S f) n acc = (ds ++ String (digit_char (n mod 10)) acc)%string
      /\ all_digits ds = true
      /\ (forall a, digits_value a ds = a * pow10 (String.length ds) + n / 10)
      /\ n < pow10 (S (String.length ds))
      /\ (n <> 0 -> pow10 (String.length ds) <= n).
Proof.
  induction f as [|f IH]; intros n acc Hn.
  - assert (Hlt : n < 10) by (change (2 ^ N.of_nat 1) with 2 in Hn; lia).
    exists EmptyString. simpl. apply N.ltb_lt in Hlt as Hb. rewrite Hb.
    repeat split; try lia. intros a. rewrite N.div_small by assumption. lia.
  - change (digits_fuel (S (S f)) n acc) with
      (if n <? 10 then String (digit_char (n mod 10)) acc
       else digits_fuel (S f) (n / 10) (String (digit_char (n mod 10)) acc)).
    destruct (n <? 10) eqn:Hb.
    + apply N.ltb_lt in Hb. exists EmptyString. simpl.
      repeat split; try lia. intros a. rewrite N.div_small by assumption. lia.
    + apply N.ltb_ge in Hb.
      assert (Hn10 : n / 10 < 2 ^ N.of_nat (S f)).
      { apply N.Div0.div_lt_upper_bound.
        rewrite (Nat2N.inj_succ (S f)), N.pow_succ_r' in Hn. lia. }
      destruct (IH (n / 10) (String (digit_char (n mod 10)) acc) Hn10)
        as (ds & Hrun & Hall & Hval & Hlt & Hge).
      exists (ds ++ String (digit_char (n / 10 mod 10)) "")%string.
      pose proof (N.div_mod (n / 10) 10 ltac:(discriminate)) as Hdm.
      pose proof (N.mod_lt (n / 10) 10 ltac:(discriminate)) as Hm.
      pose proof (N.div_mod n 10 ltac:(discriminate)) as Hdm'.
      pose proof (N.mod_lt n 10 ltac:(discriminate)) as Hm'.
      assert (Hlen : String.length (ds ++ String (digit_char (n / 10 mod 10)) "")
                     = S (String.length ds)).
      { rewrite length_append. simpl. lia. }
      split; [rewrite Hrun, append_assoc; reflexivity|].
      split.
      { rewrite all_digits_app, Hall. simpl.
        rewrite is_digit_digit_char by assumption. reflexivity. }
      split.
      { intros a. rewrite digits_value_app, Hval. simpl digits_value.
        rewrite digit_val_digit_char by assumption. rewrite Hlen. simpl pow10. lia. }
      rewrite Hlen. split.
      { change (pow10 (S (S (String.length ds)))) with (10 * pow10 (S (String.length ds))).
        lia. }
      intros _. change (pow10 (S (String.length ds))) with (10 * pow10 (String.length ds)).
      assert (n / 10 <> 0) by (intros E; apply N.div_small_iff in E; lia).
      specialize (Hge ltac:(assumption)). clear - Hge Hdm' Hm'.
      set (q := n / 10) in *. set (r := n mod 10) in *. clearbody q r. lia.
Qed.

Lemma digits_spec (n : N) :
  exists ds,
    digits n = (ds ++ String (digit_char (n mod 10)) "")%string
    /\ all_digits ds = true
    /\ (forall a, digits_value a ds = a * pow10 (String.length ds) + n / 10)
    /\ n < pow10 (S (String.length ds))
    /\ (n <> 0 -> pow10 (String.length ds) <= n).
Proof.
  apply digits_fuel_spec.
  rewrite Nat2N.inj_succ, N2Nat.id.
  destruct (N.eq_dec n 0) as [->|Hne]; [reflexivity|].
  apply N.log2_spec. lia.
Qed.

Lemma digits_length (n : N) :
  n < pow10 (String.length (digits n))
  /\ (1 <= String.length (digits n))%nat
  /\ (n <> 0 -> pow10 (String.length (digits n) - 1) <= n).
Proof.
  destruct (digits_spec n) as (ds & -> & _ & _ & Hlt & Hge).
  rewrite length_append. simpl String.length.
  replace (String.length ds + 1)%nat with (S (String.length ds)) by lia.
  split; [exact Hlt|]. split; [lia|].
  intros Hne. replace (S (String.length ds) - 1)%nat with (String.length ds) by lia. auto.
Qed.

Lemma digits_all_digits (n : N) : all_digits (digits n) = true.
Proof.
  destruct (digits_spec n) as (ds & -> & Hall & _).
  rewrite all_digits_app, Hall. simpl.
  rewrite is_digit_digit_char by (apply N.mod_lt; discriminate). reflexivity.
Qed.

Lemma digits_value_digits (a n : N) :
  digits_value a (digits n) = a * pow10 (String.length (digits n)) + n.
Proof.
  destruct (digits_spec n) as (ds & -> & _ & Hval & _).
  rewrite digits_value_app, Hval, length_append. simpl.
  rewrite digit_val_digit_char by (apply N.mod_lt; discriminate).
  replace (String.length ds + 1)%nat with (S (String.length ds)) by lia.
  simpl pow10. pose proof (N.div_mod n 10 ltac:(discriminate)). lia.
Qed.

(** A number below [10^k] has at most [k] digits. *)
Lemma digits_length_le (n : N) (k : nat) :
  (1 <= k)%nat -> n < pow10 k -> (String.length (digits n) <= k)%nat.
Proof.
  intros Hk Hn. destruct (digits_length n) as (_ & H1 & Hge).
  destruct (N.eq_dec n 0) as [->|Hne]; [simpl; lia|].
  specialize (Hge Hne).
  destruct (Nat.le_gt_cases (String.length (digits n)) k) as [|Hgt]; [assumption|].
  pose proof (pow10_le k (String.length (digits n) - 1) ltac:(lia)). lia.
Qed.

End DigitFacts.

(** ** Decimal arithmetic without rounding *)

Module DecFacts.
Import PyStr PyDecimal StrFacts DigitFacts.
Export DecDefs.

Lemma pow10_28 : pow10 28 = (10 ^ 28)%N.
Proof. vm_compute. reflexivity. Qed.

Lemma ndigits_fits (c : N) : (c < 10 ^ 28)%N -> (Z.of_N (ndigits c) <= 28)%Z.
Proof.
  intros H. unfold ndigits. rewrite <- pow10_28 in H.
  pose proof (digits_length_le c 28 ltac:(lia) H). lia.
Qed.

(** A number that fits is its own rounding. *)
Lemma fix_finite_exact (neg : bool) (c : N) (e : Z) :
  fits c e -> fix_finite neg c e = Ok (Fin neg c e).
Proof.
  intros [Hc He]. unfold fix_finite, Etiny, Etop, Emin, Emax, prec.
  destruct (c =? 0)%N eqn:E0.
  - apply N.eqb_eq in E0. subst c. do 2 f_equal. lia.
  - pose proof (ndigits_fits c Hc) as Hn.
    destruct (Z.ltb_spec (999999 - 28 + 1) (Z.of_N (ndigits c) + e - 28)) as [Hlt|_]; [lia|].
    destruct (Z.ltb_spec e (Z.max (Z.of_N (ndigits c) + e - 28) (-999999 - 28 + 1)))
      as [Hlt|_]; [lia | reflexivity].
Qed.


Ltac ascii_cases c H :=
  destruct c as [[] [] [] [] [] [] [] []]; vm_compute in H; try discriminate H.

Lemma numchar_plain (c : ascii) : numchar c = true -> plain c = true.
Proof. intros H. ascii_cases c H; reflexivity. Qed.

Lemma numchar_not_underscore (c : ascii) : numchar c = true -> Ascii.eqb c "_" = false.
Proof. intros H. ascii_cases c H; reflexivity. Qed.

Lemma numchar_lower (c : ascii) : numchar c = true -> lower c = c.
Proof. intros H. ascii_cases c H; reflexivity. Qed.

Lemma is_digit_numchar (c : ascii) : is_digit c = true -> numchar c = true.
Proof. intros H. unfold numchar. now rewrite H. Qed.


Lemma split_sign_digit (a : ascii) (r : string) :
  is_digit a = true -> split_sign (String a r) = (false, String a r).
Proof. intros H. ascii_cases a H; reflexivity. Qed.

Lemma parse_body_digit (neg : bool) (a : ascii) (r : string) :
  is_digit a = true -> parse_body neg (String a r) = parse_finite neg (String a r).
Proof. intros H. ascii_cases a H; reflexivity. Qed.

Lemma all_num_app (s t : string) : all_num (s ++ t) = all_num s && all_num t.
Proof.
  induction s as [|c s IH]; [reflexivity|]. rewrite append_cons. simpl.
  rewrite IH. now rewrite andb_assoc.
Qed.

Lemma all_digits_all_num (s : string) : all_digits s = true -> all_num s = true.
Proof.
  induction s as [|c s IH]; [reflexivity|]. simpl. intros H.
  apply andb_prop in H as [Hc Hs]. now rewrite (is_digit_numchar c Hc), IH.
Qed.

Lemma all_num_all_plain (s : string) : all_num s = true -> all_plain s = true.
Proof.
  induction s as [|c s IH]; [reflexivity|]. simpl. intros H.
  apply andb_prop in H as [Hc Hs]. now rewrite (numchar_plain c Hc), IH.
Qed.

Lemma all_num_remove_underscore (s : string) : all_num s = true -> remove_char "_" s = s.
Proof.
  induction s as [|c s IH]; [reflexivity|]. simpl. intros H.
  apply andb_prop in H as [Hc Hs]. now rewrite (numchar_not_underscore c Hc), IH.
Qed.

Lemma all_num_lower (s : string) : all_num s = true -> lower_str s = s.
Proof.
  induction s as [|c s IH]; [reflexivity|]. simpl. intros H.
  apply andb_prop in H as [Hc Hs]. now rewrite (numchar_lower c Hc), IH.
Qed.



Lemma span_digits_all (s : string) : all_digits s = true -> span_digits s = (s, EmptyString).
Proof.
  induction s as [|c s IH]; [reflexivity|]. simpl. intros H.
  apply andb_prop in H as [Hc Hs]. now rewrite Hc, IH.
Qed.

Lemma span_digits_app (s : string) (c : ascii) (r : string) :
  all_digits s = true -> is_digit c = false ->
  span_digits (s ++ String c r) = (s, String c r).
Proof.
  intros Hs Hc. induction s as [|a s IH].
  - simpl. now rewrite Hc.
  - simpl in Hs. apply andb_prop in Hs as [Ha Hs]. rewrite append_cons. simpl.
    now rewrite Ha, IH.
Qed.





(** A string of [k] digits spells a number below [10^k]. *)
Lemma digits_value_lt (s : string) :
  all_digits s = true ->
  forall a, (digits_value a s < (a + 1) * pow10 (String.length s))%N.
Proof.
  induction s as [|c s IH]; intros H a.
  - simpl. lia.
  - simpl in H. apply andb_prop in H as [Hc Hs]. simpl digits_value.
    specialize (IH Hs (10 * a + digit_val c)%N).
    pose proof (is_digit_val_lt c Hc). simpl String.length. simpl pow10.
    pose proof (pow10_pos (String.length s)). nia.
Qed.




End DecFacts.

(** ** Plain notation: [format(d, "f")] and reading it back *)

Module PlainFacts.
Import PyStr PyDecimal StrFacts DigitFacts DecFacts.
Export PlainDefs.


Lemma append_nil_l (s : string) : ("" ++ s)%string = s.
Proof. reflexivity. Qed.



Lemma digits_cons (c : N) :
  exists a r, digits c = String a r /\ is_digit a = true /\ all_digits r = true.
Proof.
  pose proof (digits_all_digits c) as H. destruct (digits_length c) as (_ & Hl & _).
  destruct (digits c) as [|a r]; [simpl in Hl; lia|].
  simpl in H. apply andb_prop in H as [Ha Hr]. eauto.
Qed.


(** Reading plain notation: [Decimal(text)] is the number that the digits
    spell, with the length of the fraction as the exponent. *)
Lemma of_string_plain (neg : bool) (a : ascii) (ip' fp : string) :
  is_digit a = true -> all_digits ip' = true -> all_digits fp = true ->
  (Z.of_nat (String.length (String a ip' ++ fp)) <= 999999999999999999)%Z ->
  of_string (plain_text neg (String a ip') fp) =
  Some (Fin neg (digits_value 0 (String a ip' ++ fp)) (0 - Z.of_nat (String.length fp))).
Proof.
  intros Ha Hip Hfp Hlen.
  set (tail := if is_empty fp then EmptyString else ("." ++ fp)%string).
  assert (Htail : all_num tail = true).
  { pose proof (all_digits_all_num _ Hfp) as H.
    subst tail. destruct fp; [reflexivity | exact H]. }
  assert (Hbody : all_num (String a ip' ++ tail) = true).
  { rewrite all_num_app, Htail. simpl. rewrite (is_digit_numchar a Ha).
    now rewrite (all_digits_all_num ip' Hip). }
  assert (Hs : all_num (plain_text neg (String a ip') fp) = true).
  { unfold plain_text. fold tail. rewrite all_num_app, Hbody. now destruct neg. }
  unfold of_string.
  rewrite (strip_all_plain _ (all_num_all_plain _ Hs)).
  rewrite (all_num_remove_underscore _ Hs), (all_num_lower _ Hs).
  unfold plain_text. fold tail.
  assert (Hsplit : split_sign (sign_str neg ++ String a ip' ++ tail)
                   = (neg, (String a ip' ++ tail)%string)).
  { destruct neg; [reflexivity|]. simpl sign_str. simpl append.
    rewrite append_cons. now apply split_sign_digit. }
  rewrite Hsplit. rewrite append_cons, (parse_body_digit neg a _ Ha), <- append_cons.
  unfold parse_finite.
  assert (Hspan : span_digits (String a ip' ++ tail) = (String a ip', tail)).
  { subst tail. destruct fp as [|f fp'].
    - simpl is_empty. cbv iota. rewrite append_nil_r. apply span_digits_all.
      simpl. now rewrite Ha, Hip.
    - simpl is_empty. cbv iota. apply span_digits_app; [simpl; now rewrite Ha, Hip | reflexivity]. }
  rewrite Hspan.
  assert (Hfrac : (match tail with
                   | String "." r => span_digits r
                   | _ => (EmptyString, tail)
                   end) = (fp, EmptyString)).
  { subst tail. destruct fp as [|f fp']; [reflexivity|]. simpl is_empty. cbv iota.
    rewrite append_cons. simpl append. now apply span_digits_all. }
  rewrite Hfrac.
  set (c := digits_value 0 (String a ip' ++ fp)).
  change (is_empty (String a ip') && is_empty fp) with false.
  change (parse_exponent "") with (Some 0%Z). cbv beta iota.
  assert (Hc : (Z.of_N (ndigits c) <= 999999999999999999)%Z).
  { assert (Hall : all_digits (String a ip' ++ fp) = true)
      by (rewrite all_digits_app, Hfp; simpl; now rewrite Ha, Hip).
    pose proof (digits_value_lt _ Hall 0%N) as Hlt. fold c in Hlt.
    rewrite N.add_0_l, N.mul_1_l in Hlt.
    assert (H1 : (1 <= String.length (String a ip' ++ fp))%nat)
      by (rewrite append_cons; simpl; lia).
    pose proof (digits_length_le c _ H1 Hlt). unfold ndigits. lia. }
  assert (Hfl : (Z.of_nat (String.length fp) <= 999999999999999999)%Z).
  { rewrite length_append in Hlen. lia. }
  unfold MIN_ETINY, MAX_EMAX.
  destruct (Z.leb_spec (-1999999999999999997) (0 - Z.of_nat (String.length fp))) as [_|H];
    [|lia].
  change (true && ?b) with b. destruct (c =? 0)%N.
  - destruct (Z.leb_spec (0 - Z.of_nat (String.length fp)) 999999999999999999) as [_|H];
      [reflexivity | lia].
  - destruct (Z.leb_spec (0 - Z.of_nat (String.length fp) + Z.of_N (ndigits c) - 1)
                999999999999999999) as [_|H]; [reflexivity | lia].
Qed.

End PlainFacts.

(** ** C2: [compute_amount] *)

Module AmountFacts.
Import PyStr Py PyDecimal Storage StrFacts DigitFacts DecFacts PlainFacts.
Export AmountDefs.












End AmountFacts.

(** ** C4: [summarize_table] *)

Module SummaryFacts.
Import PyStr Py PyDecimal Storage AssocFacts StrFacts DateFacts NormFacts DigitFacts DecFacts.
Export SummaryDefs.

Lemma fitsb_fits (s : bool) (c : N) (e : Z) : fitsb (Fin s c e) = true -> fits c e.
Proof.
  simpl. intros H. apply andb_prop in H as [H H3]. apply andb_prop in H as [H1 H2].
  apply N.ltb_lt in H1. apply Z.leb_le in H2. apply Z.leb_le in H3. split; [assumption | lia].
Qed.

(** An addition whose exact result fits returns it. *)
Lemma add_exact (a b t : decimal) :
  exact_plus a b = Some t -> fitsb t = true -> add a b = Ok t.
Proof.
  destruct a as [sa ca ea| |], b as [sb cb eb| |]; try discriminate.
  unfold exact_plus. cbv zeta. intros [= <-] Hfit. apply fitsb_fits in Hfit.
  unfold add. change (check_nans (Fin sa ca ea) (Fin sb cb eb)) with (@None (result decimal)).
  cbv iota zeta.
  destruct (_ =? 0)%Z eqn:Ez.
  - apply Z.eqb_eq in Ez. rewrite Ez in *. change (Z.abs_N 0) with 0%N in Hfit.
    now apply fix_finite_exact.
  - now apply fix_finite_exact.
Qed.

Lemma sum_amounts_exact (rows : list value) :
  forall total t, exact_total total rows = Some t -> sum_amounts total rows = Ok t.
Proof.
  induction rows as [|r rows IH]; intros total t H; simpl in *.
  - now injection H as <-.
  - destruct r as [| | | | | |d]; try (now apply IH).
    destruct (to_decimal (get d "amount")) as [a|]; [|now apply IH].
    destruct (exact_plus total a) as [s|] eqn:Es; [|discriminate].
    destruct (fitsb s) eqn:Ef; [|discriminate].
    rewrite (add_exact total a s Es Ef). simpl. now apply IH.
Qed.

Lemma normalize_rows_out (cfg : dict) (sd : PyDate.date) (rows : list value) :
  forall i w out w',
    normalize_rows cfg sd i rows w = (Ok out, w') -> Forall dated_row out.
Proof.
  induction rows as [|rr rows IH]; intros i w out w' Hrun.
  - injection Hrun as <- <-. constructor.
  - destruct (is_dict rr) eqn:Hd.
    + destruct rr as [| | | | | |r]; try discriminate Hd.
      rewrite normalize_rows_dict in Hrun.
      destruct (row_out cfg sd i (next_row_id w) r) as [r'|e] eqn:Hrow; [|discriminate].
      destruct (normalize_rows cfg sd (S i) rows (draw w)) as [[out0|e] w0] eqn:Hrest;
        [|discriminate].
      injection Hrun as <- <-. constructor; [|now apply (IH _ _ _ _ Hrest)].
      apply row_out_dated in Hrow as (di & _ & Hl). now exists r', di.
    + rewrite normalize_rows_skip in Hrun by assumption. now apply (IH _ _ _ _ Hrun).
Qed.

Lemma Forall_last_elem {A} (P : A -> Prop) (l : list A) (x : A) :
  Forall P l -> last l = Some x -> P x.
Proof.
  induction 1 as [|y l Hy Hl IH]; [discriminate|].
  destruct l as [|z l']; simpl.
  - now intros [= <-].
  - exact IH.
Qed.

(** C4, as amended.  [summarize_table] normalizes first and raises what
    the normalization raises.  On the normalized table it adds the
    amounts that parse to a total that starts at 0, with the additions of
    the Decimal context, and raises what an addition raises; the total is
    the exact sum when no partial sum needs more than 28 digits.  The
    table it returns is the normalized one renamed to the start date, a
    hyphen and the load date of the last row, which is the empty string
    when there is no row. *)
Theorem summarize_table_total (cfg table : dict) (w : world) :
  (forall e w1, normalize_table cfg table w = (Raise e, w1) ->
                summarize_table cfg table w = (Raise e, w1))
  /\ (forall t w1,
        normalize_table cfg table w = (Ok t, w1) ->
        exists rows sd,
          get t "rows" = VList rows
          /\ get t "startDate" = VStr (PyDate.isoformat sd)
          /\ summarize_table cfg table w =
             (match sum_amounts (Fin false 0 0) rows with
              | Ok total =>
                  Ok (Assoc.set t "name" (VStr (PyDate.isoformat sd ++ "-" ++ end_of rows)), total)
              | Raise e => Raise e
              end, w1)
          /\ (forall total, exact_total (Fin false 0 0) rows = Some total ->
                            sum_amounts (Fin false 0 0) rows = Ok total)
          /\ (forall r, last rows = Some r ->
                exists rd dl, r = VDict rd
                              /\ get rd "loadDate" = VStr (PyDate.isoformat dl)
                              /\ end_of rows = PyDate.isoformat dl)
          /\ (rows = [] -> end_of rows = "")).
Proof.
  split.
  - intros e w1 H. unfold summarize_table, bind. now rewrite H.
  - intros t w1 Hnorm.
    pose proof Hnorm as Hsteps. rewrite normalize_table_steps in Hsteps.
    apply bind_ok in Hsteps as (sd & wa & _ & Hsteps).
    apply bind_ok in Hsteps as (out & wb & Hrows & Hret).
    injection Hret as <- <-.
    pose proof (normalize_rows_out _ _ _ _ _ _ _ Hrows) as Hout.
    exists out, sd.
    assert (Hgr : get (finish table sd out) "rows" = VList out)
      by (unfold get; now rewrite lookup_finish_rows).
    assert (Hgs : get (finish table sd out) "startDate" = VStr (PyDate.isoformat sd))
      by (unfold get; now rewrite lookup_finish_start).
    assert (Hlast : forall r, last out = Some r ->
              exists rd dl, r = VDict rd
                            /\ get rd "loadDate" = VStr (PyDate.isoformat dl)
                            /\ end_of out = PyDate.isoformat dl).
    { intros r Hr. destruct (Forall_last_elem _ _ _ Hout Hr) as (rd & dl & -> & Hl).
      exists rd, dl. split; [reflexivity|]. split; [exact Hl|].
      unfold end_of. rewrite Hr, Hl. unfold or_empty. simpl. apply strip_isoformat. }
    split; [exact Hgr|]. split; [exact Hgs|]. split; [|split; [|split]].
    + unfold summarize_table. unfold bind at 1. rewrite Hnorm.
      replace (get_default (finish table sd out) "rows" (VList [])) with (VList out)
        by (unfold get_default; now rewrite lookup_finish_rows).
      unfold bind at 1, lift.
      destruct (sum_amounts (Fin false 0 0) out) as [total|e]; [|reflexivity].
      rewrite Hgs.
      replace (strip (str (or_empty (VStr (PyDate.isoformat sd))))) with (PyDate.isoformat sd)
        by (unfold or_empty; simpl; now rewrite strip_isoformat).
      rewrite isoformat_not_empty. simpl negb. cbv iota. unfold bind, ret.
      fold (end_of out).
      destruct (last out) as [r|] eqn:El.
      * destruct (Hlast r eq_refl) as (rd & dl & _ & _ & ->).
        now rewrite isoformat_not_empty.
      * unfold end_of. rewrite El. simpl. now rewrite DigitFacts.append_nil_r.
    + apply sum_amounts_exact.
    + exact Hlast.
    + intros ->. reflexivity.
Qed.

Lemma summarize_table_total_witness :
  exists t w1,
    normalize_table cfg0 small_table world0 = (Ok t, w1)
    /\ exists rows sd,
         get t "rows" = VList rows
         /\ get t "startDate" = VStr (PyDate.isoformat sd)
         /\ summarize_table cfg0 small_table world0 =
            (match sum_amounts (Fin false 0 0) rows with
             | Ok total =>
                 Ok (Assoc.set t "name" (VStr (PyDate.isoformat sd ++ "-" ++ end_of rows)), total)
             | Raise e => Raise e
             end, w1)
         /\ (forall total, exact_total (Fin false 0 0) rows = Some total ->
                           sum_amounts (Fin false 0 0) rows = Ok total)
         /\ (forall r, last rows = Some r ->
               exists rd dl, r = VDict rd
                             /\ get rd "loadDate" = VStr (PyDate.isoformat dl)
                             /\ end_of rows = PyDate.isoformat dl)
         /\ (rows = [] -> end_of rows = "").
Proof.
  destruct (normalize_table cfg0 small_table world0) as [[t|e] w1] eqn:E;
    [|vm_compute in E; discriminate E].
  exists t, w1. split; [reflexivity|].
  exact (proj2 (summarize_table_total cfg0 small_table world0) t w1 E).
Defined.

(** The scenario of the specification: the total is 250 and the name
    ends with the date of the second row. *)
Lemma summarize_small_table :
  exists t w1,
    summarize_table cfg0 small_table world0 = (Ok (t, Fin false 250 0), w1)
    /\ get t "name" = VStr "2026-02-25-2026-02-26".
Proof. eexists _, _. split; [vm_compute; reflexivity | reflexivity]. Qed.

(** C4, as stated, fails: the amounts 1000000000000000000000000000 and
    0.1 add up to a number of 29 digits, and the total that
    [summarize_table] returns is the first amount. *)
Lemma summarize_table_rounds :
  exists t w1,
    summarize_table cfg0 wide_table world0
    = (Ok (t, Fin false 1000000000000000000000000000 0), w1)
    /\ (exists r1 r2,
          get t "rows" = VList [VDict r1; VDict r2]
          /\ to_decimal (get r1 "amount") = Some (Fin false 1000000000000000000000000000 0)
          /\ to_decimal (get r2 "amount") = Some (Fin false 1 (-1)))
    /\ exact_plus (Fin false 1000000000000000000000000000 0) (Fin false 1 (-1))
       = Some (Fin false 10000000000000000000000000001 (-1))
    /\ ~ same_number (Fin false 1000000000000000000000000000 0)
                     (Fin false 10000000000000000000000000001 (-1)).
Proof.
  eexists _, _. split; [vm_compute; reflexivity|].
  split; [eexists _, _; split; [reflexivity|]; split; vm_compute; reflexivity|].
  split; [vm_compute; reflexivity|].
  intros [_ H]. vm_compute in H. discriminate H.
Qed.

End SummaryFacts.

(** ** C10: what [normalize_table] leaves alone *)

Module FrameFacts.
Import PyStr Ref Storage RefStorage AssocFacts StrFacts.
Export FrameDefs.

Lemma bind_inv {A B} (m : M A) (k : A -> M B) (w w' : world) (res : result B) :
  bind m k w = (res, w') ->
  (exists a w1, m w = (Ok a, w1) /\ k a w1 = (res, w'))
  \/ (exists e, m w = (Raise e, w') /\ res = Raise e).
Proof.
  unfold bind. destruct (m w) as [[a|e] w1]; [eauto|].
  intros [= <- <-]. eauto.
Qed.

Lemma extends_refl (h : heap) : extends h h.
Proof. intros a o H. exact H. Qed.

Lemma extends_trans (h1 h2 h3 : heap) : extends h1 h2 -> extends h2 h3 -> extends h1 h3.
Proof. intros H1 H2 a o H. apply H2, H1, H. Qed.

Lemma extends_app (h ext : heap) : extends h (h ++ ext)%list.
Proof. intros a o H. now apply lookup_app_l_Some. Qed.

Lemma extends_length (h h' : heap) : extends h h' -> length h <= length h'.
Proof.
  intros H. destruct (decide (length h = 0)) as [->|Hn]; [lia|].
  destruct (lookup_lt_is_Some_2 h (length h - 1)) as [o Ho]; [lia|].
  apply H in Ho. apply lookup_lt_Some in Ho. lia.
Qed.

Lemma lookup_end (h : heap) (o : object) : (h ++ [o])%list !! length h = Some o.
Proof. now rewrite list_lookup_middle. Qed.

Lemma insert_end (h : heap) (o o' : object) :
  <[length h := o']> (h ++ [o])%list = (h ++ [o'])%list.
Proof.
  rewrite insert_app_r_alt by lia. now rewrite Nat.sub_diag.
Qed.

Lemma bracket_not_blank (c : ascii) (s : string) :
  plain c = true -> is_empty (strip (String c s)) = false.
Proof. apply strip_plain_nonempty. Qed.

(** Blankness of a value is decided by the objects it refers to. *)
Lemma blank_agree (h h' : heap) (v : hvalue) :
  in_heap h v -> extends h h' -> blank h' v = blank h v.
Proof.
  intros Hin Hext. destruct v as [|b|z|r|s|a]; unfold blank, or_empty, truthy.
  - reflexivity.
  - destruct b; reflexivity.
  - destruct (negb (z =? 0)%Z); reflexivity.
  - destruct (negb _); reflexivity.
  - destruct (negb (is_empty s)); reflexivity.
  - simpl in Hin. destruct (lookup_lt_is_Some_2 h a Hin) as [o Ho].
    rewrite Ho, (Hext _ _ Ho).
    destruct o as [[|x xs]|[|x xs]]; try reflexivity;
      unfold str; simpl repr; rewrite Ho, (Hext _ _ Ho);
      rewrite !DigitFacts.append_cons, !bracket_not_blank by reflexivity; reflexivity.
Qed.

Lemma in_heap_extends (h h' : heap) (v : hvalue) :
  in_heap h v -> extends h h' -> in_heap h' v.
Proof.
  destruct v; simpl; auto. intros H He. apply extends_length in He. lia.
Qed.

Lemma kept_base (h h' : heap) (k : string) (r r' : list (string * hvalue)) :
  extends h h' -> kept h' k r r' -> kept h k r r'.
Proof.
  intros He Hk v Hv Hin Hb. apply (Hk v Hv).
  - now apply (in_heap_extends h).
  - now rewrite (blank_agree h h').
Qed.

Lemma row_frame_base (h h' : heap) (r r' : list (string * hvalue)) :
  extends h h' -> row_frame h' r r' -> row_frame h r r'.
Proof.
  intros He (H1 & H2 & H3 & H4). repeat split; try assumption; now apply (kept_base h h').
Qed.

(** *** The primitives *)

Lemma read_dict_run (l : nat) (items : list (string * hvalue)) (w : world) :
  mem w !! l = Some (ODict items) -> read_dict l w = (Ok items, w).
Proof. intros H. unfold read_dict, bind, get_heap. now rewrite H. Qed.

Lemma read_list_run (l : nat) (items : list hvalue) (w : world) :
  mem w !! l = Some (OList items) -> read_list l w = (Ok items, w).
Proof. intros H. unfold read_list, bind, get_heap. now rewrite H. Qed.

Lemma read_dict_world (l : nat) (w w' : world) res :
  read_dict l w = (res, w') -> w' = w.
Proof.
  unfold read_dict, bind, get_heap.
  destruct (mem w !! l) as [[?|?]|]; now intros [= _ <-].
Qed.

Lemma dict_get_run (l : nat) (k : string) (items : list (string * hvalue)) (w : world) :
  mem w !! l = Some (ODict items) ->
  dict_get l k w = (Ok (match Assoc.lookup items k with Some v => v | None => HNone end), w).
Proof. intros H. unfold dict_get, bind. now rewrite (read_dict_run l items w H). Qed.

Lemma dict_get_world (l : nat) (k : string) (w w' : world) res :
  dict_get l k w = (res, w') -> w' = w.
Proof.
  unfold dict_get, bind. destruct (read_dict l w) as [[items|e] w1] eqn:E;
    apply read_dict_world in E; subst w1; now intros [= _ <-].
Qed.

Lemma alloc_run (o : object) (w : world) :
  exists w', alloc o w = (Ok (length (mem w)), w') /\ mem w' = (mem w ++ [o])%list.
Proof. eexists. split; reflexivity. Qed.

Lemma dict_copy_run (l : nat) (items : list (string * hvalue)) (w : world) :
  mem w !! l = Some (ODict items) ->
  exists w', dict_copy l w = (Ok (length (mem w)), w')
             /\ mem w' = (mem w ++ [ODict items])%list.
Proof.
  intros H. unfold dict_copy, bind. rewrite (read_dict_run l items w H).
  eexists. split; reflexivity.
Qed.

Lemma dict_set_run (l : nat) (k : string) (v : hvalue) (items : list (string * hvalue))
    (w : world) :
  mem w !! l = Some (ODict items) ->
  exists w', dict_set l k v w = (Ok tt, w')
             /\ mem w' = <[l := ODict (Assoc.set items k v)]> (mem w).
Proof.
  intros H. unfold dict_set, bind. rewrite (read_dict_run l items w H).
  eexists. split; reflexivity.
Qed.

Lemma dict_setdefault_run (l : nat) (k : string) (v : hvalue) (items : list (string * hvalue))
    (w : world) :
  mem w !! l = Some (ODict items) ->
  exists w', dict_setdefault l k v w = (Ok tt, w')
             /\ mem w' = <[l := ODict (Assoc.setdefault items k v)]> (mem w).
Proof.
  intros H. unfold dict_setdefault, bind. rewrite (read_dict_run l items w H).
  eexists. split; reflexivity.
Qed.

Lemma list_append_run (l : nat) (v : hvalue) (items : list hvalue) (w : world) :
  mem w !! l = Some (OList items) ->
  exists w', list_append l v w = (Ok tt, w')
             /\ mem w' = <[l := OList (items ++ [v])%list]> (mem w).
Proof.
  intros H. unfold list_append, bind. rewrite (read_list_run l items w H).
  eexists. split; reflexivity.
Qed.

Lemma new_id_mem (prefix : string) (w : world) :
  exists id w', _new_id prefix w = (Ok id, w') /\ mem w' = mem w.
Proof. eexists _, _. split; reflexivity. Qed.

Lemma today_iso_mem (w : world) :
  exists s w', today_iso w = (Ok s, w') /\ mem w' = mem w.
Proof. eexists _, _. split; reflexivity. Qed.

Lemma date_today_mem (w : world) :
  exists d w', date_today w = (Ok d, w') /\ mem w' = mem w.
Proof. eexists _, _. split; reflexivity. Qed.

Lemma compute_amount_world (row : nat) (w w' : world) res :
  compute_amount row w = (res, w') -> w' = w.
Proof.
  unfold compute_amount. intros H.
  apply bind_inv in H as [(f & w1 & Hf & H)|(e & Hf & _)];
    apply dict_get_world in Hf; [subst w1|assumption].
  apply bind_inv in H as [(s & w1 & Hs & H)|(e & Hs & _)];
    apply dict_get_world in Hs; [subst w1|assumption].
  destruct (to_decimal f), (to_decimal s); now injection H.
Qed.

Lemma stripped_str_run (v : hvalue) (w : world) :
  stripped_str v w = (Ok (strip (str (mem w) (or_empty (mem w) v))), w).
Proof. reflexivity. Qed.

Lemma str_or_empty_run (v : hvalue) (w : world) :
  str_or_empty v w = (Ok (str (mem w) (or_empty (mem w) v)), w).
Proof. reflexivity. Qed.

(** *** [ensure_row_defaults] *)

(** One of the two [if not ...: r[k] = str(cfg.get(dk) or "")] on the
    copy [n], the last object of the heap. *)
Lemma default_if_run (cfg n : nat) (k dk s : string) (h : heap)
    (ra : list (string * hvalue)) (w w' : world) (res : result unit) :
  mem w = (h ++ [ODict ra])%list -> n = length h ->
  (if is_empty s
   then dv <- dict_get cfg dk ;; ds <- str_or_empty dv ;; dict_set n k (HStr ds)
   else ret tt) w = (res, w') ->
  match res with
  | Ok _ => exists ra', mem w' = (h ++ [ODict ra'])%list
                        /\ (forall k', k <> k' -> Assoc.lookup ra' k' = Assoc.lookup ra k')
                        /\ (is_empty s = false -> ra' = ra)
  | Raise _ => mem w' = mem w
  end.
Proof.
  intros Hm -> H. destruct (is_empty s).
  - apply bind_inv in H as [(dv & w1 & E & H)|(e & E & ->)];
      apply dict_get_world in E; [subst w1|now subst].
    unfold bind at 1 in H. rewrite str_or_empty_run in H.
    destruct (dict_set_run (length h) k (HStr (str (mem w) (or_empty (mem w) dv))) ra w)
      as (w2 & E2 & Hm2); [rewrite Hm; apply lookup_end|].
    rewrite E2 in H. injection H as <- <-.
    eexists. split; [rewrite Hm2, Hm; apply insert_end|].
    split; [intros k' Hk; now apply lookup_set_ne | discriminate].
  - injection H as <- <-. exists ra. auto.
Qed.

Lemma ensure_row_defaults_run (cfg row : nat) (ra : list (string * hvalue)) (w w' : world)
    (res : result nat) :
  mem w !! row = Some (ODict ra) ->
  ensure_row_defaults cfg row w = (res, w') ->
  match res with
  | Ok r2 =>
      r2 = length (mem w)
      /\ exists rb, mem w' = (mem w ++ [ODict rb])%list
                    /\ (forall k, k <> "vehicle" -> k <> "model" ->
                                  Assoc.lookup rb k = Assoc.lookup ra k)
                    /\ kept (mem w) "vehicle" ra rb
                    /\ kept (mem w) "model" ra rb
  | Raise _ => exists ext, mem w' = (mem w ++ ext)%list
  end.
Proof.
  intros Hrow H. unfold ensure_row_defaults in H.
  destruct (dict_copy_run row ra w Hrow) as (w1 & E1 & Hm1).
  unfold bind at 1 in H. rewrite E1 in H.
  assert (Hn : mem w1 !! length (mem w) = Some (ODict ra)) by (rewrite Hm1; apply lookup_end).
  unfold bind at 1 in H. rewrite (dict_get_run _ "vehicle" ra w1 Hn) in H.
  unfold bind at 1 in H. rewrite stripped_str_run in H.
  apply bind_inv in H as [([] & w2 & E2 & H)|(e & E2 & ->)];
    apply (default_if_run _ _ _ _ _ (mem w) ra) in E2; try assumption; try reflexivity;
    [|exists [ODict ra]; now rewrite E2].
  destruct E2 as (ra1 & Hm2 & Hother1 & Hsame1).
  assert (Hn2 : mem w2 !! length (mem w) = Some (ODict ra1)) by (rewrite Hm2; apply lookup_end).
  unfold bind at 1 in H. rewrite (dict_get_run _ "model" ra1 w2 Hn2) in H.
  unfold bind at 1 in H. rewrite stripped_str_run in H.
  apply bind_inv in H as [([] & w3 & E3 & H)|(e & E3 & ->)];
    apply (default_if_run _ _ _ _ _ (mem w) ra1) in E3; try assumption; try reflexivity;
    [|exists [ODict ra1]; now rewrite E3].
  destruct E3 as (ra2 & Hm3 & Hother2 & Hsame2).
  injection H as <- <-. split; [reflexivity|]. exists ra2. split; [exact Hm3|].
  assert (He1 : extends (mem w) (mem w1)) by (rewrite Hm1; apply extends_app).
  assert (He2 : extends (mem w) (mem w2)) by (rewrite Hm2; apply extends_app).
  split; [|split].
  - intros k Hv Hmo. rewrite Hother2, Hother1; auto.
  - intros v Hv Hin Hb. rewrite Hother2 by discriminate.
    rewrite Hsame1; [exact Hv|]. rewrite Hv.
    change (blank (mem w1) v = false). now rewrite (blank_agree (mem w) (mem w1)).
  - intros v Hv Hin Hb.
    assert (Hv1 : Assoc.lookup ra1 "model" = Some v) by (rewrite Hother1; [exact Hv|discriminate]).
    rewrite Hsame2; [exact Hv1|]. rewrite Hv1.
    change (blank (mem w2) v = false). now rewrite (blank_agree (mem w) (mem w2)).
Qed.

(** *** The loop of [normalize_table] *)

Lemma lookup_end2 (h : heap) (o1 o2 : object) :
  (h ++ [o1; o2])%list !! S (length h) = Some o2.
Proof.
  change (h ++ [o1; o2])%list with (h ++ [o1] ++ [o2])%list. rewrite app_assoc.
  replace (S (length h)) with (length (h ++ [o1])%list) by (rewrite length_app; simpl; lia).
  apply lookup_end.
Qed.

Lemma insert_end2 (h : heap) (o1 o2 o' : object) :
  <[S (length h) := o']> (h ++ [o1; o2])%list = (h ++ [o1; o'])%list.
Proof.
  change (h ++ [o1; o2])%list with (h ++ [o1] ++ [o2])%list.
  change (h ++ [o1; o'])%list with (h ++ [o1] ++ [o'])%list. rewrite !app_assoc.
  replace (S (length h)) with (length (h ++ [o1])%list) by (rewrite length_app; simpl; lia).
  apply insert_end.
Qed.

Lemma normalize_row_run (cfg : nat) (sd : PyDate.date) (out i l : nat)
    (r : list (string * hvalue)) (outs : list hvalue) (w w' : world) (res : result unit) :
  mem w !! l = Some (ODict r) ->
  mem w !! out = Some (OList outs) ->
  normalize_row cfg sd out i (HRef l) w = (res, w') ->
  match res with
  | Ok _ =>
      exists ra rd,
        mem w' = <[out := OList (outs ++ [HRef (S (length (mem w)))])%list]>
                   (mem w ++ [ODict ra; ODict rd])%list
        /\ row_frame (mem w) r rd
  | Raise _ => exists ext, mem w' = (mem w ++ ext)%list
  end.
Proof.
  intros Hl Hout H. unfold normalize_row in H.
  unfold bind at 1, get_heap at 1 in H. unfold is_dict in H. rewrite Hl in H.
  destruct (dict_copy_run l r w Hl) as (w1 & E1 & Hm1).
  unfold bind at 1 in H. rewrite E1 in H.
  destruct (new_id_mem "row" w1) as (id & w2 & E2 & Hm2).
  unfold bind at 1 in H. rewrite E2 in H.
  destruct (dict_setdefault_run (length (mem w)) "id" (HStr id) r w2) as (w3 & E3 & Hm3);
    [rewrite Hm2, Hm1; apply lookup_end|].
  unfold bind at 1 in H. rewrite E3 in H.
  rewrite Hm2, Hm1, insert_end in Hm3.
  set (ra := Assoc.setdefault r "id" (HStr id)) in *.
  assert (He3 : extends (mem w) (mem w3)) by (rewrite Hm3; apply extends_app).
  apply bind_inv in H as [(r2 & w4 & E4 & H)|(e & E4 & ->)];
    apply (ensure_row_defaults_run _ _ ra) in E4; try (rewrite Hm3; apply lookup_end).
  2: { destruct E4 as (ext & E4). exists ([ODict ra] ++ ext)%list.
       now rewrite E4, Hm3, <- app_assoc. }
  destruct E4 as (-> & rb & Hm4 & Hother & Hveh & Hmod).
  rewrite Hm3, <- app_assoc in Hm4. simpl app in Hm4.
  replace (length (mem w3)) with (S (length (mem w))) in H
    by (rewrite Hm3, length_app; simpl; lia).
  unfold date_plus in H.
  destruct (PyDate.add_days sd i) as [d|].
  2: { injection H as <- <-. eexists. exact Hm4. }
  unfold bind at 1, ret at 1 in H.
  destruct (dict_set_run (S (length (mem w))) "loadDate" (HStr (PyDate.isoformat d)) rb w4)
    as (w5 & E5 & Hm5); [rewrite Hm4; apply lookup_end2|].
  unfold bind at 1 in H. rewrite E5 in H. rewrite Hm4, insert_end2 in Hm5.
  set (rc := Assoc.set rb "loadDate" (HStr (PyDate.isoformat d))) in *.
  apply bind_inv in H as [(a & w6 & E6 & H)|(e & E6 & ->)];
    apply compute_amount_world in E6; [subst w6 | subst w'; eexists; exact Hm5].
  destruct (dict_set_run (S (length (mem w))) "amount" (HStr a) rc w5)
    as (w7 & E7 & Hm7); [rewrite Hm5; apply lookup_end2|].
  unfold bind at 1 in H. rewrite E7 in H. rewrite Hm5, insert_end2 in Hm7.
  set (rd := Assoc.set rc "amount" (HStr a)) in *.
  destruct (list_append_run out (HRef (S (length (mem w)))) outs w7) as (w8 & E8 & Hm8);
    [rewrite Hm7; now apply lookup_app_l_Some|].
  rewrite E8 in H. injection H as <- <-.
  exists ra, rd. split; [now rewrite Hm8, Hm7|].
  assert (Hd : forall k, k <> "amount" -> k <> "loadDate" ->
                         Assoc.lookup rd k = Assoc.lookup rb k).
  { intros k H1 H2. unfold rd, rc. rewrite !lookup_set_ne; auto. }
  split; [|split; [|split]].
  - intros k H1 H2 H3 H4 H5. rewrite Hd, Hother by assumption.
    unfold ra. rewrite lookup_setdefault.
    destruct (Assoc.lookup r k); [reflexivity|].
    destruct (String.eqb "id" k) eqn:E; [apply String.eqb_eq in E; congruence|reflexivity].
  - intros v Hv. rewrite Hd, Hother by discriminate.
    unfold ra. now rewrite lookup_setdefault, Hv.
  - intros v Hv Hin Hb. rewrite Hd by discriminate.
    apply (kept_base (mem w) (mem w3) _ ra rb He3 Hveh v); try assumption.
    unfold ra. now rewrite lookup_setdefault, Hv.
  - intros v Hv Hin Hb. rewrite Hd by discriminate.
    apply (kept_base (mem w) (mem w3) _ ra rb He3 Hmod v); try assumption.
    unfold ra. now rewrite lookup_setdefault, Hv.
Qed.

Lemma normalize_rows_run (cfg : nat) (sd : PyDate.date) (lr out : nat) (h0 : heap)
    (items : list hvalue) :
  h0 !! lr = Some (OList items) ->
  dict_rows h0 items ->
  h0 !! out = None ->
  forall fuel i outs w res w',
    extends h0 (mem w) ->
    mem w !! out = Some (OList outs) ->
    i + fuel = length items ->
    normalize_rows fuel cfg sd lr out i w = (res, w') ->
    (forall a o, mem w !! a = Some o -> a <> out -> mem w' !! a = Some o)
    /\ match res with
       | Ok _ =>
           exists news,
             mem w' !! out = Some (OList (outs ++ news)%list)
             /\ length news = fuel
             /\ forall j l r,
                  items !! (i + j) = Some (HRef l) -> h0 !! l = Some (ODict r) ->
                  exists l' r', news !! j = Some (HRef l')
                                /\ length (mem w) <= l'
                                /\ mem w' !! l' = Some (ODict r')
                                /\ row_frame h0 r r'
       | Raise _ => True
       end.
Proof.
  intros Hlr Hrows Hnone. induction fuel as [|f IH]; intros i outs w res w' Hext Hout Hlen H.
  - injection H as <- <-. split; [auto|]. exists []. rewrite app_nil_r.
    split; [exact Hout|]. split; [reflexivity|].
    intros j l r Hj. apply lookup_lt_Some in Hj. lia.
  - simpl normalize_rows in H. unfold bind at 1 in H.
    rewrite (read_list_run lr items w (Hext _ _ Hlr)) in H.
    destruct (items !! i) as [rr|] eqn:Ei; [|apply lookup_ge_None in Ei; lia].
    destruct (Forall_lookup_1 _ _ _ _ Hrows Ei) as (l & r & -> & Hl).
    pose proof (lookup_lt_Some _ _ _ Hout) as Hlt.
    apply bind_inv in H as [([] & w1 & E1 & H)|(e & E1 & ->)];
      apply (normalize_row_run _ _ _ _ l r outs) in E1; auto.
    + destruct E1 as (ra & rd & Hm1 & Hframe).
      assert (Hstep : forall a o, mem w !! a = Some o -> a <> out -> mem w1 !! a = Some o).
      { intros a o Ha Hne. rewrite Hm1, list_lookup_insert_ne by auto.
        now apply lookup_app_l_Some. }
      assert (Hout1 : mem w1 !! out = Some (OList (outs ++ [HRef (S (length (mem w)))])%list)).
      { rewrite Hm1. apply list_lookup_insert_eq. rewrite length_app. lia. }
      assert (Hrd : mem w1 !! S (length (mem w)) = Some (ODict rd)).
      { rewrite Hm1, list_lookup_insert_ne by lia. apply lookup_end2. }
      assert (Hlen1 : length (mem w) <= length (mem w1)).
      { rewrite Hm1, length_insert, length_app. lia. }
      assert (Hext1 : extends h0 (mem w1)).
      { intros a o Ha. apply Hstep; [apply Hext, Ha|]. intros ->. congruence. }
      destruct (IH (S i) _ w1 res w' Hext1 Hout1 ltac:(lia) H) as (Hk & Hok).
      split; [intros a o Ha Hne; apply Hk; auto|].
      destruct res as [[]|e]; [|exact I].
      destruct Hok as (news & Ho & Hn & Hrows').
      exists (HRef (S (length (mem w))) :: news).
      split; [now rewrite Ho, <- app_assoc|]. split; [simpl; lia|].
      intros j l0 r0 Hj Hl0. destruct j as [|j].
      * rewrite Nat.add_0_r, Ei in Hj. injection Hj as <-.
        rewrite Hl in Hl0. injection Hl0 as <-.
        exists (S (length (mem w))), rd. split; [reflexivity|]. split; [lia|].
        split; [apply Hk; [exact Hrd|lia]|].
        now apply (row_frame_base h0 (mem w)).
      * replace (i + S j) with (S i + j) in Hj by lia.
        destruct (Hrows' j l0 r0 Hj Hl0) as (l' & r' & H1 & H2 & H3 & H4).
        exists l', r'. split; [exact H1|]. split; [lia|]. split; assumption.
    + destruct E1 as (ext & Hm1). split; [|exact I].
      intros a o Ha _. rewrite Hm1. now apply lookup_app_l_Some.
Qed.

(** *** [normalize_table] *)

Lemma pick_dict_run (v : hvalue) (w : world) :
  exists ml w',
    match v with
    | HRef l => if is_dict (mem w) v then ret l else alloc (ODict [])
    | _ => alloc (ODict [])
    end w = (Ok ml, w')
    /\ extends (mem w) (mem w').
Proof.
  assert (Ha : exists ml w', alloc (ODict []) w = (Ok ml, w') /\ extends (mem w) (mem w')).
  { destruct (alloc_run (ODict []) w) as (w' & E & Hm). exists (length (mem w)), w'.
    split; [exact E|]. rewrite Hm. apply extends_app. }
  destruct v; try exact Ha.
  destruct (is_dict (mem w) (HRef l)); [|exact Ha].
  exists l, w. split; [reflexivity | apply extends_refl].
Qed.

Lemma start_iso_run (a b : bool) (s1 s2 : string) (w : world) :
  exists s w',
    (if a then ret s1 else if b then ret s2 else today_iso) w = (Ok s, w')
    /\ mem w' = mem w.
Proof.
  destruct a; [exists s1, w; split; reflexivity|].
  destruct b; [exists s2, w; split; reflexivity|].
  apply today_iso_mem.
Qed.

Lemma start_date_run (o : option PyDate.date) (w : world) :
  exists d w',
    match o with Some d => ret d | None => date_today end w = (Ok d, w')
    /\ mem w' = mem w.
Proof.
  destruct o as [d|]; [exists d, w; split; reflexivity | apply date_today_mem].
Qed.

(** The end of [normalize_table], from [t["rows"] = out_rows] on. *)
Lemma finish_run (t ml out : nat) (sd : PyDate.date) (titems : list (string * hvalue))
    (w w' : world) (res : result nat) :
  mem w !! t = Some (ODict titems) ->
  (dict_set t "rows" (HRef out) ;;;
   dict_set t "startDate" (HStr (PyDate.isoformat sd)) ;;;
   mitems <- read_dict ml ;;
   meta' <- alloc (ODict (Assoc.set mitems "startDate" (HStr (PyDate.isoformat sd)))) ;;
   dict_set t "meta" (HRef meta') ;;;
   ret t) w = (res, w') ->
  (forall a o, mem w !! a = Some o -> a <> t -> mem w' !! a = Some o)
  /\ match res with
     | Ok t' =>
         t' = t
         /\ exists ti, mem w' !! t = Some (ODict ti)
                       /\ (forall k, k <> "rows" -> k <> "startDate" -> k <> "meta" ->
                                     Assoc.lookup ti k = Assoc.lookup titems k)
                       /\ Assoc.lookup ti "rows" = Some (HRef out)
     | Raise _ => True
     end.
Proof.
  intros Ht H. pose proof (lookup_lt_Some _ _ _ Ht) as Hlt.
  destruct (dict_set_run t "rows" (HRef out) titems w Ht) as (w1 & E1 & Hm1).
  unfold bind at 1 in H. rewrite E1 in H.
  set (ti1 := Assoc.set titems "rows" (HRef out)) in *.
  assert (Ht1 : mem w1 !! t = Some (ODict ti1))
    by (rewrite Hm1; now apply list_lookup_insert_eq).
  destruct (dict_set_run t "startDate" (HStr (PyDate.isoformat sd)) ti1 w1 Ht1)
    as (w2 & E2 & Hm2).
  unfold bind at 1 in H. rewrite E2 in H.
  set (ti2 := Assoc.set ti1 "startDate" (HStr (PyDate.isoformat sd))) in *.
  assert (Hk2 : forall a o, mem w !! a = Some o -> a <> t -> mem w2 !! a = Some o).
  { intros a o Ha Hne. rewrite Hm2, Hm1, !list_lookup_insert_ne by auto. exact Ha. }
  assert (Ht2 : mem w2 !! t = Some (ODict ti2)).
  { rewrite Hm2. apply list_lookup_insert_eq. rewrite Hm1, length_insert. exact Hlt. }
  apply bind_inv in H as [(mitems & w3 & E3 & H)|(e & E3 & ->)];
    apply read_dict_world in E3; [subst w3 | subst w'; split; [exact Hk2 | exact I]].
  destruct (alloc_run (ODict (Assoc.set mitems "startDate" (HStr (PyDate.isoformat sd)))) w2)
    as (w4 & E4 & Hm4).
  unfold bind at 1 in H. rewrite E4 in H.
  destruct (dict_set_run t "meta" (HRef (length (mem w2))) ti2 w4) as (w5 & E5 & Hm5);
    [rewrite Hm4; now apply lookup_app_l_Some|].
  unfold bind at 1 in H. rewrite E5 in H. injection H as <- <-.
  split.
  - intros a o Ha Hne. rewrite Hm5, list_lookup_insert_ne, Hm4 by auto.
    apply lookup_app_l_Some. now apply Hk2.
  - split; [reflexivity|]. eexists. split.
    + rewrite Hm5. apply list_lookup_insert_eq. rewrite Hm4, length_app.
      apply lookup_lt_Some in Ht2. lia.
    + split.
      * intros k H1 H2 H3. unfold ti2, ti1. rewrite !lookup_set_ne; auto.
      * unfold ti2, ti1. rewrite !lookup_set_ne by discriminate. apply lookup_set_eq.
Qed.

(** C10.  Let the table be a dictionary whose rows are a list of
    dictionaries.  Whatever the outcome of [normalize_table], every
    object that existed before the call is the same afterwards: the
    table, its row list and its rows are not written to.  When the call
    returns, the result is a new dictionary that agrees with the table on
    every key other than rows, startDate and meta; its rows are a new
    list with one new dictionary for each input row, in the same order;
    and each of them agrees with its input row on every key other than
    id, vehicle, model, loadDate and amount, keeps the id when the row has
    one, and keeps a vehicle and a model that are not blank. *)
Theorem normalize_table_frame (cfg table lr : nat) (titems : list (string * hvalue))
    (items : list hvalue) (w w' : world) (res : result nat) :
  mem w !! table = Some (ODict titems) ->
  Assoc.lookup titems "rows" = Some (HRef lr) ->
  mem w !! lr = Some (OList items) ->
  dict_rows (mem w) items ->
  normalize_table cfg table w = (res, w') ->
  extends (mem w) (mem w')
  /\ match res with
     | Ok t =>
         mem w !! t = None
         /\ exists titems' lo outs,
              mem w' !! t = Some (ODict titems')
              /\ (forall k, k <> "rows" -> k <> "startDate" -> k <> "meta" ->
                            Assoc.lookup titems' k = Assoc.lookup titems k)
              /\ Assoc.lookup titems' "rows" = Some (HRef lo)
              /\ mem w !! lo = None
              /\ mem w' !! lo = Some (OList outs)
              /\ length outs = length items
              /\ forall j l r,
                   items !! j = Some (HRef l) -> mem w !! l = Some (ODict r) ->
                   exists l' r', outs !! j = Some (HRef l')
                                 /\ mem w !! l' = None
                                 /\ mem w' !! l' = Some (ODict r')
                                 /\ row_frame (mem w) r r'
     | Raise _ => True
     end.
Proof.
  intros Ht Hrows Hlr Hd H. unfold normalize_table in H.
  destruct (dict_copy_run table titems w Ht) as (w1 & E1 & Hm1).
  unfold bind at 1 in H. rewrite E1 in H.
  assert (He1 : extends (mem w) (mem w1)) by (rewrite Hm1; apply extends_app).
  assert (Ht1 : mem w1 !! length (mem w) = Some (ODict titems))
    by (rewrite Hm1; apply lookup_end).
  unfold bind at 1 in H. rewrite (dict_get_run _ "meta" titems w1 Ht1) in H.
  unfold bind at 1, get_heap at 1 in H.
  set (mv := match Assoc.lookup titems "meta" with Some v => v | None => HNone end) in *.
  destruct (pick_dict_run mv w1) as (ml & w2 & E2 & He2).
  unfold bind at 1 in H. rewrite E2 in H.
  apply bind_inv in H as [(ms & w3 & E3 & H)|(e & E3 & ->)];
    apply dict_get_world in E3;
    [subst w3 | subst w'; split; [now apply (extends_trans _ (mem w1)) | exact I]].
  unfold bind at 1 in H. rewrite stripped_str_run in H.
  unfold bind at 1 in H. rewrite (dict_get_run _ "startDate" titems w2 (He2 _ _ Ht1)) in H.
  unfold bind at 1 in H. rewrite stripped_str_run in H.
  match type of H with
  | context [if ?a then ret ?s1 else if ?b then ret ?s2 else today_iso] =>
      destruct (start_iso_run a b s1 s2 w2) as (iso & w4 & E4 & Hm4)
  end.
  unfold bind at 1 in H. rewrite E4 in H.
  destruct (start_date_run (parse_iso_date (Py.VStr iso)) w4) as (sd & w5 & E5 & Hm5).
  unfold bind at 1 in H. rewrite E5 in H.
  destruct (alloc_run (OList []) w5) as (w6 & E6 & Hm6).
  unfold bind at 1 in H. rewrite E6 in H.
  assert (He6 : extends (mem w2) (mem w6))
    by (rewrite Hm6, Hm5, Hm4; apply extends_app).
  assert (He06 : extends (mem w) (mem w6))
    by (apply (extends_trans _ (mem w1)); [|apply (extends_trans _ (mem w2))]; assumption).
  unfold bind at 1 in H. rewrite (read_dict_run _ titems w6 (He6 _ _ (He2 _ _ Ht1))) in H.
  cbv zeta in H. rewrite Hrows in H.
  unfold bind at 1, get_heap at 1 in H. unfold is_list in H.
  rewrite (He06 _ _ Hlr) in H. unfold bind at 1, ret at 1 in H.
  destruct (alloc_run (OList []) w6) as (w7 & E7 & Hm7).
  unfold bind at 1 in H. rewrite E7 in H.
  assert (He7 : extends (mem w) (mem w7))
    by (apply (extends_trans _ (mem w6)); [assumption | rewrite Hm7; apply extends_app]).
  assert (Ht7 : mem w7 !! length (mem w) = Some (ODict titems)).
  { rewrite Hm7. apply lookup_app_l_Some. apply He6, He2, Ht1. }
  assert (Hlen6 : length (mem w) < length (mem w6)).
  { apply (lookup_lt_Some _ _ (ODict titems)). apply He6, He2, Ht1. }
  assert (Hnone : mem w !! length (mem w6) = None) by (apply lookup_ge_None_2; lia).
  unfold bind at 1 in H. rewrite (read_list_run lr items w7 (He7 _ _ Hlr)) in H.
  apply bind_inv in H as [([] & w8 & E8 & H)|(e & E8 & ->)];
    apply (normalize_rows_run _ _ _ _ (mem w) items Hlr Hd Hnone _ _ []) in E8;
    try assumption; try reflexivity; try (rewrite Hm7; apply lookup_end).
  2: { destruct E8 as (Hk & _). split; [|exact I].
       intros a o Ha. apply Hk; [now apply He7|]. intros ->. congruence. }
  destruct E8 as (Hk & outs & Hout & Hlen & Hrow).
  apply (finish_run _ _ _ _ titems) in H; [|apply Hk; [exact Ht7 | lia]].
  destruct H as (Hf & Hres).
  assert (Hext : extends (mem w) (mem w')).
  { intros a o Ha. pose proof (lookup_lt_Some _ _ _ Ha) as Hlt. apply Hf; [|lia].
    apply Hk; [now apply He7 | lia]. }
  split; [exact Hext|].
  destruct res as [t|e]; [|exact I].
  destruct Hres as (-> & ti & Hti & Hother & Hrowskey).
  split; [apply lookup_ge_None_2; lia|].
  exists ti, (length (mem w6)), outs.
  split; [exact Hti|]. split; [exact Hother|]. split; [exact Hrowskey|].
  split; [exact Hnone|]. split; [apply Hf; [exact Hout | lia]|]. split; [exact Hlen|].
  intros j l r Hj Hl. destruct (Hrow j l r Hj Hl) as (l' & r' & H1 & H2 & H3 & H4).
  assert (Hlen7 : length (mem w6) < length (mem w7)) by (rewrite Hm7, length_app; simpl; lia).
  exists l', r'. split; [exact H1|]. split; [apply lookup_ge_None_2; lia|].
  split; [apply Hf; [exact H3 | lia] | exact H4].
Qed.

Lemma normalize_table_frame_witness :
  exists res w',
    normalize_table 0 1 world0 = (res, w')
    /\ extends (mem world0) (mem w')
    /\ match res with
       | Ok t =>
           mem world0 !! t = None
           /\ exists titems' lo outs,
                mem w' !! t = Some (ODict titems')
                /\ (forall k, k <> "rows" -> k <> "startDate" -> k <> "meta" ->
                              Assoc.lookup titems' k = Assoc.lookup table0 k)
                /\ Assoc.lookup titems' "rows" = Some (HRef lo)
                /\ mem world0 !! lo = None
                /\ mem w' !! lo = Some (OList outs)
                /\ length outs = length [HRef 3; HRef 4]
                /\ forall j l r,
                     [HRef 3; HRef 4] !! j = Some (HRef l) ->
                     mem world0 !! l = Some (ODict r) ->
                     exists l' r', outs !! j = Some (HRef l')
                                   /\ mem world0 !! l' = None
                                   /\ mem w' !! l' = Some (ODict r')
                                   /\ row_frame (mem world0) r r'
       | Raise _ => True
       end.
Proof.
  exists (fst (normalize_table 0 1 world0)), (snd (normalize_table 0 1 world0)).
  split; [now destruct (normalize_table 0 1 world0)|].
  apply (normalize_table_frame 0 1 2 table0 [HRef 3; HRef 4] world0).
  - reflexivity.
  - reflexivity.
  - reflexivity.
  - repeat constructor; eexists _, _; split; reflexivity.
  - now destruct (normalize_table 0 1 world0).
Defined.

(** On this heap the call returns the new table 5, whose rows are the new
    list 8 of the new rows 10 and 12; the first keeps the vehicle and
    the note of row 3. *)
Lemma normalize_table_heap_example :
  exists w',
    normalize_table 0 1 world0 = (Ok 5, w')
    /\ firstn 5 (mem w') = mem world0
    /\ (exists ti, mem w' !! 5 = Some (ODict ti) /\ Assoc.lookup ti "rows" = Some (HRef 8))
    /\ mem w' !! 8 = Some (OList [HRef 10; HRef 12])
    /\ (exists r, mem w' !! 10 = Some (ODict r)
                  /\ Assoc.lookup r "vehicle" = Some (HStr "A1")
                  /\ Assoc.lookup r "note" = Some (HStr "x")
                  /\ Assoc.lookup r "loadDate" = Some (HStr "2026-02-25")
                  /\ Assoc.lookup r "amount" = Some (HStr "250")).
Proof.
  eexists. split; [vm_compute; reflexivity|].
  split; [reflexivity|]. split; [eexists; split; reflexivity|].
  split; [reflexivity|]. eexists. repeat split; reflexivity.
Qed.

End FrameFacts.

(** * Further properties *)

(** ** [parse_iso_date] *)

Module ParseFacts.
Import PyStr Py PyDate Storage StrFacts DateFacts.

(** X1.  [parse_iso_date] reads back what [isoformat] writes: a text that,
    without its surrounding spaces, is the ISO form of a calendar date
    parses to that date. *)
Theorem parse_iso_date_isoformat (d : date) (s : string) :
  valid d = true -> strip s = isoformat d -> parse_iso_date (VStr s) = Some d.
Proof.
  intros Hv Hs. unfold parse_iso_date. cbv zeta.
  rewrite Hs, isoformat_not_empty. now apply fromisoformat_isoformat.
Qed.

Lemma parse_iso_date_isoformat_witness :
  valid (mkdate 2024 2 29) = true
  /\ strip "  2024-02-29 " = isoformat (mkdate 2024 2 29)
  /\ parse_iso_date (VStr "  2024-02-29 ") = Some (mkdate 2024 2 29).
Proof.
  split; [reflexivity|]. split; [reflexivity|].
  apply parse_iso_date_isoformat; reflexivity.
Defined.

(** X2.  [parse_iso_date] returns a date only for a str that is not
    blank, and the date is a calendar date: year 1 to 9999, month 1 to
    12, and a day of that month. *)
Theorem parse_iso_date_sound (v : value) (d : date) :
  parse_iso_date v = Some d ->
  (exists s, v = VStr s /\ all_space s = false) /\ valid d = true.
Proof.
  unfold parse_iso_date. destruct v as [| | | |s| |]; try discriminate.
  cbv zeta. rewrite is_empty_strip.
  destruct (all_space s) eqn:E; [discriminate|].
  intros H. split; [now exists s|]. now apply (fromisoformat_valid (strip s)).
Qed.

Lemma parse_iso_date_sound_witness :
  parse_iso_date (VStr "2026-02-25") = Some (mkdate 2026 2 25)
  /\ (exists s, VStr "2026-02-25" = VStr s /\ all_space s = false)
  /\ valid (mkdate 2026 2 25) = true.
Proof.
  split; [reflexivity|]. apply parse_iso_date_sound. reflexivity.
Defined.

End ParseFacts.

(** ** Files: [_write_json_atomic], [delete_table], [save_table],
    [save_config] *)

Module StoreFacts.
Import PyStr Py Storage AssocFacts StrFacts PersistFacts ConfigFacts.
Export MoreDefs.

Section Store.
Context {J : Json}.


(** X4.  When the file of the table is not a directory, [delete_table]
    returns whether the file exists or not; afterwards the file does not
    exist, every other file is as before, and [load_table_by_id] returns
    None for the id. *)
Theorem delete_table_removes (tables_dir table_id : string) (w : world) :
  fs w !! path_join tables_dir (table_id ++ ".json") <> Some Unreadable ->
  exists w',
    delete_table tables_dir table_id w = (Ok tt, w')
    /\ fs w' !! path_join tables_dir (table_id ++ ".json") = None
    /\ (forall p, p <> path_join tables_dir (table_id ++ ".json") -> fs w' !! p = fs w !! p)
    /\ load_table_by_id tables_dir table_id w' = (Ok None, w').
Proof.
  intros _. unfold delete_table. cbv zeta.
  set (p := path_join tables_dir (table_id ++ ".json")).
  eexists. split; [reflexivity|]. simpl fs.
  assert (Hp : match fs w !! p with Some _ => delete p (fs w) | None => fs w end !! p = None).
  { destruct (fs w !! p) eqn:E; [apply lookup_delete_eq | exact E]. }
  split; [exact Hp|]. split.
  - intros q Hq. destruct (fs w !! p); [now apply lookup_delete_ne | reflexivity].
  - unfold load_table_by_id. cbv zeta. fold p. unfold bind. rewrite read_json_run.
    simpl fs. rewrite Hp. reflexivity.
Qed.


End Store.


Lemma delete_table_removes_witness :
  fs morning !! path_join "tables" ("t1" ++ ".json") <> Some Unreadable
  /\ exists w',
       delete_table "tables" "t1" morning = (Ok tt, w')
       /\ fs w' !! path_join "tables" ("t1" ++ ".json") = None
       /\ (forall p, p <> path_join "tables" ("t1" ++ ".json") -> fs w' !! p = fs morning !! p)
       /\ load_table_by_id (J:=JsonLite.codec) "tables" "t1" w' = (Ok None, w').
Proof.
  assert (H1 : fs morning !! path_join "tables" ("t1" ++ ".json") <> Some Unreadable)
    by (vm_compute; discriminate).
  split; [exact H1|].
  exact (delete_table_removes (J:=JsonLite.codec) "tables" "t1" morning H1).
Defined.


End StoreFacts.

(** ** [save_config] and [load_config] *)

Module ConfigRoundTrip.
Import PyStr Py Storage AssocFacts StrFacts PersistFacts ConfigFacts NormFacts.
Export MoreDefs.

(** The last steps of [load_config]: the defaults are added to [d] and
    the three lists are checked. *)
Lemma config_fill (base d : dict) (k : string) :
  Assoc.lookup base "recentTableIds" = Some (VList []) ->
  (exists l, Assoc.lookup base "loadPlaces" = Some (VList l)) ->
  (exists l, Assoc.lookup base "unloadPlaces" = Some (VList l)) ->
  let cfg := fold_left (fun c kv => Assoc.setdefault c (fst kv) (snd kv)) base d in
  let cfg := if is_list (get cfg "recentTableIds") then cfg
             else Assoc.set cfg "recentTableIds" (VList []) in
  let cfg := if is_list (get cfg "loadPlaces") then cfg
             else Assoc.set cfg "loadPlaces" (get base "loadPlaces") in
  let cfg := if is_list (get cfg "unloadPlaces") then cfg
             else Assoc.set cfg "unloadPlaces" (get base "unloadPlaces") in
  Assoc.lookup cfg k =
  match Assoc.lookup d k with
  | Some v => if list_key k && negb (is_list v) then Assoc.lookup base k else Some v
  | None => Assoc.lookup base k
  end.
Proof.
  intros Hr [lp Hlp] [up Hup]. cbv zeta. unfold get.
  pose proof (lookup_fold_setdefault base d) as Hc.
  set (c := fold_left (fun c kv => Assoc.setdefault c (fst kv) (snd kv)) base d) in *.
  clearbody c.
  rewrite !lookup_cond_set.
  change ("recentTableIds" =? "unloadPlaces") with false.
  change ("recentTableIds" =? "loadPlaces") with false.
  change ("loadPlaces" =? "unloadPlaces") with false.
  rewrite !andb_false_r, !Hc, Hlp, Hup, Hr. unfold list_key.
  destruct (String.eqb_spec "unloadPlaces" k) as [<-|H1].
  { destruct (Assoc.lookup d "unloadPlaces") as [[]|]; simpl; rewrite ?Hup, ?andb_false_r; reflexivity. }
  destruct (String.eqb_spec "loadPlaces" k) as [<-|H2].
  { destruct (Assoc.lookup d "loadPlaces") as [[]|]; simpl; rewrite ?Hlp, ?andb_false_r; reflexivity. }
  destruct (String.eqb_spec "recentTableIds" k) as [<-|H3].
  { destruct (Assoc.lookup d "recentTableIds") as [[]|]; simpl; rewrite ?Hr, ?andb_false_r; reflexivity. }
  rewrite !andb_false_r.
  destruct (String.eqb_spec k "recentTableIds"); [congruence|].
  destruct (String.eqb_spec k "loadPlaces"); [congruence|].
  destruct (String.eqb_spec k "unloadPlaces"); [congruence|].
  simpl. now destruct (Assoc.lookup d k).
Qed.

(** The defaults do not depend on the time, their time stamp apart. *)
Lemma default_config_lookup (w w' : world) (d d' : dict) (w1 w1' : world) (k : string) :
  default_config w = (Ok d, w1) -> default_config w' = (Ok d', w1') ->
  k <> "updatedAt" -> Assoc.lookup d k = Assoc.lookup d' k.
Proof.
  unfold default_config, bind. rewrite !now_iso_run. unfold ret.
  intros [= <- _] [= <- _] Hk.
  cbn [Assoc.lookup].
  repeat (match goal with |- context [String.eqb ?a k] => destruct (String.eqb_spec a k) end;
          [first [reflexivity | congruence]|]).
  reflexivity.
Qed.

Section Config.
Context {J : Json}.



(** X7.  When config.json is missing, cannot be read, or does not hold a
    JSON object, [load_config] returns the default config, stamped with
    the time of the call, and writes nothing. *)
Theorem load_config_fallback (base_dir : string) (w : world) :
  (forall s d, fs w !! path_join base_dir "config.json" = Some (Text s) ->
               loads s <> Some (VDict d)) ->
  exists cfg w',
    load_config base_dir w = (Ok cfg, w')
    /\ fs w' = fs w
    /\ (exists t, Assoc.lookup cfg "updatedAt" = Some (VStr t))
    /\ forall d1 w1 k, default_config w = (Ok d1, w1) -> k <> "updatedAt" ->
                       Assoc.lookup cfg k = Assoc.lookup d1 k.
Proof.
  intros Hbad.
  destruct (default_config_run w) as (d0 & Hd0 & Hr0 & _ & Hlp0 & Hup0). fold (tick w) in Hd0.
  assert (Hstamp : forall wx dx wx', default_config wx = (Ok dx, wx') ->
                     exists t, Assoc.lookup dx "updatedAt" = Some (VStr t)).
  { intros wx dx wx'. unfold default_config, bind. rewrite now_iso_run. unfold ret.
    intros [= <- _]. eexists. reflexivity. }
  assert (Hfill : forall d base wa wb wc wd,
            default_config wa = (Ok d, wb) -> default_config wc = (Ok base, wd) ->
            forall k,
              Assoc.lookup
                (let cfg := fold_left (fun c kv => Assoc.setdefault c (fst kv) (snd kv)) base d in
                 let cfg := if is_list (get cfg "recentTableIds") then cfg
                            else Assoc.set cfg "recentTableIds" (VList []) in
                 let cfg := if is_list (get cfg "loadPlaces") then cfg
                            else Assoc.set cfg "loadPlaces" (get base "loadPlaces") in
                 if is_list (get cfg "unloadPlaces") then cfg
                 else Assoc.set cfg "unloadPlaces" (get base "unloadPlaces")) k
              = Assoc.lookup d k).
  { intros d base wa wb wc wd Hd Hb k.
    destruct (default_config_run wa) as (d' & Hd' & Hr & _ & [lp Hlp] & [up Hup]).
    rewrite Hd in Hd'. injection Hd' as <- _.
    destruct (default_config_run wc) as (b' & Hb' & Hrb & _ & Hlpb & Hupb).
    rewrite Hb in Hb'. injection Hb' as <- _.
    pose proof (config_fill base d k Hrb Hlpb Hupb) as Hcf. cbv zeta in Hcf |- *.
    rewrite Hcf. clear Hcf.
    destruct (Assoc.lookup d k) as [v|] eqn:Ev.
    - unfold list_key.
      destruct (String.eqb_spec k "recentTableIds") as [->|];
        [rewrite Hr in Ev; now injection Ev as <-|].
      destruct (String.eqb_spec k "loadPlaces") as [->|];
        [rewrite Hlp in Ev; now injection Ev as <-|].
      destruct (String.eqb_spec k "unloadPlaces") as [->|];
        [rewrite Hup in Ev; now injection Ev as <-|].
      reflexivity.
    - destruct (String.eqb_spec k "updatedAt") as [->|Hk].
      + destruct (Hstamp _ _ _ Hd) as [t Ht]. congruence.
      + rewrite <- Ev. symmetry. now apply (default_config_lookup wa wc d base wb wd). }
  unfold load_config. cbv zeta. unfold bind at 1. rewrite Hd0.
  unfold bind at 1. rewrite read_json_run. change (fs (tick w)) with (fs w).
  destruct (default_config_run (tick w)) as (d1 & Hd1 & _). fold (tick (tick w)) in Hd1.
  destruct (default_config_run (tick (tick w))) as (d2 & Hd2 & _).
  fold (tick (tick (tick w))) in Hd2.
  assert (Hcase :
    match fs w !! path_join base_dir "config.json" with
    | Some (Text s) => match loads s with Some v => v | None => VDict d0 end
    | _ => VDict d0
    end = VDict d0
    \/ exists v, match fs w !! path_join base_dir "config.json" with
                 | Some (Text s) => match loads s with Some v => v | None => VDict d0 end
                 | _ => VDict d0
                 end = v /\ is_dict v = false).
  { destruct (fs w !! path_join base_dir "config.json") as [[s|]|] eqn:Ef; try (now left).
    destruct (loads s) as [v|] eqn:El; [|now left].
    right. exists v. split; [reflexivity|].
    destruct v; try reflexivity. exfalso. eapply Hbad; [reflexivity | exact El]. }
  destruct Hcase as [-> | (v & -> & Hv)].
  - unfold bind at 1, ret at 1. unfold bind at 1. rewrite Hd1. unfold ret.
    eexists _, _. split; [reflexivity|]. split; [reflexivity|]. split.
    + rewrite (Hfill d0 d1 _ _ _ _ Hd0 Hd1). now apply (Hstamp _ _ _ Hd0).
    + intros dx wx k Hdx Hk. rewrite (Hfill d0 d1 _ _ _ _ Hd0 Hd1).
      assert (d0 = dx) as -> by congruence. reflexivity.
  - assert (Hnd : match v with VDict c => ret c | _ => default_config end = default_config)
      by (destruct v; try reflexivity; discriminate).
    rewrite Hnd. unfold bind at 1. rewrite Hd1. unfold bind at 1. rewrite Hd2. unfold ret.
    eexists _, _. split; [reflexivity|]. split; [reflexivity|]. split.
    + rewrite (Hfill d1 d2 _ _ _ _ Hd1 Hd2). now apply (Hstamp _ _ _ Hd1).
    + intros dx wx k Hdx Hk. rewrite (Hfill d1 d2 _ _ _ _ Hd1 Hd2).
      assert (d0 = dx) as <- by congruence.
      now apply (default_config_lookup (tick w) w d1 d0 (tick (tick w)) (tick w)).
Qed.

End Config.


Lemma load_config_fallback_witness :
  (forall s d, fs morning !! path_join "app" "config.json" = Some (Text s) ->
               JsonLite.parse s <> Some (VDict d))
  /\ exists cfg w',
       load_config (J:=JsonLite.codec) "app" morning = (Ok cfg, w')
       /\ fs w' = fs morning
       /\ (exists t, Assoc.lookup cfg "updatedAt" = Some (VStr t))
       /\ forall d1 w1 k, default_config morning = (Ok d1, w1) -> k <> "updatedAt" ->
                          Assoc.lookup cfg k = Assoc.lookup d1 k.
Proof.
  assert (H1 : forall s d, fs morning !! path_join "app" "config.json" = Some (Text s) ->
                           JsonLite.parse s <> Some (VDict d))
    by (intros s d H; vm_compute in H; discriminate H).
  split; [exact H1|].
  exact (load_config_fallback (J:=JsonLite.codec) "app" morning H1).
Defined.

End ConfigRoundTrip.

(** ** [touch_recent] *)

Module RecentOrder.
Import PyStr Py Storage AssocFacts RecentFacts NormFacts.
Export MoreDefs.

Lemma filter_firstn_filter {A} (p : A -> bool) (n : nat) (l : list A) :
  List.filter p (firstn n (List.filter p l)) = firstn n (List.filter p l).
Proof.
  revert n. induction l as [|x l IH]; intros n; simpl.
  - now rewrite firstn_nil.
  - destruct (p x) eqn:E; [|apply IH].
    destruct n as [|n]; [reflexivity|]. simpl. now rewrite E, IH.
Qed.

(** What [touch_recent] returns, when it returns. *)
Lemma touch_recent_ok (cfg cfg1 : dict) (table_id : string) :
  touch_recent cfg table_id = Ok cfg1 ->
  exists ids limit,
    iter (get_default cfg "recentTableIds" (VList [])) = Ok ids
    /\ int (limit_value cfg) = Ok limit
    /\ cfg1 = Assoc.set cfg "recentTableIds"
                (VList (VStr table_id
                        :: firstn (Z.to_nat (Z.max 1 limit) - 1)
                                  (List.filter (differs table_id) ids))).
Proof.
  unfold touch_recent, limit_value. cbv zeta.
  destruct (iter _) as [ids|e]; [|discriminate]. unfold rbind at 1.
  destruct (int _) as [limit|e]; [|discriminate]. unfold rbind.
  intros [= <-]. exists ids, limit. split; [reflexivity|]. split; [reflexivity|].
  unfold slice_to.
  destruct (Z.to_nat (Z.max 1 limit)) as [|m] eqn:E; [lia|].
  simpl. now rewrite Nat.sub_0_r.
Qed.

Lemma limit_value_set (cfg : dict) (v : value) :
  limit_value (Assoc.set cfg "recentTableIds" v) = limit_value cfg.
Proof. unfold limit_value. now rewrite get_set_ne by discriminate. Qed.

Lemma touch_recent_run (cfg : dict) (table_id : string) (ids : list value) (limit : Z) :
  iter (get_default cfg "recentTableIds" (VList [])) = Ok ids ->
  int (limit_value cfg) = Ok limit ->
  touch_recent cfg table_id =
  Ok (Assoc.set cfg "recentTableIds"
        (VList (VStr table_id
                :: firstn (Z.to_nat (Z.max 1 limit) - 1) (List.filter (differs table_id) ids)))).
Proof.
  intros Hi Hl. unfold touch_recent. cbv zeta. rewrite Hi. unfold rbind at 1.
  fold (limit_value cfg). rewrite Hl. unfold rbind, slice_to.
  destruct (Z.to_nat (Z.max 1 limit)) as [|m] eqn:E; [lia|].
  simpl. now rewrite Nat.sub_0_r.
Qed.

Lemma touched_ids (cfg : dict) (l : list value) :
  iter (get_default (Assoc.set cfg "recentTableIds" (VList l)) "recentTableIds" (VList []))
  = Ok l.
Proof. unfold get_default. now rewrite lookup_set_eq. Qed.

(** X8.  Touching the same id a second time changes nothing: when
    [touch_recent] returns a config, it returns that config again for
    the same id. *)
Theorem touch_recent_idem (cfg cfg1 : dict) (table_id : string) :
  touch_recent cfg table_id = Ok cfg1 -> touch_recent cfg1 table_id = Ok cfg1.
Proof.
  intros H. apply touch_recent_ok in H as (ids & limit & Hi & Hl & ->).
  rewrite (touch_recent_run _ table_id _ limit (touched_ids cfg _))
    by (now rewrite limit_value_set).
  rewrite set_set. cbn [List.filter]. rewrite differs_self, filter_firstn_filter.
  rewrite firstn_all2 by apply firstn_le_length. reflexivity.
Qed.

Lemma touch_recent_idem_witness :
  touch_recent some_config "b"
  = Ok (Assoc.set some_config "recentTableIds" (VList [VStr "b"; VStr "a"]))
  /\ touch_recent (Assoc.set some_config "recentTableIds" (VList [VStr "b"; VStr "a"])) "b"
     = Ok (Assoc.set some_config "recentTableIds" (VList [VStr "b"; VStr "a"])).
Proof.
  split; [reflexivity|]. apply (touch_recent_idem some_config). reflexivity.
Defined.

(** X9.  The list is in order of last use: after touching [a] and then a
    different id [b], with a limit of at least 2, the list starts with
    [b] and continues with [a]. *)
Theorem touch_recent_order (cfg c1 c2 : dict) (a b : string) (limit : Z) :
  a <> b ->
  int (limit_value cfg) = Ok limit -> (2 <= limit)%Z ->
  touch_recent cfg a = Ok c1 ->
  touch_recent c1 b = Ok c2 ->
  exists rest, get c2 "recentTableIds" = VList (VStr b :: VStr a :: rest).
Proof.
  intros Hab Hl Hge H1 H2.
  apply touch_recent_ok in H1 as (ids & limit1 & Hi & Hl1 & ->).
  rewrite (touch_recent_run _ b _ limit (touched_ids cfg _)) in H2
    by (now rewrite limit_value_set).
  injection H2 as <-. rewrite get_set_eq.
  cbn [List.filter]. unfold differs at 1.
  destruct (String.eqb_spec a b) as [|_]; [contradiction|]. cbn [negb].
  destruct (Z.to_nat (Z.max 1 limit) - 1) as [|m] eqn:E; [lia|].
  simpl. eexists. reflexivity.
Qed.

Lemma touch_recent_order_witness :
  "a" <> "c"
  /\ int (limit_value some_config) = Ok 3%Z /\ (2 <= 3)%Z
  /\ exists c1 c2,
       touch_recent some_config "a" = Ok c1
       /\ touch_recent c1 "c" = Ok c2
       /\ exists rest, get c2 "recentTableIds" = VList (VStr "c" :: VStr "a" :: rest).
Proof.
  assert (H1 : "a" <> "c") by discriminate.
  assert (H2 : int (limit_value some_config) = Ok 3%Z) by reflexivity.
  assert (H3 : (2 <= 3)%Z) by lia.
  split; [exact H1|]. split; [exact H2|]. split; [exact H3|].
  eexists _, _. split; [reflexivity|]. split; [reflexivity|].
  eapply touch_recent_order with (cfg := some_config) (a := "a") (limit := 3%Z);
    [exact H1 | exact H2 | exact H3 | reflexivity | reflexivity].
Defined.

End RecentOrder.

(** ** Numbers: [to_decimal] and the errors of [compute_amount] *)

Module NumberFacts.
Import PyStr Py PyDecimal Storage StrFacts DigitFacts DecFacts PlainFacts.
Export NumberDefs.

(** X10.  [to_decimal] reads an int exactly, whatever its size up to the
    4300 digits that [str] writes, and it reads no bool: [str(True)] is
    not a number. *)
Theorem to_decimal_int (z : Z) :
  (String.length (digits (Z.abs_N z)) <= 4300)%nat ->
  to_decimal (VInt z) = Some (Fin (z <? 0)%Z (Z.abs_N z) 0)
  /\ forall b, to_decimal (VBool b) = None.
Proof.
  intros Hlen. split; [|intros []; reflexivity].
  unfold to_decimal, str. cbn [repr].
  destruct (digits_cons (Z.abs_N z)) as (a & r & Hd & Ha & Hr).
  assert (Hbound : (Z.of_nat (String.length (String a r ++ "")) <= 999999999999999999)%Z).
  { rewrite append_nil_r, <- Hd. lia. }
  pose proof (of_string_plain (z <? 0)%Z a r "" Ha Hr eq_refl Hbound) as H.
  rewrite append_nil_r, <- Hd in H.
  replace (digits_value 0 (digits (Z.abs_N z))) with (Z.abs_N z) in H
    by (rewrite digits_value_digits; lia).
  change (0 - Z.of_nat (String.length ""))%Z with 0%Z in H.
  rewrite <- H. f_equal. unfold plain_text. cbn [is_empty].
  rewrite append_nil_r.
  destruct z as [|p|p]; cbn [Z.ltb Z.compare sign_str str_int Z.abs_N Z.to_N Z.abs].
  - now rewrite append_nil_l.
  - now rewrite append_nil_l.
  - reflexivity.
Qed.

Lemma to_decimal_int_witness :
  (String.length (digits (Z.abs_N (-12))) <= 4300)%nat
  /\ to_decimal (VInt (-12)) = Some (Fin (-12 <? 0)%Z (Z.abs_N (-12)) 0)
  /\ forall b, to_decimal (VBool b) = None.
Proof.
  assert (H : (String.length (digits (Z.abs_N (-12))) <= 4300)%nat) by (vm_compute; lia).
  split; [exact H|]. exact (to_decimal_int (-12) H).
Defined.

(** X11.  [compute_amount] raises InvalidOperation, which it does not
    catch, when one of freight and settleTons reads as an infinity and
    the other as a zero, and when one of them reads as a signaling NaN. *)
Theorem compute_amount_invalid (row : dict) :
  (forall s sb e,
     to_decimal (get row "freight") = Some (Inf s) ->
     to_decimal (get row "settleTons") = Some (Fin sb 0 e) ->
     compute_amount row = Raise InvalidOperation)
  /\ (forall s sb e,
        to_decimal (get row "freight") = Some (Fin sb 0 e) ->
        to_decimal (get row "settleTons") = Some (Inf s) ->
        compute_amount row = Raise InvalidOperation)
  /\ (forall a b,
        to_decimal (get row "freight") = Some a ->
        to_decimal (get row "settleTons") = Some b ->
        is_snan a || is_snan b = true ->
        compute_amount row = Raise InvalidOperation).
Proof.
  unfold compute_amount. split; [|split].
  - intros s sb e -> ->. reflexivity.
  - intros s sb e -> ->. reflexivity.
  - intros a b -> -> H. unfold mul, check_nans. now rewrite H.
Qed.

Lemma compute_amount_invalid_witness :
  to_decimal (get infinite_row "freight") = Some (Inf false)
  /\ to_decimal (get infinite_row "settleTons") = Some (Fin false 0 0)
  /\ compute_amount infinite_row = Raise InvalidOperation.
Proof.
  assert (H1 : to_decimal (get infinite_row "freight") = Some (Inf false)) by reflexivity.
  assert (H2 : to_decimal (get infinite_row "settleTons") = Some (Fin false 0 0)) by reflexivity.
  split; [exact H1|]. split; [exact H2|].
  exact (proj1 (compute_amount_invalid infinite_row) false false 0%Z H1 H2).
Defined.

(** X12.  [compute_amount] raises Overflow, which it does not catch, when
    freight and settleTons read as finite numbers whose product is not
    zero and has an adjusted exponent above 999999. *)
Theorem compute_amount_overflow (row : dict) (sa sb : bool) (ca cb : N) (ea eb : Z) :
  to_decimal (get row "freight") = Some (Fin sa ca ea) ->
  to_decimal (get row "settleTons") = Some (Fin sb cb eb) ->
  (ca * cb <> 0)%N ->
  (999999 < Z.of_N (ndigits (ca * cb)) + (ea + eb) - 1)%Z ->
  compute_amount row = Raise DecimalOverflow.
Proof.
  intros Hf Hs Hnz Hadj. unfold compute_amount. rewrite Hf, Hs.
  unfold mul. change (check_nans (Fin sa ca ea) (Fin sb cb eb)) with (@None (result decimal)).
  cbv iota. unfold fix_finite.
  destruct (N.eqb_spec (ca * cb) 0) as [|_]; [contradiction|].
  cbv zeta. unfold Etop, Emax, prec.
  destruct (Z.ltb_spec (999999 - 28 + 1) (Z.of_N (ndigits (ca * cb)) + (ea + eb) - 28));
    [reflexivity | lia].
Qed.

Lemma compute_amount_overflow_witness :
  to_decimal (get huge_row "freight") = Some (Fin false 1 999999)
  /\ to_decimal (get huge_row "settleTons") = Some (Fin false 10 0)
  /\ (1 * 10 <> 0)%N
  /\ (999999 < Z.of_N (ndigits (1 * 10)) + (999999 + 0) - 1)%Z
  /\ compute_amount huge_row = Raise DecimalOverflow.
Proof.
  assert (H1 : to_decimal (get huge_row "freight") = Some (Fin false 1 999999))
    by (vm_compute; reflexivity).
  assert (H2 : to_decimal (get huge_row "settleTons") = Some (Fin false 10 0))
    by (vm_compute; reflexivity).
  assert (H3 : (1 * 10 <> 0)%N) by discriminate.
  assert (H4 : (999999 < Z.of_N (ndigits (1 * 10)) + (999999 + 0) - 1)%Z)
    by (vm_compute; reflexivity).
  repeat (split; [assumption|]).
  exact (compute_amount_overflow huge_row false false 1 10 999999 0 H1 H2 H3 H4).
Defined.

End NumberFacts.

(** ** Rows: [ensure_row_defaults] and [ensure_rows_from_start_date] *)

Module RowFacts.
Import PyStr Py Storage AssocFacts StrFacts DateFacts NormFacts.
Export TableDefs.

(** X13.  [ensure_row_defaults] is idempotent: on a row that it returned
    it changes nothing, also when the defaults of the config are blank. *)
Theorem ensure_row_defaults_idem (cfg r : dict) :
  ensure_row_defaults cfg (ensure_row_defaults cfg r) = ensure_row_defaults cfg r.
Proof.
  apply erd_fixed.
  - unfold get at 1. rewrite erd_lookup_vehicle.
    destruct (unset (get r "vehicle")) eqn:E; [reflexivity|].
    fold (get r "vehicle"). congruence.
  - unfold get at 1. rewrite erd_lookup_model.
    destruct (unset (get r "model")) eqn:E; [reflexivity|].
    fold (get r "model"). congruence.
Qed.




End RowFacts.

(** ** Tables: [normalize_table], [create_table], [summarize_table] *)

Module TableFacts.
Import PyStr Py PyDecimal Storage AssocFacts StrFacts DateFacts NormFacts.
Export TableDefs.

Lemma lookup_setdefault_ne (r : dict) (k k' : string) (v : value) :
  k <> k' -> Assoc.lookup (Assoc.setdefault r k v) k' = Assoc.lookup r k'.
Proof.
  intros Hne. rewrite lookup_setdefault. destruct (Assoc.lookup r k'); [reflexivity|].
  destruct (String.eqb_spec k k'); [contradiction | reflexivity].
Qed.

(** A row that the loop of [normalize_table] returns, beside its entry. *)
Lemma row_out_kept (cfg : dict) (sd : PyDate.date) (i : nat) (id : string) (r r' : dict) :
  row_out cfg sd i id r = Ok r' -> row_kept cfg (VDict r) (VDict r').
Proof.
  intros H. apply row_out_inv in H as (di & a & _ & _ & ->).
  eexists r, _. split; [reflexivity|]. split; [reflexivity|].
  split; [|split; [|split; [|split]]].
  - intros k H1 H2 H3 H4 H5.
    rewrite !lookup_set_ne, erd_lookup_other, lookup_setdefault_ne by congruence. reflexivity.
  - intros v Hv.
    rewrite !lookup_set_ne, erd_lookup_other by discriminate.
    now rewrite lookup_setdefault, Hv.
  - intros Hn. exists id.
    rewrite !lookup_set_ne, erd_lookup_other by discriminate.
    now rewrite lookup_setdefault, Hn.
  - rewrite !lookup_set_ne by discriminate. rewrite erd_lookup_vehicle.
    unfold get at 1. now rewrite !lookup_setdefault_ne by discriminate.
  - rewrite !lookup_set_ne by discriminate. rewrite erd_lookup_model.
    unfold get at 1. now rewrite !lookup_setdefault_ne by discriminate.
Qed.

Lemma row_out_synced (cfg : dict) (sd : PyDate.date) (i : nat) (id : string) (r r' : dict) :
  row_out cfg sd i id r = Ok r' -> synced (VDict r').
Proof.
  intros H. apply row_out_inv in H as (di & a & _ & Ha & ->).
  eexists _, a. split; [reflexivity|]. split; [apply get_set_eq|].
  rewrite <- Ha. apply compute_amount_ext; now rewrite get_set_ne by discriminate.
Qed.

Lemma normalize_rows_kept (cfg : dict) (sd : PyDate.date) (rows : list value) :
  forall i w out w',
    normalize_rows cfg sd i rows w = (Ok out, w') ->
    Forall2 (row_kept cfg) (List.filter is_dict rows) out /\ Forall synced out.
Proof.
  induction rows as [|rr rows IH]; intros i w out w' Hrun.
  - injection Hrun as <- <-. split; constructor.
  - destruct (is_dict rr) eqn:Hd.
    + destruct rr as [| | | | | |r]; try discriminate Hd.
      rewrite normalize_rows_dict in Hrun.
      destruct (row_out cfg sd i (next_row_id w) r) as [r'|e] eqn:Hrow; [|discriminate].
      destruct (normalize_rows cfg sd (S i) rows (draw w)) as [[out0|e] w0] eqn:Hrest;
        [|discriminate].
      injection Hrun as <- <-. destruct (IH _ _ _ _ Hrest) as (Hk & Hs).
      cbn [List.filter is_dict]. split; constructor; try assumption.
      * now apply (row_out_kept cfg sd i (next_row_id w)).
      * now apply (row_out_synced cfg sd i (next_row_id w) r).
    + rewrite normalize_rows_skip in Hrun by assumption.
      cbn [List.filter]. rewrite Hd. now apply (IH _ _ _ _ Hrun).
Qed.



Lemma lookup_finish_other (t : dict) (sd : PyDate.date) (out : list value) (k : string) :
  k <> "rows" -> k <> "startDate" -> k <> "meta" ->
  Assoc.lookup (finish t sd out) k = Assoc.lookup t k.
Proof.
  intros H1 H2 H3. unfold finish. now rewrite !lookup_set_ne by congruence.
Qed.

(** X15.  [normalize_table] returns one row for each entry of rows that
    is a dict, in the order of the entries, and drops the others; rows
    that are missing or not a list count as no entries.  A returned row
    agrees with its entry on every key but id, vehicle, model, loadDate
    and amount; it keeps an id that the entry has and gets one otherwise;
    its vehicle and model are those of the entry unless they are blank,
    and the defaults of the config otherwise. *)
Theorem normalize_table_rows (cfg t t1 : dict) (w w1 : world) :
  normalize_table cfg t w = (Ok t1, w1) ->
  exists out,
    get t1 "rows" = VList out
    /\ Forall2 (row_kept cfg) (List.filter is_dict (rows_of t)) out.
Proof.
  intros H. rewrite normalize_table_steps in H.
  apply bind_ok in H as (sd & wa & _ & H).
  apply bind_ok in H as (out & wb & Hrows & Hret). injection Hret as <- <-.
  exists out. split; [unfold get; now rewrite lookup_finish_rows|].
  exact (proj1 (normalize_rows_kept cfg sd _ 0 wa out wb Hrows)).
Qed.


(** X17.  In every row that [normalize_table] returns, the amount is in
    step with the freight and the settleTons of that row: it is the text
    that [compute_amount] returns for the row. *)
Theorem normalize_table_synced (cfg t t1 : dict) (w w1 : world) :
  normalize_table cfg t w = (Ok t1, w1) ->
  exists out, get t1 "rows" = VList out /\ Forall synced out.
Proof.
  intros H. rewrite normalize_table_steps in H.
  apply bind_ok in H as (sd & wa & _ & H).
  apply bind_ok in H as (out & wb & Hrows & Hret). injection Hret as <- <-.
  exists out. split; [unfold get; now rewrite lookup_finish_rows|].
  exact (proj2 (normalize_rows_kept cfg sd _ 0 wa out wb Hrows)).
Qed.

(** X18.  On a table whose rows are all dicts, what [normalize_table]
    returns is in normal form: row [i] is dated [i] days after the start
    date, no row is lost, and a second pass returns the same table. *)
Theorem normalize_table_normal_form (cfg t t1 : dict) (w w1 : world) :
  clock_valid w ->
  all_dicts (rows_of t) ->
  normalize_table cfg t w = (Ok t1, w1) ->
  (exists sd, dated t1 sd (length (rows_of t)))
  /\ forall w2, exists w3, normalize_table cfg t1 w2 = (Ok t1, w3).
Proof.
  intros Hc Hall H. split.
  - now apply (normalize_table_dated cfg t t1 w w1).
  - now apply (normalize_table_idem_dicts cfg t t1 w w1).
Qed.

Lemma clock_valid_world0 : clock_valid world0.
Proof. intros n. reflexivity. Qed.

Lemma normalize_table_rows_witness :
  exists t1 w1,
    normalize_table cfg0 mixed_table world0 = (Ok t1, w1)
    /\ exists out,
         get t1 "rows" = VList out
         /\ Forall2 (row_kept cfg0) (List.filter is_dict (rows_of mixed_table)) out.
Proof.
  destruct (normalize_table cfg0 mixed_table world0) as [[t1|e] w1] eqn:E;
    [|vm_compute in E; discriminate E].
  exists t1, w1. split; [reflexivity|].
  exact (normalize_table_rows cfg0 mixed_table t1 world0 w1 E).
Defined.


Lemma normalize_table_synced_witness :
  exists t1 w1,
    normalize_table cfg0 mixed_table world0 = (Ok t1, w1)
    /\ exists out, get t1 "rows" = VList out /\ Forall synced out.
Proof.
  destruct (normalize_table cfg0 mixed_table world0) as [[t1|e] w1] eqn:E;
    [|vm_compute in E; discriminate E].
  exists t1, w1. split; [reflexivity|].
  exact (normalize_table_synced cfg0 mixed_table t1 world0 w1 E).
Defined.

Lemma normalize_table_normal_form_witness :
  clock_valid world0
  /\ all_dicts (rows_of row_table)
  /\ exists t1 w1,
       normalize_table cfg0 row_table world0 = (Ok t1, w1)
       /\ (exists sd, dated t1 sd (length (rows_of row_table)))
       /\ forall w2, exists w3, normalize_table cfg0 t1 w2 = (Ok t1, w3).
Proof.
  assert (Hall : all_dicts (rows_of row_table)) by (repeat constructor).
  split; [exact clock_valid_world0|]. split; [exact Hall|].
  destruct (normalize_table cfg0 row_table world0) as [[t1|e] w1] eqn:E;
    [|vm_compute in E; discriminate E].
  exists t1, w1. split; [reflexivity|].
  exact (normalize_table_normal_form cfg0 row_table t1 world0 w1 clock_valid_world0 Hall E).
Defined.

End TableFacts.

(** ** [create_table] and what follows it *)

Module CreateFacts.
Import PyStr Py PyDecimal Storage AssocFacts StrFacts DateFacts NormFacts TableFacts.
Export TableDefs.

Lemma create_table_parts (cfg : dict) (d : PyDate.date) (n : Z) (w w1 : world) (t : dict) :
  PyDate.valid d = true ->
  create_table cfg (PyDate.isoformat d) n w = (Ok t, w1) ->
  exists rows c u out wa wd we,
    fresh_rows cfg d 0 (Z.to_nat (Z.max 1 n)) w = (Ok rows, wa)
    /\ normalize_rows cfg d 0 rows wd = (Ok out, we)
    /\ t = finish (created (PyDate.isoformat d) n rows
                     ("tbl_" ++ take 12 (uuids wa (drawn wa))) c u) d out.
Proof.
  intros Hv Hrun. rewrite create_table_steps in Hrun by assumption.
  apply bind_ok in Hrun as (rows & wa & Hrows & Hrun).
  unfold bind at 1 in Hrun. rewrite new_id_run in Hrun.
  apply bind_ok in Hrun as (c & wc & _ & Hrun).
  apply bind_ok in Hrun as (u & wd & _ & Hrun).
  rewrite normalize_table_steps in Hrun.
  unfold bind at 1 in Hrun.
  rewrite (resolve_start_fixed _ d wd Hv) in Hrun by reflexivity.
  apply bind_ok in Hrun as (out & we & Hout & Hret).
  injection Hret as <- <-. rewrite created_rows in Hout.
  exists rows, c, u, out, wa, wd, we. split; [exact Hrows|]. split; [exact Hout|]. reflexivity.
Qed.

(** X19.  For a calendar date as start date, when the date of the last
    row exists, [create_table] returns a table of max(1, row count) rows,
    row [i] dated [i] days after the start date, that [normalize_table]
    returns unchanged; its id starts with tbl_, its name is the start
    date followed by a hyphen, and its meta holds the start date and the
    row count as given. *)
Theorem create_table_result (cfg : dict) (d dl : PyDate.date) (n : Z) (w : world) :
  PyDate.valid d = true ->
  PyDate.add_days d (Z.to_nat (Z.max 1 n) - 1) = Some dl ->
  exists t w1 h,
    create_table cfg (PyDate.isoformat d) n w = (Ok t, w1)
    /\ dated t d (Z.to_nat (Z.max 1 n))
    /\ (forall w2, exists w3, normalize_table cfg t w2 = (Ok t, w3))
    /\ get t "id" = VStr ("tbl_" ++ h)
    /\ get t "name" = VStr (PyDate.isoformat d ++ "-")
    /\ get t "meta" = VDict [("startDate", VStr (PyDate.isoformat d)); ("initialRows", VInt n)].
Proof.
  intros Hv Hlast.
  destruct (create_table_returns cfg d dl n w Hv Hlast) as (t & w1 & Hrun).
  destruct (create_table_dated cfg d n w w1 t Hv Hrun) as (Hd & Hfix).
  destruct (create_table_parts cfg d n w w1 t Hv Hrun)
    as (rows & c & u & out & wa & wd & we & _ & _ & Ht).
  exists t, w1, (take 12 (uuids wa (drawn wa))).
  split; [exact Hrun|]. split; [exact Hd|]. split; [exact Hfix|].
  rewrite Ht. unfold get. rewrite lookup_finish_meta, created_meta.
  rewrite !lookup_finish_other by discriminate. repeat split; reflexivity.
Qed.

Lemma create_table_result_witness :
  PyDate.valid (PyDate.mkdate 2026 2 25) = true
  /\ PyDate.add_days (PyDate.mkdate 2026 2 25) (Z.to_nat (Z.max 1 3) - 1)
     = Some (PyDate.mkdate 2026 2 27)
  /\ exists t w1 h,
       create_table cfg0 (PyDate.isoformat (PyDate.mkdate 2026 2 25)) 3 world0 = (Ok t, w1)
       /\ dated t (PyDate.mkdate 2026 2 25) (Z.to_nat (Z.max 1 3))
       /\ (forall w2, exists w3, normalize_table cfg0 t w2 = (Ok t, w3))
       /\ get t "id" = VStr ("tbl_" ++ h)
       /\ get t "name" = VStr (PyDate.isoformat (PyDate.mkdate 2026 2 25) ++ "-")
       /\ get t "meta" = VDict [("startDate", VStr (PyDate.isoformat (PyDate.mkdate 2026 2 25)));
                                ("initialRows", VInt 3)].
Proof.
  assert (H1 : PyDate.valid (PyDate.mkdate 2026 2 25) = true) by reflexivity.
  assert (H2 : PyDate.add_days (PyDate.mkdate 2026 2 25) (Z.to_nat (Z.max 1 3) - 1)
               = Some (PyDate.mkdate 2026 2 27)) by reflexivity.
  split; [exact H1|]. split; [exact H2|].
  exact (create_table_result cfg0 _ _ 3 world0 H1 H2).
Defined.

Lemma add_days_none_le (i j : nat) (d : PyDate.date) :
  (i <= j)%nat -> PyDate.add_days d i = None -> PyDate.add_days d j = None.
Proof.
  intros Hle Hn. destruct (PyDate.add_days d j) as [dj|] eqn:E; [|reflexivity].
  destruct (add_days_le j i d dj Hle E) as (d1 & H1). congruence.
Qed.

Lemma fresh_rows_overflow (cfg : dict) (sd : PyDate.date) (n : nat) :
  forall i w,
    (0 < n)%nat -> PyDate.add_days sd (i + n - 1) = None ->
    exists w', fresh_rows cfg sd i n w = (Raise OverflowError, w').
Proof.
  induction n as [|n IH]; intros i w Hn Hlast; [lia|].
  cbn [fresh_rows]. unfold date_plus.
  destruct (PyDate.add_days sd i) as [d|] eqn:Ed.
  - unfold bind at 1, ret at 1. unfold bind at 1. rewrite new_id_run.
    destruct n as [|n'].
    + replace (i + 1 - 1) with i in Hlast by lia. congruence.
    + destruct (IH (S i) (draw w)) as (w' & Hr); [lia | |].
      * now replace (S i + S n' - 1) with (i + S (S n') - 1) by lia.
      * unfold bind at 1. rewrite Hr. now exists w'.
  - eexists. reflexivity.
Qed.

(** X20.  For a calendar date as start date, when the last row would be
    dated after 9999-12-31, [create_table] raises OverflowError. *)
Theorem create_table_overflow (cfg : dict) (d : PyDate.date) (n : Z) (w : world) :
  PyDate.valid d = true ->
  PyDate.add_days d (Z.to_nat (Z.max 1 n) - 1) = None ->
  exists w', create_table cfg (PyDate.isoformat d) n w = (Raise OverflowError, w').
Proof.
  intros Hv Hlast. rewrite create_table_steps by assumption.
  destruct (fresh_rows_overflow cfg d (Z.to_nat (Z.max 1 n)) 0 w) as (w' & Hr);
    [lia | exact Hlast |].
  unfold bind at 1. rewrite Hr. now exists w'.
Qed.

Lemma create_table_overflow_witness :
  PyDate.valid (PyDate.mkdate 9999 12 31) = true
  /\ PyDate.add_days (PyDate.mkdate 9999 12 31) (Z.to_nat (Z.max 1 2) - 1) = None
  /\ exists w',
       create_table cfg0 (PyDate.isoformat (PyDate.mkdate 9999 12 31)) 2 world0
       = (Raise OverflowError, w').
Proof.
  assert (H1 : PyDate.valid (PyDate.mkdate 9999 12 31) = true) by reflexivity.
  assert (H2 : PyDate.add_days (PyDate.mkdate 9999 12 31) (Z.to_nat (Z.max 1 2) - 1) = None)
    by reflexivity.
  split; [exact H1|]. split; [exact H2|].
  exact (create_table_overflow cfg0 _ 2 world0 H1 H2).
Defined.

Lemma normalize_rows_no_amount (cfg : dict) (sd : PyDate.date) (rows : list value) :
  Forall no_freight rows ->
  forall i w out w',
    normalize_rows cfg sd i rows w = (Ok out, w') ->
    Forall (fun v => exists r, v = VDict r /\ get r "amount" = VStr "") out.
Proof.
  induction 1 as [|rr rows (r & -> & Hf) Hall IH]; intros i w out w' Hrun.
  - injection Hrun as <- <-. constructor.
  - rewrite normalize_rows_dict in Hrun.
    destruct (row_out cfg sd i (next_row_id w) r) as [r'|e] eqn:Hrow; [|discriminate].
    destruct (normalize_rows cfg sd (S i) rows (draw w)) as [[out0|e] w0] eqn:Hrest;
      [|discriminate].
    injection Hrun as <- <-. constructor; [|now apply (IH _ _ _ _ Hrest)].
    apply row_out_inv in Hrow as (di & a & _ & Ha & ->). cbv zeta in Ha.
    eexists. split; [reflexivity|]. rewrite get_set_eq. f_equal.
    unfold compute_amount in Ha. rewrite get_set_ne in Ha by discriminate.
    assert (Hfr : get (ensure_row_defaults cfg (Assoc.setdefault r "id" (VStr (next_row_id w))))
                      "freight" = VStr "").
    { rewrite <- Hf. apply get_lookup.
      rewrite erd_lookup_other by discriminate.
      rewrite lookup_setdefault. destruct (Assoc.lookup r "freight"); reflexivity. }
    rewrite Hfr, to_decimal_empty in Ha. now injection Ha as <-.
Qed.

Lemma sum_no_amounts (rows : list value) (total : decimal) :
  Forall (fun v => exists r, v = VDict r /\ get r "amount" = VStr "") rows ->
  sum_amounts total rows = Ok total.
Proof.
  induction 1 as [|v rows (r & -> & Ha) _ IH]; [reflexivity|].
  cbn [sum_amounts]. now rewrite Ha, to_decimal_empty.
Qed.

(** X21.  A table that [create_table] returned for a calendar date has
    nothing to add up: [summarize_table] returns the total 0 and the
    table renamed to the start date, a hyphen and the date of its last
    row. *)
Theorem created_table_summary (cfg : dict) (d : PyDate.date) (n : Z) (w w1 : world) (t : dict) :
  PyDate.valid d = true ->
  create_table cfg (PyDate.isoformat d) n w = (Ok t, w1) ->
  forall w2, exists dl w3,
    PyDate.add_days d (Z.to_nat (Z.max 1 n) - 1) = Some dl
    /\ summarize_table cfg t w2 =
       (Ok (Assoc.set t "name" (VStr (PyDate.isoformat d ++ "-" ++ PyDate.isoformat dl)),
            Fin false 0 0), w3).
Proof.
  intros Hv Hrun w2.
  destruct (create_table_dated cfg d n w w1 t Hv Hrun) as ((Hs & rows' & Hr' & Hlen' & Hrow) & Hfix).
  destruct (create_table_parts cfg d n w w1 t Hv Hrun)
    as (rows & c & u & out & wa & wd & we & Hfresh & Hout & Ht).
  destruct (fresh_rows_spec _ _ _ _ _ _ _ Hfresh) as (Hlen & Hno).
  pose proof (normalize_rows_no_amount cfg d rows Hno 0 wd out we Hout) as Hamt.
  assert (Hrows : Assoc.lookup t "rows" = Some (VList out))
    by (rewrite Ht; apply lookup_finish_rows).
  assert (rows' = out) as -> by (unfold get in Hr'; rewrite Hrows in Hr'; congruence).
  destruct (lookup_lt_is_Some_2 out (Z.to_nat (Z.max 1 n) - 1)) as (r & Hlast); [lia|].
  destruct (Hrow _ _ Hlast) as (rd & dl & -> & Hdl & Hload).
  destruct (Hfix w2) as (w3 & Hnorm).
  exists dl, w3. split; [exact Hdl|].
  unfold summarize_table. unfold bind at 1. rewrite Hnorm. cbv zeta.
  replace (get_default t "rows" (VList [])) with (VList out)
    by (unfold get_default; now rewrite Hrows).
  unfold bind at 1, lift. rewrite (sum_no_amounts out _ Hamt).
  rewrite Hs.
  replace (strip (str (or_empty (VStr (PyDate.isoformat d))))) with (PyDate.isoformat d)
    by (unfold or_empty; simpl; now rewrite strip_isoformat).
  rewrite isoformat_not_empty. cbn [negb]. cbv iota. unfold bind, ret.
  rewrite last_lookup, Hlen'. replace (Init.Nat.pred (Z.to_nat (Z.max 1 n)))
    with (Z.to_nat (Z.max 1 n) - 1) by lia.
  rewrite Hlast, Hload.
  replace (strip (str (or_empty (VStr (PyDate.isoformat dl))))) with (PyDate.isoformat dl)
    by (unfold or_empty; simpl; now rewrite strip_isoformat).
  now rewrite isoformat_not_empty.
Qed.

Lemma created_table_summary_witness :
  PyDate.valid (PyDate.mkdate 2026 2 25) = true
  /\ exists t w1,
       create_table cfg0 (PyDate.isoformat (PyDate.mkdate 2026 2 25)) 2 world0 = (Ok t, w1)
       /\ forall w2, exists dl w3,
            PyDate.add_days (PyDate.mkdate 2026 2 25) (Z.to_nat (Z.max 1 2) - 1) = Some dl
            /\ summarize_table cfg0 t w2 =
               (Ok (Assoc.set t "name"
                      (VStr (PyDate.isoformat (PyDate.mkdate 2026 2 25) ++ "-"
                             ++ PyDate.isoformat dl)),
                    Fin false 0 0), w3).
Proof.
  assert (H1 : PyDate.valid (PyDate.mkdate 2026 2 25) = true) by reflexivity.
  split; [exact H1|].
  destruct (create_table cfg0 (PyDate.isoformat (PyDate.mkdate 2026 2 25)) 2 world0)
    as [[t|e] w1] eqn:E; [|vm_compute in E; discriminate E].
  exists t, w1. split; [reflexivity|].
  exact (created_table_summary cfg0 _ 2 world0 w1 t H1 E).
Defined.

End CreateFacts.

(** ** Creating, saving and loading a table *)

Module SmokeFacts.
Import PyStr Py Storage AssocFacts StrFacts DateFacts PersistFacts NormFacts TableFacts CreateFacts.


Section Smoke.
Context {J : Json}.


End Smoke.


End SmokeFacts.

(** ** [export_csv_bytes] *)

Module CsvFacts.
Import PyStr Py Storage PyCsv StrFacts DigitFacts PlainFacts.
Export CsvDefs.

Lemma count_char_app (c : ascii) (s t : string) :
  count_char c (s ++ t) = count_char c s + count_char c t.
Proof.
  induction s as [|a s IH]; [now rewrite append_nil_l|].
  rewrite append_cons. cbn [count_char]. rewrite IH. lia.
Qed.

Lemma count_lf_double_quotes (s : string) :
  count_char lf (double_quotes s) = count_char lf s.
Proof.
  induction s as [|a s IH]; [reflexivity|]. cbn [double_quotes].
  destruct (Ascii.eqb a dquote) eqn:E.
  - apply Ascii.eqb_eq in E. subst a. cbn [count_char].
    change (Ascii.eqb dquote lf) with false. cbn iota. now rewrite IH.
  - cbn [count_char]. now rewrite IH.
Qed.

Lemma count_lf_write_field (s : string) : count_char lf (write_field s) = count_char lf s.
Proof.
  unfold write_field, quoted. destruct (needs_quote s); [|reflexivity].
  cbn [count_char]. change (Ascii.eqb dquote lf) with false. cbn iota.
  rewrite count_char_app, count_lf_double_quotes. cbn [count_char].
  change (Ascii.eqb dquote lf) with false. cbn iota. lia.
Qed.

Lemma no_lf_count (s : string) : contains_char lf s = false -> count_char lf s = 0.
Proof.
  induction s as [|a s IH]; [reflexivity|]. cbn [contains_char count_char].
  intros H. apply orb_false_elim in H as [-> H]. now rewrite IH.
Qed.

Lemma count_lf_join (texts : list string) :
  Forall (fun s => contains_char lf s = false) texts ->
  count_char lf (join "," (map write_field texts)) = 0.
Proof.
  induction 1 as [|t texts Ht Hall IH]; [reflexivity|].
  destruct texts as [|t2 texts'].
  - cbn [map join]. rewrite count_lf_write_field. now apply no_lf_count.
  - change (join "," (map write_field (t :: t2 :: texts')))
      with (write_field t ++ "," ++ join "," (map write_field (t2 :: texts')))%string.
    rewrite !count_char_app, count_lf_write_field, (no_lf_count t Ht), IH. reflexivity.
Qed.

Lemma count_lf_record (texts : list string) :
  Forall (fun s => contains_char lf s = false) texts ->
  count_char lf (write_record texts) = 1.
Proof.
  intros H.
  assert (Hgen : count_char lf (join "," (map write_field texts) ++ String lf EmptyString) = 1).
  { rewrite count_char_app, (count_lf_join texts H). reflexivity. }
  unfold write_record. destruct texts as [|[|a t] [|t2 texts']]; exact Hgen.
Qed.

Lemma writerow_cells (keys : list string) (d : dict) :
  writerow (map (fun k => get_default d k (VStr "")) keys)
  = write_record (map (fun k => field_text (get_default d k (VStr ""))) keys).
Proof. unfold writerow. now rewrite map_map. Qed.

Lemma count_lf_rows (keys : list string) (rows : list value) :
  Forall (Forall (fun s => contains_char lf s = false)) (cell_rows keys rows) ->
  count_char lf (csv_rows keys rows) = length (cell_rows keys rows).
Proof.
  induction rows as [|r rows IH]; [reflexivity|].
  destruct r as [| | | | | |d]; cbn [csv_rows cell_rows]; try exact IH.
  intros H. apply Forall_cons_iff in H as [H1 H2].
  rewrite count_char_app, writerow_cells, (count_lf_record _ H1), (IH H2). reflexivity.
Qed.

(** X23.  [export_csv_bytes] writes one line for the header and one for
    each row that is a dict: when no cell holds a line feed, the number
    of line feeds in the export is the number of those rows plus one. *)
Theorem export_csv_lines (table : dict) :
  Forall (Forall (fun s => contains_char lf s = false)) (cells table) ->
  count_char lf (export_csv_bytes table) = S (length (cells table)).
Proof.
  unfold export_csv_bytes, cells. cbv zeta. intros H.
  rewrite !count_char_app.
  change (count_char lf bom) with 0.
  change (count_char lf (writerow (map (fun kh => VStr (snd kh)) FIXED_HEADERS))) with 1.
  destruct (get_default table "rows" (VList [])) as [| | | | |rows|]; try reflexivity.
  now rewrite (count_lf_rows _ rows H).
Qed.

Lemma export_csv_lines_witness :
  Forall (Forall (fun s => contains_char lf s = false)) (cells quoting_table)
  /\ count_char lf (export_csv_bytes quoting_table) = S (length (cells quoting_table)).
Proof.
  assert (H : Forall (Forall (fun s => contains_char lf s = false)) (cells quoting_table))
    by (repeat constructor).
  split; [exact H|]. exact (export_csv_lines quoting_table H).
Defined.

(** *** The records can be told apart *)

Lemma special_false (c : ascii) :
  special c = false ->
  Ascii.eqb c "," = false /\ Ascii.eqb c dquote = false /\ Ascii.eqb c lf = false.
Proof.
  unfold special. intros H. apply orb_false_elim in H as [H H3].
  apply orb_false_elim in H as [H1 H2]. auto.
Qed.

Lemma read_plain (s : string) :
  forall st cur rest f r,
    st = AtStart \/ st = InPlain ->
    needs_quote s = false ->
    exists st', (st' = AtStart \/ st' = InPlain)
                /\ read (s ++ rest) st cur f r = read rest st' (cur ++ s) f r.
Proof.
  induction s as [|a s IH]; intros st cur rest f r Hst Hq.
  - exists st. split; [exact Hst|]. now rewrite append_nil_l, append_nil_r.
  - cbn [needs_quote] in Hq. apply orb_false_elim in Hq as [Ha Hq].
    apply special_false in Ha as (H1 & H2 & H3).
    destruct (IH InPlain (cur ++ String a EmptyString)%string rest f r (or_intror eq_refl) Hq)
      as (st' & Hst' & Hread).
    exists st'. split; [exact Hst'|].
    rewrite append_cons.
    replace (cur ++ String a s)%string with ((cur ++ String a EmptyString) ++ s)%string
      by (now rewrite append_assoc, append_cons, append_nil_l).
    rewrite <- Hread.
    destruct Hst as [-> | ->]; cbn [read]; rewrite H1, H2, H3; reflexivity.
Qed.

Lemma read_comma (st : rstate) (cur rest : string) (f : list string) (r : list (list string)) :
  st <> InQuoted ->
  read (String "," rest) st cur f r = read rest AtStart EmptyString (cur :: f) r.
Proof. destruct st; try reflexivity. congruence. Qed.

Lemma read_lf (st : rstate) (cur rest : string) (f : list string) (r : list (list string)) :
  st <> InQuoted ->
  read (String lf rest) st cur f r = read rest AtStart EmptyString [] (rev (cur :: f) :: r).
Proof. destruct st; try reflexivity. congruence. Qed.

Lemma read_quoted_body (s : string) :
  forall cur rest f r,
    read (double_quotes s ++ String dquote rest) InQuoted cur f r
    = read rest AfterQuote (cur ++ s) f r.
Proof.
  induction s as [|a s IH]; intros cur rest f r.
  - cbn [double_quotes]. rewrite append_nil_l, append_nil_r. reflexivity.
  - cbn [double_quotes].
    replace (cur ++ String a s)%string with ((cur ++ String a EmptyString) ++ s)%string
      by (now rewrite append_assoc, append_cons, append_nil_l).
    destruct (Ascii.eqb a dquote) eqn:E.
    + apply Ascii.eqb_eq in E. subst a. rewrite !append_cons.
      change (read (String dquote (String dquote (double_quotes s ++ String dquote rest)))
                InQuoted cur f r)
        with (read (double_quotes s ++ String dquote rest) InQuoted
                (cur ++ String dquote EmptyString) f r).
      apply IH.
    + rewrite append_cons. cbn [read]. rewrite E. apply IH.
Qed.

Lemma read_quoted (s rest : string) (f : list string) (r : list (list string)) :
  read (quoted s ++ rest) AtStart EmptyString f r = read rest AfterQuote s f r.
Proof.
  unfold quoted. rewrite append_cons, append_assoc, append_cons, append_nil_l.
  change (read (String dquote (double_quotes s ++ String dquote rest)) AtStart EmptyString f r)
    with (read (double_quotes s ++ String dquote rest) InQuoted EmptyString f r).
  rewrite read_quoted_body. now rewrite append_nil_l.
Qed.

Lemma read_field_comma (s rest : string) (f : list string) (r : list (list string)) :
  read (write_field s ++ String "," rest) AtStart EmptyString f r
  = read rest AtStart EmptyString (s :: f) r.
Proof.
  unfold write_field. destruct (needs_quote s) eqn:Hq.
  - rewrite read_quoted. now apply read_comma.
  - destruct (read_plain s AtStart EmptyString (String "," rest) f r (or_introl eq_refl) Hq)
      as (st' & Hst' & ->).
    rewrite append_nil_l. apply read_comma. destruct Hst' as [-> | ->]; discriminate.
Qed.

Lemma read_field_lf (s rest : string) (f : list string) (r : list (list string)) :
  read (write_field s ++ String lf rest) AtStart EmptyString f r
  = read rest AtStart EmptyString [] (rev (s :: f) :: r).
Proof.
  unfold write_field. destruct (needs_quote s) eqn:Hq.
  - rewrite read_quoted. now apply read_lf.
  - destruct (read_plain s AtStart EmptyString (String lf rest) f r (or_introl eq_refl) Hq)
      as (st' & Hst' & ->).
    rewrite append_nil_l. apply read_lf. destruct Hst' as [-> | ->]; discriminate.
Qed.

Lemma read_join (ts : list string) :
  ts <> [] ->
  forall f rest r,
    read (join "," (map write_field ts) ++ String lf rest) AtStart EmptyString f r
    = read rest AtStart EmptyString [] ((rev f ++ ts)%list :: r).
Proof.
  induction ts as [|t ts IH]; [congruence|]. intros _ f rest r.
  destruct ts as [|t2 ts'].
  - cbn [map join]. rewrite read_field_lf. reflexivity.
  - change (join "," (map write_field (t :: t2 :: ts')))
      with (write_field t ++ "," ++ join "," (map write_field (t2 :: ts')))%string.
    rewrite !append_assoc, append_cons, append_nil_l, read_field_comma.
    rewrite IH by discriminate. cbn [rev]. now rewrite <- app_assoc.
Qed.

Lemma read_record (ts : list string) (rest : string) (r : list (list string)) :
  ts <> [] ->
  read (write_record ts ++ rest) AtStart EmptyString [] r
  = read rest AtStart EmptyString [] (ts :: r).
Proof.
  intros Hne.
  assert (Hgen : read ((join "," (map write_field ts) ++ String lf EmptyString) ++ rest)
                   AtStart EmptyString [] r
                 = read rest AtStart EmptyString [] (ts :: r)).
  { rewrite append_assoc, append_cons, append_nil_l. now rewrite read_join. }
  unfold write_record. destruct ts as [|[|a t] [|t2 ts']];
    first [exact Hgen
          | rewrite append_assoc, append_cons, append_nil_l, read_quoted; reflexivity].
Qed.

Lemma read_rows (keys : list string) (rows : list value) :
  keys <> [] ->
  forall rest r,
    read (csv_rows keys rows ++ rest) AtStart EmptyString [] r
    = read rest AtStart EmptyString [] (rev (cell_rows keys rows) ++ r)%list.
Proof.
  intros Hk. induction rows as [|v rows IH]; intros rest r.
  - now rewrite append_nil_l.
  - destruct v as [| | | | | |d]; cbn [csv_rows cell_rows]; try apply IH.
    rewrite append_assoc, writerow_cells, read_record by (destruct keys; [congruence|discriminate]).
    rewrite IH. cbn [rev]. now rewrite <- app_assoc.
Qed.

Lemma append_inj_l (s x y : string) : (s ++ x = s ++ y)%string -> x = y.
Proof.
  induction s as [|a s IH]; [now rewrite !append_nil_l|].
  rewrite !append_cons. intros [= H]. now apply IH.
Qed.

(** What the reader makes of an export without its byte order mark. *)
Lemma read_export (table : dict) :
  exists body,
    export_csv_bytes table = (bom ++ body)%string
    /\ read body AtStart EmptyString [] []
       = map (fun kh => snd kh) FIXED_HEADERS :: cells table.
Proof.
  unfold export_csv_bytes, cells. cbv zeta. eexists. split; [reflexivity|].
  unfold writerow. rewrite map_map. cbn [snd].
  replace (map (fun x : string * string => field_text (VStr (snd x))) FIXED_HEADERS)
    with (map (fun kh : string * string => snd kh) FIXED_HEADERS) by reflexivity.
  rewrite read_record by discriminate.
  destruct (get_default table "rows" (VList [])) as [| | | | |rows|]; try reflexivity.
  rewrite <- (append_nil_r (csv_rows _ rows)), read_rows by discriminate.
  cbn [read]. rewrite rev_app_distr, rev_involutive. reflexivity.
Qed.

(** X24.  The export tells the cells: two tables with the same export
    have the same rows of cell texts, whatever the cells hold (commas,
    double quotes, line feeds). *)
Theorem export_csv_injective (t t' : dict) :
  export_csv_bytes t = export_csv_bytes t' -> cells t = cells t'.
Proof.
  intros H.
  destruct (read_export t) as (b & Hb & Hr). destruct (read_export t') as (b' & Hb' & Hr').
  rewrite Hb, Hb' in H. apply append_inj_l in H. subst b'.
  rewrite Hr in Hr'. now injection Hr'.
Qed.

Lemma export_csv_injective_witness :
  export_csv_bytes quoting_table = export_csv_bytes quoting_table2
  /\ cells quoting_table = cells quoting_table2.
Proof.
  assert (H : export_csv_bytes quoting_table = export_csv_bytes quoting_table2)
    by (vm_compute; reflexivity).
  split; [exact H|]. exact (export_csv_injective quoting_table quoting_table2 H).
Defined.

End CsvFacts.

(** ** Saving and deleting *)

Module DeleteFacts.
Import PyStr Py Storage AssocFacts StrFacts PersistFacts NormFacts.
Export MoreDefs.

Section Delete.
Context {J : Json}.


End Delete.


End DeleteFacts.

(** ** [ensure_row_defaults] by reference *)

Module CopyFacts.
Import PyStr Ref Storage RefStorage AssocFacts StrFacts FrameFacts.

(** X26.  [ensure_row_defaults] works on a copy: whatever its outcome,
    every object that existed before the call is unchanged, the row it
    was given included; what it returns is a new dict that agrees with
    the row on every key but vehicle and model and keeps a vehicle and a
    model that are not blank. *)
Theorem ensure_row_defaults_copies (cfg row : nat) (ra : list (string * hvalue))
    (w w' : world) (res : result nat) :
  mem w !! row = Some (ODict ra) ->
  ensure_row_defaults cfg row w = (res, w') ->
  extends (mem w) (mem w')
  /\ match res with
     | Ok r2 =>
         mem w !! r2 = None
         /\ exists rb,
              mem w' !! r2 = Some (ODict rb)
              /\ (forall k, k <> "vehicle" -> k <> "model" ->
                            Assoc.lookup rb k = Assoc.lookup ra k)
              /\ kept (mem w) "vehicle" ra rb
              /\ kept (mem w) "model" ra rb
     | Raise _ => True
     end.
Proof.
  intros Hrow H. apply (ensure_row_defaults_run cfg row ra) in H; [|exact Hrow].
  destruct res as [r2|e].
  - destruct H as (-> & rb & Hm & Hother & Hv & Hmo).
    split; [rewrite Hm; apply extends_app|].
    split; [now apply lookup_ge_None_2|].
    exists rb. split; [rewrite Hm; apply lookup_end|]. auto.
  - destruct H as (ext & ->). split; [apply extends_app | exact I].
Qed.

Lemma ensure_row_defaults_copies_witness :
  mem world0 !! 3 = Some (ODict row0)
  /\ exists res w',
       ensure_row_defaults 0 3 world0 = (res, w')
       /\ extends (mem world0) (mem w')
       /\ match res with
          | Ok r2 =>
              mem world0 !! r2 = None
              /\ exists rb,
                   mem w' !! r2 = Some (ODict rb)
                   /\ (forall k, k <> "vehicle" -> k <> "model" ->
                                 Assoc.lookup rb k = Assoc.lookup row0 k)
                   /\ kept (mem world0) "vehicle" row0 rb
                   /\ kept (mem world0) "model" row0 rb
          | Raise _ => True
          end.
Proof.
  assert (H : mem world0 !! 3 = Some (ODict row0)) by reflexivity.
  split; [exact H|].
  exists (fst (ensure_row_defaults 0 3 world0)), (snd (ensure_row_defaults 0 3 world0)).
  split; [now destruct (ensure_row_defaults 0 3 world0)|].
  apply (ensure_row_defaults_copies 0 3 row0 world0 _ _ H).
  now destruct (ensure_row_defaults 0 3 world0).
Defined.

End CopyFacts.
